(** * Blackjack AI with card counting: a shallow embedding of the game engine

    Source files: [blackjackai.py] (cards, shoe, hands, Hi-Lo counter, bet
    sizing, basic strategy, the per-hand orchestration) and [blackjackapp.py]
    (the routes [newGame] and [playHand], the statistics snapshot
    [getStats] and [calculateHandValue]).

    Conventions of the embedding.
    - Python [int] is [Z].  The money and count values, Python [float]s,
      are [Q], exact rationals: the development reasons about the
      arithmetic the code writes down, and a statement about them says
      so where a product is the code's own.  Concrete inputs are chosen
      dyadic or small so that the float computation is exact on them.
      [penetration] is the exception: it reaches [int()], where rounding,
      overflow and NaN decide the result, and is an IEEE 754 binary64
      number ([Float64]).
    - A Python list that is only read, appended to, or popped from its end
      is a Rocq [list]; the shoe is kept top card first, so [cards.pop()]
      removes the head.
    - A call that may raise or loop returns an [outcome]. *)

From Stdlib Require Import ZArith QArith Qminmax Qfield List Bool Lia Lqa
  Permutation SpecFloat.
Import ListNotations.

Local Open Scope Z_scope.

(** ** Outcomes of fallible calls *)

Inductive exn : Type :=
| IndexError          (* [list.pop()] on an empty list, [cards[0]] on an empty hand *)
| ConfigurationError  (* the spec's name for a rejected configuration *)
| OverflowError       (* [int(x)] on an infinite float *)
| ValueError          (* [int(x)] on a NaN *)
| Diverges.           (* a [while True] iteration that changes nothing *)

Inductive outcome (A : Type) : Type :=
| Ok (a : A)
| Raise (e : exn).

Arguments Ok {A} a.
Arguments Raise {A} e.

Definition bind {A B : Type} (m : outcome A) (k : A -> outcome B) : outcome B :=
  match m with
  | Ok a => k a
  | Raise e => Raise e
  end.

Notation "x <- m ;; k" := (bind m (fun x => k))
  (at level 61, m at next level, right associativity).
Notation "' p <- m ;; k" := (bind m (fun p => k))
  (at level 61, p pattern, m at next level, right associativity).

(** ** Python's comparison, [min] and [max] on floats *)

Definition Qltb (x y : Q) : bool := negb (Qle_bool y x).

(** [min(a, b)] returns [a] unless [b < a]; [max(a, b)] returns [a] unless
    [b > a]. *)
Definition pymin (a b : Q) : Q := if Qltb b a then b else a.
Definition pymax (a b : Q) : Q := if Qltb a b then b else a.

(** ** Python's [float] where rounding decides: IEEE 754 binary64

    The operations are those of the Standard Library's [SpecFloat] at
    precision 53 and maximal exponent 1024, rounding to nearest, ties to
    even, as CPython's [float] does. *)

Module Float64.

Definition t : Type := spec_float.

Definition prec : Z := 53.
Definition emax : Z := 1024.

(** [float(z)] for an [int] [z]: the nearest double; exact below 2^53. *)
Definition ofZ (z : Z) : t := binary_normalize prec emax z 0 false.

(** The double a literal such as [0.75] denotes: the double nearest to
    the fraction, for a numerator and a denominator below 2^53. *)
Definition ofQ (q : Q) : t :=
  SFdiv prec emax (ofZ (Qnum q)) (ofZ (Zpos (Qden q))).

Definition inf : t := S754_infinity false.
Definition nan : t := S754_nan.

Definition sub (x y : t) : t := SFsub prec emax x y.
Definition mul (x y : t) : t := SFmul prec emax x y.

(** [x < y]; false when either is a NaN. *)
Definition ltb (x y : t) : bool := SFltb x y.

(** The integer part of a finite double; 0 stands in for the infinities
    and NaN, on which [int()] does not return. *)
Definition trunc (x : t) : Z :=
  match x with
  | S754_finite s m e =>
      let a :=
        match e with
        | Z0 => Zpos m
        | Zpos k => Zpos m * 2 ^ Zpos k
        | Zneg k => Zpos m / 2 ^ Zpos k
        end in
      if s then - a else a
  | _ => 0
  end.

(** [int(x)] on a float: truncation toward zero. *)
Definition toInt (x : t) : outcome Z :=
  match x with
  | S754_infinity _ => Raise OverflowError
  | S754_nan => Raise ValueError
  | _ => Ok (trunc x)
  end.

End Float64.

(** ** class Action *)

Inductive Action : Type := HIT | STAND | DOUBLE | SPLIT.

(** ** class Card *)

Module Card.

Inductive Rank : Type :=
| R2 | R3 | R4 | R5 | R6 | R7 | R8 | R9 | R10 | RJ | RQ | RK | RA.

Inductive Suit : Type := Spades | Hearts | Diamonds | Clubs.

Record t : Type := mk { rank : Rank; suit : Suit }.

Definition RANKS : list Rank :=
  [R2; R3; R4; R5; R6; R7; R8; R9; R10; RJ; RQ; RK; RA].
Definition SUITS : list Suit := [Spades; Hearts; Diamonds; Clubs].

Definition isAce (c : t) : bool :=
  match rank c with RA => true | _ => false end.

Definition getValue (c : t) : Z :=
  match rank c with
  | RJ | RQ | RK => 10
  | RA => 11
  | R2 => 2 | R3 => 3 | R4 => 4 | R5 => 5 | R6 => 6
  | R7 => 7 | R8 => 8 | R9 => 9 | R10 => 10
  end.

End Card.

(** ** class Deck *)

Module Deck.

(** [cards] lists the shoe top card first: its head is Python's
    [self.cards[-1]]. *)
Record t : Type := mk {
  numDecks : nat;
  cards : list Card.t;
  totalCards : Z
}.

Definition oneSuit (s : Card.Suit) : list Card.t :=
  map (fun r => Card.mk r s) Card.RANKS.

Definition oneDeck : list Card.t := flat_map oneSuit Card.SUITS.

(** The list the three nested loops of [reset] append to, in append
    order (so its last element is the first card [pop] would return). *)
Fixpoint built (n : nat) : list Card.t :=
  match n with
  | O => []
  | S k => oneDeck ++ built k
  end.

(** The unshuffled shoe, top card first. *)
Definition fresh (n : nat) : list Card.t := rev (built n).

Definition dealCard (d : t) : outcome (Card.t * t) :=
  match cards d with
  | [] => Raise IndexError
  | c :: rest => Ok (c, mk (numDecks d) rest (totalCards d))
  end.

Definition cardsRemaining (d : t) : Z := Z.of_nat (length (cards d)).

Definition decksRemaining (d : t) : Q :=
  (inject_Z (Z.of_nat (length (cards d))) / 52)%Q.

Definition needsReshuffle (d : t) (reshufflePoint : Z) : bool :=
  Z.of_nat (length (cards d)) <? reshufflePoint.

End Deck.

(** ** class Hand *)

Module Hand.

Record t : Type := mk {
  cards : list Card.t;
  betAmount : Q;
  isDoubled : bool;
  wasSplit : bool
}.

Definition new : t := mk [] 0%Q false false.

Definition addCard (h : t) (c : Card.t) : t :=
  mk (cards h ++ [c]) (betAmount h) (isDoubled h) (wasSplit h).

Definition rawTotal (cs : list Card.t) : Z :=
  fold_right (fun c acc => Card.getValue c + acc) 0 cs.

Definition countAces (cs : list Card.t) : nat :=
  length (filter Card.isAce cs).

(** The loop [while totalValue > 21 and numAces > 0]; it returns both
    loop variables as they stand when the loop exits. *)
Fixpoint reduceAces (numAces : nat) (totalValue : Z) : Z * nat :=
  match numAces with
  | O => (totalValue, O)
  | S k =>
      if 21 <? totalValue then reduceAces k (totalValue - 10)
      else (totalValue, numAces)
  end.

Definition getValue (h : t) : Z :=
  fst (reduceAces (countAces (cards h)) (rawTotal (cards h))).

Definition isSoft (h : t) : bool :=
  let totalValue := rawTotal (cards h) in
  let numAces := countAces (cards h) in
  (0 <? Z.of_nat numAces) && (totalValue <=? 21).

(** The spec's words: "at least one ace still counted as 11 and total at
    most 21", read off the state in which [getValue]'s loop exits: the
    aces left in [numAces] are those still counted as 11. *)
Definition isSoftSpec (h : t) : bool :=
  let '(value, acesAt11) :=
    reduceAces (countAces (cards h)) (rawTotal (cards h)) in
  (0 <? Z.of_nat acesAt11) && (value <=? 21).

Definition isBlackjack (h : t) : bool :=
  (Nat.eqb (length (cards h)) 2) && (getValue h =? 21).

Definition isBusted (h : t) : bool := 21 <? getValue h.

Definition canSplit (h : t) : bool :=
  match cards h with
  | [c0; c1] => Card.getValue c0 =? Card.getValue c1
  | _ => false
  end.

(** The hand's total with every ace counted as 1. *)
Definition hardTotal (cs : list Card.t) : Z :=
  rawTotal cs - 10 * Z.of_nat (countAces cs).

End Hand.

(** ** class CardCounter *)

Module CardCounter.

Record t : Type := mk { runningCount : Z; cardsSeen : Z }.

Definition new : t := mk 0 0.

Definition countValue (c : Card.t) : Z :=
  match Card.rank c with
  | Card.R2 | Card.R3 | Card.R4 | Card.R5 | Card.R6 => 1
  | Card.R7 | Card.R8 | Card.R9 => 0
  | _ => -1
  end.

(** [countCard] returns the delta and updates both fields. *)
Definition countCard (k : t) (c : Card.t) : Z * t :=
  (countValue c, mk (runningCount k + countValue c) (cardsSeen k + 1)).

Definition getTrueCount (k : t) (decksRemaining : Q) : Q :=
  if Qle_bool decksRemaining 0 then 0%Q
  else (inject_Z (runningCount k) / decksRemaining)%Q.

Definition reset (k : t) : t := mk 0 0.

End CardCounter.

(** ** class BankrollManager *)

Module BankrollManager.

Record t : Type := mk { baseBet : Q; maxBetMultiplier : Q }.

Definition stepMultiplier (trueCount : Q) : Q :=
  if Qltb trueCount 1 then 1%Q
  else if Qltb trueCount 2 then 2%Q
  else if Qltb trueCount 3 then 4%Q
  else if Qltb trueCount 4 then 6%Q
  else 8%Q.

(** [currentBankroll * 0.05], the code's [maxAllowedBet].  In the code
    this is a double product, which rounding can put above the exact
    twentieth of the bankroll; here it is the exact product, and what is
    stated of the 5% cap is stated of this value, the one the code
    compares the bet with. *)
Definition maxAllowedBet (currentBankroll : Q) : Q :=
  (currentBankroll * (5 # 100))%Q.

Definition getBetAmount (m : t) (trueCount currentBankroll : Q) : Q :=
  let multiplier := stepMultiplier trueCount in
  let multiplier := pymin multiplier (maxBetMultiplier m) in
  let betAmount := (baseBet m * multiplier)%Q in
  let maxAllowedBet := maxAllowedBet currentBankroll in
  let betAmount := pymin betAmount maxAllowedBet in
  let betAmount := pymin betAmount currentBankroll in
  pymax (baseBet m) betAmount.

End BankrollManager.

(** ** class BasicStrategy *)

Module BasicStrategy.

Definition hardHandStrategy (playerValue dealerValue : Z) (canDouble : bool)
  : Action :=
  if 17 <=? playerValue then STAND
  else if (13 <=? playerValue) && (playerValue <=? 16) then
    if (2 <=? dealerValue) && (dealerValue <=? 6) then STAND else HIT
  else if playerValue =? 12 then
    if (4 <=? dealerValue) && (dealerValue <=? 6) then STAND else HIT
  else if playerValue =? 11 then
    if canDouble then DOUBLE else HIT
  else if playerValue =? 10 then
    if canDouble && (dealerValue <=? 9) then DOUBLE else HIT
  else if playerValue =? 9 then
    if canDouble && ((3 <=? dealerValue) && (dealerValue <=? 6))
    then DOUBLE else HIT
  else HIT.

Definition inZ (x : Z) (l : list Z) : bool := existsb (Z.eqb x) l.

Definition softHandStrategy (playerValue dealerValue : Z) (canDouble : bool)
  : Action :=
  if 19 <=? playerValue then STAND
  else if playerValue =? 18 then
    if canDouble && inZ dealerValue [3; 4; 5; 6] then DOUBLE
    else if inZ dealerValue [2; 7; 8] then STAND
    else HIT
  else if playerValue =? 17 then
    if canDouble && inZ dealerValue [3; 4; 5; 6] then DOUBLE else HIT
  else if inZ playerValue [15; 16] then
    if canDouble && inZ dealerValue [4; 5; 6] then DOUBLE else HIT
  else if inZ playerValue [13; 14] then
    if canDouble && inZ dealerValue [5; 6] then DOUBLE else HIT
  else HIT.

(** [playerHand.cards[0]] raises [IndexError] on an empty hand. *)
Definition pairSplittingStrategy (playerHand : Hand.t) (dealerValue : Z)
  : outcome Action :=
  match Hand.cards playerHand with
  | [] => Raise IndexError
  | c0 :: _ =>
      let cardValue := Card.getValue c0 in
      if (cardValue =? 11) || (cardValue =? 8) then Ok SPLIT
      else if (cardValue =? 5) || (cardValue =? 10) then
        Ok (hardHandStrategy (Hand.getValue playerHand) dealerValue true)
      else if inZ cardValue [2; 3; 7]
              && ((2 <=? dealerValue) && (dealerValue <=? 7)) then Ok SPLIT
      else if (cardValue =? 4)
              && ((5 <=? dealerValue) && (dealerValue <=? 6)) then Ok SPLIT
      else if (cardValue =? 6)
              && ((2 <=? dealerValue) && (dealerValue <=? 6)) then Ok SPLIT
      else if (cardValue =? 9)
              && (((2 <=? dealerValue) && (dealerValue <=? 6))
                  || ((8 <=? dealerValue) && (dealerValue <=? 9)))
      then Ok SPLIT
      else Ok (hardHandStrategy (Hand.getValue playerHand) dealerValue true)
  end.

Definition getAction (playerHand : Hand.t) (dealerUpcard : Card.t)
           (canDouble canSplit : bool) : outcome Action :=
  let playerValue := Hand.getValue playerHand in
  let dealerValue := Card.getValue dealerUpcard in
  if canSplit && Hand.canSplit playerHand then
    pairSplittingStrategy playerHand dealerValue
  else if Hand.isSoft playerHand
          && Nat.eqb (length (Hand.cards playerHand)) 2 then
    Ok (softHandStrategy playerValue dealerValue canDouble)
  else Ok (hardHandStrategy playerValue dealerValue canDouble).

End BasicStrategy.

(** ** class BlackjackGame *)

Module BlackjackGame.

(** The keyword arguments of [__init__]. *)
Record Config : Type := mkConfig {
  cfg_startingBankroll : Q;
  cfg_baseBet : Q;
  cfg_useCardCounting : bool;
  cfg_penetration : Float64.t;
  cfg_useWonging : bool;
  cfg_wongingThreshold : Q
}.

Definition defaultConfig : Config :=
  mkConfig 1000 10 true (Float64.ofQ (75 # 100)) true (-1).

(** The instance attributes, plus [shuffleIndex]: the position of the
    random source, that is, which shuffle produced the current shoe. *)
Record t : Type := mk {
  deck : Deck.t;
  bankroll : Q;
  baseBet : Q;
  useCardCounting : bool;
  useWonging : bool;
  wongingThreshold : Q;
  penetration : Float64.t;
  reshufflePoint : Z;
  counter : CardCounter.t;
  bankrollManager : BankrollManager.t;
  handsPlayed : Z;
  handsWon : Z;
  handsLost : Z;
  handsPushed : Z;
  handsSatOut : Z;
  totalWagered : Q;
  maxBankroll : Q;
  minBankroll : Q;
  shuffleIndex : nat
}.

Definition set_deck (g : t) (d : Deck.t) : t :=
  mk d (bankroll g) (baseBet g) (useCardCounting g) (useWonging g)
     (wongingThreshold g) (penetration g) (reshufflePoint g) (counter g)
     (bankrollManager g) (handsPlayed g) (handsWon g) (handsLost g)
     (handsPushed g) (handsSatOut g) (totalWagered g) (maxBankroll g)
     (minBankroll g) (shuffleIndex g).

Definition set_counter (g : t) (k : CardCounter.t) : t :=
  mk (deck g) (bankroll g) (baseBet g) (useCardCounting g) (useWonging g)
     (wongingThreshold g) (penetration g) (reshufflePoint g) k
     (bankrollManager g) (handsPlayed g) (handsWon g) (handsLost g)
     (handsPushed g) (handsSatOut g) (totalWagered g) (maxBankroll g)
     (minBankroll g) (shuffleIndex g).

Definition set_bankroll (g : t) (b : Q) : t :=
  mk (deck g) b (baseBet g) (useCardCounting g) (useWonging g)
     (wongingThreshold g) (penetration g) (reshufflePoint g) (counter g)
     (bankrollManager g) (handsPlayed g) (handsWon g) (handsLost g)
     (handsPushed g) (handsSatOut g) (totalWagered g) (maxBankroll g)
     (minBankroll g) (shuffleIndex g).

Definition set_handsPlayed (g : t) (n : Z) : t :=
  mk (deck g) (bankroll g) (baseBet g) (useCardCounting g) (useWonging g)
     (wongingThreshold g) (penetration g) (reshufflePoint g) (counter g)
     (bankrollManager g) n (handsWon g) (handsLost g)
     (handsPushed g) (handsSatOut g) (totalWagered g) (maxBankroll g)
     (minBankroll g) (shuffleIndex g).

Definition set_handsWon (g : t) (n : Z) : t :=
  mk (deck g) (bankroll g) (baseBet g) (useCardCounting g) (useWonging g)
     (wongingThreshold g) (penetration g) (reshufflePoint g) (counter g)
     (bankrollManager g) (handsPlayed g) n (handsLost g)
     (handsPushed g) (handsSatOut g) (totalWagered g) (maxBankroll g)
     (minBankroll g) (shuffleIndex g).

Definition set_handsLost (g : t) (n : Z) : t :=
  mk (deck g) (bankroll g) (baseBet g) (useCardCounting g) (useWonging g)
     (wongingThreshold g) (penetration g) (reshufflePoint g) (counter g)
     (bankrollManager g) (handsPlayed g) (handsWon g) n
     (handsPushed g) (handsSatOut g) (totalWagered g) (maxBankroll g)
     (minBankroll g) (shuffleIndex g).

Definition set_handsPushed (g : t) (n : Z) : t :=
  mk (deck g) (bankroll g) (baseBet g) (useCardCounting g) (useWonging g)
     (wongingThreshold g) (penetration g) (reshufflePoint g) (counter g)
     (bankrollManager g) (handsPlayed g) (handsWon g) (handsLost g)
     n (handsSatOut g) (totalWagered g) (maxBankroll g)
     (minBankroll g) (shuffleIndex g).

Definition set_handsSatOut (g : t) (n : Z) : t :=
  mk (deck g) (bankroll g) (baseBet g) (useCardCounting g) (useWonging g)
     (wongingThreshold g) (penetration g) (reshufflePoint g) (counter g)
     (bankrollManager g) (handsPlayed g) (handsWon g) (handsLost g)
     (handsPushed g) n (totalWagered g) (maxBankroll g)
     (minBankroll g) (shuffleIndex g).

Definition set_totalWagered (g : t) (w : Q) : t :=
  mk (deck g) (bankroll g) (baseBet g) (useCardCounting g) (useWonging g)
     (wongingThreshold g) (penetration g) (reshufflePoint g) (counter g)
     (bankrollManager g) (handsPlayed g) (handsWon g) (handsLost g)
     (handsPushed g) (handsSatOut g) w (maxBankroll g)
     (minBankroll g) (shuffleIndex g).

Definition set_minmax (g : t) (hi lo : Q) : t :=
  mk (deck g) (bankroll g) (baseBet g) (useCardCounting g) (useWonging g)
     (wongingThreshold g) (penetration g) (reshufflePoint g) (counter g)
     (bankrollManager g) (handsPlayed g) (handsWon g) (handsLost g)
     (handsPushed g) (handsSatOut g) (totalWagered g) hi lo
     (shuffleIndex g).

Definition set_shuffleIndex (g : t) (i : nat) : t :=
  mk (deck g) (bankroll g) (baseBet g) (useCardCounting g) (useWonging g)
     (wongingThreshold g) (penetration g) (reshufflePoint g) (counter g)
     (bankrollManager g) (handsPlayed g) (handsWon g) (handsLost g)
     (handsPushed g) (handsSatOut g) (totalWagered g) (maxBankroll g)
     (minBankroll g) i.

Section Engine.

(** The random source: [shuffle i l] is the order [random.shuffle]
    leaves the freshly built shoe [l] in on its [i]-th use. *)
Variable shuffle : nat -> list Card.t -> list Card.t.

(** [Deck(numDecks)] followed by [reset()]; also [Deck.reset]. *)
Definition shoe (i : nat) (numDecks : nat) : list Card.t :=
  shuffle i (Deck.fresh numDecks).

Definition Deck_reset (d : Deck.t) (i : nat) : Deck.t :=
  Deck.mk (Deck.numDecks d) (shoe i (Deck.numDecks d)) (Deck.totalCards d).

(** [self.deck.numDecks * 52 * (1 - penetration)]: an [int] times the
    float [1 - penetration]. *)
Definition reshuffleProduct (numDecks : nat) (penetration : Float64.t)
  : Float64.t :=
  Float64.mul (Float64.ofZ (Z.of_nat numDecks * 52))
              (Float64.sub (Float64.ofZ 1) penetration).

(** The attributes [__init__] assigns: no argument is checked.  The
    exceptions of [int()] are [newSession]'s. *)
Definition init (c : Config) : t :=
  let d := Deck.mk 6 (shoe 0 6) (Z.of_nat 6 * 52) in
  mk d (cfg_startingBankroll c) (cfg_baseBet c) (cfg_useCardCounting c)
     (cfg_useWonging c) (cfg_wongingThreshold c) (cfg_penetration c)
     (Float64.trunc (reshuffleProduct (Deck.numDecks d) (cfg_penetration c)))
     CardCounter.new
     (BankrollManager.mk (cfg_baseBet c) 10)
     0 0 0 0 0 0%Q (cfg_startingBankroll c) (cfg_startingBankroll c) 0%nat.

(** Session creation as the spec names it: the call [BlackjackGame(...)].
    It raises what [int()] raises on the product and nothing else. *)
Definition newSession (c : Config) : outcome t :=
  bind (Float64.toInt (reshuffleProduct 6 (cfg_penetration c)))
       (fun _ => Ok (init c)).

Definition updateBankrollStats (g : t) : t :=
  set_minmax g (pymax (maxBankroll g) (bankroll g))
               (pymin (minBankroll g) (bankroll g)).

(** The state after [card = self.deck.dealCard()] returned [card],
    leaving [rest] in the shoe, and [self.counter.countCard(card)]. *)
Definition drew (g : t) (card : Card.t) (rest : list Card.t) : t :=
  set_counter
    (set_deck g (Deck.mk (Deck.numDecks (deck g)) rest
                         (Deck.totalCards (deck g))))
    (snd (CardCounter.countCard (counter g) card)).

(** The two statements every drawing site consists of. *)
Definition dealAndCount (g : t) : outcome (Card.t * t) :=
  '(card, d) <- Deck.dealCard (deck g) ;;
  Ok (card, set_counter (set_deck g d)
                        (snd (CardCounter.countCard (counter g) card))).

(** Lines 441-448: the reshuffle check. *)
Definition reshuffleCheck (g : t) : t :=
  if Deck.needsReshuffle (deck g) (reshufflePoint g) then
    let i := S (shuffleIndex g) in
    set_counter
      (set_shuffleIndex (set_deck g (Deck_reset (deck g) i)) i)
      (CardCounter.reset (counter g))
  else g.

(** Lines 466-471: [for _ in range(n)], drawing only from a non-empty
    shoe. *)
Fixpoint burn (n : nat) (g : t) : t :=
  match n with
  | O => g
  | S k =>
      match Deck.cards (deck g) with
      | [] => burn k g
      | card :: rest => burn k (drew g card rest)
      end
  end.

(** Lines 496-503: two rounds, player first. *)
Definition initialDeal (g : t) (playerHand dealerHand : Hand.t)
  : outcome (t * Hand.t * Hand.t) :=
  '(c1, g) <- dealAndCount g ;;
  let playerHand := Hand.addCard playerHand c1 in
  '(c2, g) <- dealAndCount g ;;
  let dealerHand := Hand.addCard dealerHand c2 in
  '(c3, g) <- dealAndCount g ;;
  let playerHand := Hand.addCard playerHand c3 in
  '(c4, g) <- dealAndCount g ;;
  let dealerHand := Hand.addCard dealerHand c4 in
  Ok (g, playerHand, dealerHand).

Definition lose (g : t) (playerHand : Hand.t) : t :=
  let g := set_bankroll g (bankroll g - Hand.betAmount playerHand)%Q in
  set_handsLost g (handsLost g + 1).

Definition canDoubleNow (g : t) (playerHand : Hand.t) : bool :=
  Nat.eqb (length (Hand.cards playerHand)) 2
  && Qle_bool (Hand.betAmount playerHand) (bankroll g).

(** [playPlayerHand]'s [while True], by recursion on the shoe: every
    iteration that does not return draws one card.  The [shoe]
    argument is [self.deck.cards]; [None] is Python's [None]. *)
Fixpoint playPlayerLoop (shoe : list Card.t) (g : t) (playerHand : Hand.t)
         (dealerUpcard : Card.t) {struct shoe}
  : outcome (t * Hand.t * option Q) :=
  let canDouble := canDoubleNow g playerHand in
  action <- BasicStrategy.getAction playerHand dealerUpcard canDouble false ;;
  match action with
  | HIT =>
      match shoe with
      | [] => Raise IndexError
      | card :: rest =>
          let g := drew g card rest in
          let playerHand := Hand.addCard playerHand card in
          if Hand.isBusted playerHand then
            Ok (lose g playerHand, playerHand,
                Some (- Hand.betAmount playerHand)%Q)
          else playPlayerLoop rest g playerHand dealerUpcard
      end
  | STAND => Ok (g, playerHand, None)
  | DOUBLE =>
      if canDouble then
        let playerHand :=
          Hand.mk (Hand.cards playerHand) (Hand.betAmount playerHand * 2)%Q
                  true (Hand.wasSplit playerHand) in
        match shoe with
        | [] => Raise IndexError
        | card :: rest =>
            let g := drew g card rest in
            let playerHand := Hand.addCard playerHand card in
            if Hand.isBusted playerHand then
              Ok (lose g playerHand, playerHand,
                  Some (- Hand.betAmount playerHand)%Q)
            else Ok (g, playerHand, None)
        end
      else
        match shoe with
        | [] => Raise IndexError
        | card :: rest =>
            let g := drew g card rest in
            let playerHand := Hand.addCard playerHand card in
            if Hand.isBusted playerHand then
              Ok (lose g playerHand, playerHand,
                  Some (- Hand.betAmount playerHand)%Q)
            else playPlayerLoop rest g playerHand dealerUpcard
        end
  | SPLIT => Raise Diverges
  end.

Definition playPlayerHand (g : t) (playerHand : Hand.t)
           (dealerUpcard : Card.t) : outcome (t * Hand.t * option Q) :=
  playPlayerLoop (Deck.cards (deck g)) g playerHand dealerUpcard.

(** Lines 569-572: [while dealerHand.getValue() < 17]. *)
Fixpoint dealerLoop (shoe : list Card.t) (g : t) (dealerHand : Hand.t)
         {struct shoe} : outcome (t * Hand.t) :=
  if Hand.getValue dealerHand <? 17 then
    match shoe with
    | [] => Raise IndexError
    | card :: rest =>
        dealerLoop rest (drew g card rest) (Hand.addCard dealerHand card)
    end
  else Ok (g, dealerHand).

Definition dealerTurn (g : t) (dealerHand : Hand.t)
  : outcome (t * Hand.t) :=
  dealerLoop (Deck.cards (deck g)) g dealerHand.

Definition determineWinner (g : t) (playerHand dealerHand : Hand.t)
  : t * Q :=
  let playerValue := Hand.getValue playerHand in
  let dealerValue := Hand.getValue dealerHand in
  let betAmount := Hand.betAmount playerHand in
  if Hand.isBusted dealerHand || (dealerValue <? playerValue) then
    (set_handsWon (set_bankroll g (bankroll g + betAmount)%Q)
                  (handsWon g + 1),
     betAmount)
  else if playerValue <? dealerValue then
    (set_handsLost (set_bankroll g (bankroll g - betAmount)%Q)
                   (handsLost g + 1),
     (- betAmount)%Q)
  else (set_handsPushed g (handsPushed g + 1), 0%Q).

(** The bet of lines 479-482. *)
Definition computeBet (g : t) (trueCount : Q) : Q :=
  if useCardCounting g then
    BankrollManager.getBetAmount (bankrollManager g) trueCount (bankroll g)
  else baseBet g.

Definition currentTrueCount (g : t) : Q :=
  CardCounter.getTrueCount (counter g) (Deck.decksRemaining (deck g)).

(** Lines 490-586: the hand from the initial deal on. *)
Definition dealAndPlay (g : t) (betAmount : Q) : outcome (t * Q) :=
  let playerHand := Hand.mk [] betAmount false false in
  let dealerHand := Hand.new in
  '(g, playerHand, dealerHand) <- initialDeal g playerHand dealerHand ;;
  let g := set_totalWagered g (totalWagered g + betAmount)%Q in
  if Hand.isBlackjack playerHand then
    if Hand.isBlackjack dealerHand then
      let g := set_handsPushed g (handsPushed g + 1) in
      let g := set_handsPlayed g (handsPlayed g + 1) in
      Ok (g, 0%Q)
    else
      let profit := (betAmount * (3 # 2))%Q in
      let g := set_bankroll g (bankroll g + profit)%Q in
      let g := set_handsWon g (handsWon g + 1) in
      let g := set_handsPlayed g (handsPlayed g + 1) in
      Ok (updateBankrollStats g, profit)
  else if Hand.isBlackjack dealerHand then
    let g := set_bankroll g (bankroll g - betAmount)%Q in
    let g := set_handsLost g (handsLost g + 1) in
    let g := set_handsPlayed g (handsPlayed g + 1) in
    Ok (updateBankrollStats g, (- betAmount)%Q)
  else
    match Hand.cards dealerHand with
    | [] => Raise IndexError
    | dealerUpcard :: _ =>
        '(g, playerHand, result) <-
          playPlayerHand g playerHand dealerUpcard ;;
        match result with
        | Some r =>
            let g := set_handsPlayed g (handsPlayed g + 1) in
            Ok (updateBankrollStats g, r)
        | None =>
            '(g, dealerHand) <- dealerTurn g dealerHand ;;
            let '(g, profit) := determineWinner g playerHand dealerHand in
            let g := set_handsPlayed g (handsPlayed g + 1) in
            Ok (updateBankrollStats g, profit)
        end
    end.

Definition playHand (g : t) : outcome (t * Q) :=
  let g := reshuffleCheck g in
  let trueCount := currentTrueCount g in
  if useWonging g && Qltb trueCount (wongingThreshold g) then
    let g := set_handsSatOut g (handsSatOut g + 1) in
    Ok (burn 4 g, 0%Q)
  else
    let betAmount := computeBet g trueCount in
    if Qltb (bankroll g) betAmount then Ok (g, 0%Q)
    else dealAndPlay g betAmount.

(** [n] successive calls of [playHand]. *)
Fixpoint playHands (n : nat) (g : t) : outcome t :=
  match n with
  | O => Ok g
  | S k => '(g', _) <- playHand g ;; playHands k g'
  end.

End Engine.

End BlackjackGame.

(** ** blackjackapp.py: the statistics snapshot *)

Module App.

Record Stats : Type := mkStats {
  st_handsPlayed : Z;
  st_handsSatOut : Z;
  st_totalOpportunities : Z;
  st_handsWon : Z;
  st_handsLost : Z;
  st_handsPushed : Z;
  st_bankroll : Q;
  st_profit : Q;
  st_roi : Q;
  st_totalWagered : Q;
  st_maxBankroll : Q;
  st_minBankroll : Q;
  st_runningCount : Z;
  st_trueCount : Q;
  st_decksRemaining : Q
}.

(** [game] is the module-level global; [None] gives the empty dict. *)
Definition getStats (game : option BlackjackGame.t) : option Stats :=
  match game with
  | None => None
  | Some g =>
      let profit := (BlackjackGame.bankroll g - 1000)%Q in
      let roi :=
        if Qltb 0 (BlackjackGame.totalWagered g)
        then (profit / BlackjackGame.totalWagered g * 100)%Q else 0%Q in
      let totalOpportunities :=
        BlackjackGame.handsPlayed g + BlackjackGame.handsSatOut g in
      Some (mkStats
              (BlackjackGame.handsPlayed g) (BlackjackGame.handsSatOut g)
              totalOpportunities
              (BlackjackGame.handsWon g) (BlackjackGame.handsLost g)
              (BlackjackGame.handsPushed g) (BlackjackGame.bankroll g)
              profit roi (BlackjackGame.totalWagered g)
              (BlackjackGame.maxBankroll g) (BlackjackGame.minBankroll g)
              (CardCounter.runningCount (BlackjackGame.counter g))
              (BlackjackGame.currentTrueCount g)
              (Deck.decksRemaining (BlackjackGame.deck g)))
  end.

End App.

(** ** blackjackapp.py: the play-hand route

    [game] and [gameHistory] are the module-level globals; a call of the
    route maps them to their new values and a response.  Cards travel as
    dicts with a rank and a suit: here [Card.t].  [handData] is a dict
    that the route fills key by key and that holds references to the
    lists [playerHand] and [dealerHand]; the record below is its content
    when the route returns, an absent key being [None] (or [false] for
    the two flags). *)

Module Route.

Inductive error : Type :=
| EngineError (e : exn)   (* an exception raised inside a blackjackai call *)
| ZeroDivisionError.      (* a float division by 0.0 *)

Inductive result (A : Type) : Type :=
| Done (a : A)
| Failed (e : error).

Arguments Done {A} a.
Arguments Failed {A} e.

Definition lift {A : Type} (m : outcome A) : result A :=
  match m with
  | Ok a => Done a
  | Raise e => Failed (EngineError e)
  end.

Definition rbind {A B : Type} (m : result A) (k : A -> result B) : result B :=
  match m with
  | Done a => k a
  | Failed e => Failed e
  end.

Notation "x <~ m ;; k" := (rbind m (fun x => k))
  (at level 61, m at next level, right associativity).
Notation "' p <~ m ;; k" := (rbind m (fun p => k))
  (at level 61, p pattern, m at next level, right associativity).

(** The strings of [handData['result']]. *)
Inductive Result : Type :=
| r_push | r_playerBlackjack | r_dealerBlackjack | r_playerBust
| r_playerWin | r_dealerWin.

Definition calculateHandValue (hand : list Card.t) : Z :=
  let '(total, aces) :=
    fold_left
      (fun (acc : Z * nat) (card : Card.t) =>
         let '(total, aces) := acc in
         match Card.rank card with
         | Card.RJ | Card.RQ | Card.RK => (total + 10, aces)
         | Card.RA => (total + 11, S aces)
         | Card.R2 => (total + 2, aces)
         | Card.R3 => (total + 3, aces)
         | Card.R4 => (total + 4, aces)
         | Card.R5 => (total + 5, aces)
         | Card.R6 => (total + 6, aces)
         | Card.R7 => (total + 7, aces)
         | Card.R8 => (total + 8, aces)
         | Card.R9 => (total + 9, aces)
         | Card.R10 => (total + 10, aces)
         end)
      hand (0, O) in
  fst (Hand.reduceAces aces total).

Record HandData : Type := mkHandData {
  handNumber : Z;
  bankrollBefore : Q;
  runningCount : Z;
  trueCount : Q;
  decksRemaining : Q;
  reshuffle : bool;
  satOut : bool;
  burnedCards : option (list Card.t);
  bankrollAfter : option Q;
  profit : option Q;
  bet : option Q;
  betMultiplier : option Q;
  playerHand : option (list Card.t);
  dealerHand : option (list Card.t);
  dealerUpcard : option Card.t;
  playerValue : option Z;
  dealerValue : option Z;
  actions : option (list Action);
  result_ : option Result
}.

(** The body of a success response; [rp_satOut] is the top-level
    ['satOut'] key. *)
Record Reply : Type := mkReply {
  rp_satOut : bool;
  rp_handData : HandData;
  rp_stats : option App.Stats
}.

Inductive Response : Type :=
| NoGameStarted          (* {'error': 'No game started'}, 400 *)
| Success (r : Reply).

(** Lines 82-86: the burn loop, keeping the burned cards. *)
Fixpoint burn (n : nat) (g : BlackjackGame.t) (burned : list Card.t)
  : BlackjackGame.t * list Card.t :=
  match n with
  | O => (g, burned)
  | S k =>
      match Deck.cards (BlackjackGame.deck g) with
      | [] => burn k g burned
      | card :: rest => burn k (BlackjackGame.drew g card rest) (burned ++ [card])
      end
  end.

(** The five statements each of the three bust branches applies to the
    game (lines 190-194, 224-228, 254-258). *)
Definition bust (g : BlackjackGame.t) (betAmount : Q) : BlackjackGame.t :=
  let g := BlackjackGame.set_bankroll g (BlackjackGame.bankroll g - betAmount)%Q in
  let g := BlackjackGame.set_handsLost g (BlackjackGame.handsLost g + 1) in
  let g := BlackjackGame.set_handsPlayed g (BlackjackGame.handsPlayed g + 1) in
  let g := BlackjackGame.set_totalWagered g
             (BlackjackGame.totalWagered g + betAmount)%Q in
  BlackjackGame.updateBankrollStats g.

(** How the player's [while True] is left: by one of the three returns
    of a busted hand, or by a [break]. *)
Inductive TurnEnd : Type :=
| Busted (g : BlackjackGame.t) (tempHand : Hand.t) (betAmount : Q)
         (playerHand : list Card.t) (actions : list Action)
| Stood (g : BlackjackGame.t) (tempHand : Hand.t) (betAmount : Q)
        (playerHand : list Card.t) (actions : list Action).

(** Lines 177-273, by recursion on the shoe as in [playPlayerLoop]. *)
Fixpoint playerLoop (shoe : list Card.t) (g : BlackjackGame.t)
         (tempHand : Hand.t) (betAmount : Q) (playerHand : list Card.t)
         (actions : list Action) (dealerUpcard : Card.t) {struct shoe}
  : result TurnEnd :=
  let canDouble := BlackjackGame.canDoubleNow g tempHand in
  action <~ lift (BasicStrategy.getAction tempHand dealerUpcard canDouble false) ;;
  let actions := actions ++ [action] in
  match action with
  | HIT =>
      match shoe with
      | [] => Failed (EngineError IndexError)
      | card :: rest =>
          let g := BlackjackGame.drew g card rest in
          let tempHand := Hand.addCard tempHand card in
          let playerHand := playerHand ++ [card] in
          if Hand.isBusted tempHand then
            Done (Busted (bust g betAmount) tempHand betAmount playerHand
                         actions)
          else playerLoop rest g tempHand betAmount playerHand actions
                          dealerUpcard
      end
  | STAND => Done (Stood g tempHand betAmount playerHand actions)
  | DOUBLE =>
      if canDouble then
        let tempHand :=
          Hand.mk (Hand.cards tempHand) (Hand.betAmount tempHand * 2)%Q
                  (Hand.isDoubled tempHand) (Hand.wasSplit tempHand) in
        let betAmount := (betAmount * 2)%Q in
        match shoe with
        | [] => Failed (EngineError IndexError)
        | card :: rest =>
            let g := BlackjackGame.drew g card rest in
            let tempHand := Hand.addCard tempHand card in
            let playerHand := playerHand ++ [card] in
            if Hand.isBusted tempHand then
              Done (Busted (bust g betAmount) tempHand betAmount playerHand
                           actions)
            else Done (Stood g tempHand betAmount playerHand actions)
        end
      else
        match shoe with
        | [] => Failed (EngineError IndexError)
        | card :: rest =>
            let g := BlackjackGame.drew g card rest in
            let tempHand := Hand.addCard tempHand card in
            let playerHand := playerHand ++ [card] in
            if Hand.isBusted tempHand then
              Done (Busted (bust g betAmount) tempHand betAmount playerHand
                           actions)
            else playerLoop rest g tempHand betAmount playerHand actions
                            dealerUpcard
        end
  | SPLIT => Failed (EngineError Diverges)
  end.

(** [betAmount / game.baseBet]. *)
Definition divide (x y : Q) : result Q :=
  if Qeq_bool y 0 then Failed ZeroDivisionError else Done (x / y)%Q.

(** [gameHistory.append(handData)] and the [jsonify] of a success. *)
Definition respond (g : BlackjackGame.t) (gameHistory : list HandData)
           (satOutKey : bool) (handData : HandData)
  : result (option BlackjackGame.t * list HandData * Response) :=
  Done (Some g, gameHistory ++ [handData],
        Success (mkReply satOutKey handData (App.getStats (Some g)))).

(** Lines 150-152 and 306-308. *)
Definition closeHand (g : BlackjackGame.t) (betAmount : Q)
  : BlackjackGame.t :=
  let g := BlackjackGame.set_handsPlayed g
             (BlackjackGame.handsPlayed g + 1) in
  let g := BlackjackGame.set_totalWagered g
             (BlackjackGame.totalWagered g + betAmount)%Q in
  BlackjackGame.updateBankrollStats g.

(** Lines 135-148: called with at least one of the two flags set. *)
Definition naturals (g : BlackjackGame.t) (betAmount : Q)
           (playerBlackjack dealerBlackjack : bool)
  : Result * Q * BlackjackGame.t :=
  if playerBlackjack && dealerBlackjack then
    (r_push, 0%Q,
     BlackjackGame.set_handsPushed g (BlackjackGame.handsPushed g + 1))
  else if playerBlackjack then
    let profit := (betAmount * (3 # 2))%Q in
    (r_playerBlackjack, profit,
     BlackjackGame.set_handsWon
       (BlackjackGame.set_bankroll g (BlackjackGame.bankroll g + profit)%Q)
       (BlackjackGame.handsWon g + 1))
  else
    (r_dealerBlackjack, (- betAmount)%Q,
     BlackjackGame.set_handsLost
       (BlackjackGame.set_bankroll g (BlackjackGame.bankroll g - betAmount)%Q)
       (BlackjackGame.handsLost g + 1)).

(** Lines 288-304. *)
Definition compare (g : BlackjackGame.t) (tempHand tempDealerHand : Hand.t)
           (betAmount : Q) : Result * Q * BlackjackGame.t :=
  let playerValue := Hand.getValue tempHand in
  let dealerValue := Hand.getValue tempDealerHand in
  if Hand.isBusted tempDealerHand || (dealerValue <? playerValue) then
    (r_playerWin, betAmount,
     BlackjackGame.set_handsWon
       (BlackjackGame.set_bankroll g (BlackjackGame.bankroll g + betAmount)%Q)
       (BlackjackGame.handsWon g + 1))
  else if playerValue <? dealerValue then
    (r_dealerWin, (- betAmount)%Q,
     BlackjackGame.set_handsLost
       (BlackjackGame.set_bankroll g (BlackjackGame.bankroll g - betAmount)%Q)
       (BlackjackGame.handsLost g + 1))
  else
    (r_push, 0%Q,
     BlackjackGame.set_handsPushed g (BlackjackGame.handsPushed g + 1)).

(** [handData] once lines 59-72 have filled it: the keys of a played or
    sat-out round are still to come. *)
Definition Captured : Type :=
  bool -> option (list Card.t) -> option Q -> option Q -> option Q ->
  option Q -> option (list Card.t) -> option (list Card.t) ->
  option Card.t -> option Z -> option Z -> option (list Action) ->
  option Result -> HandData.

(** Lines 76-100. *)
Definition sitOut (g : BlackjackGame.t) (gameHistory : list HandData)
           (handData : Captured)
  : result (option BlackjackGame.t * list HandData * Response) :=
  let g := BlackjackGame.set_handsSatOut g (BlackjackGame.handsSatOut g + 1) in
  let '(g, burned) := burn 4 g [] in
  respond g gameHistory true
    (handData true (Some burned) (Some (BlackjackGame.bankroll g))
              (Some 0%Q) None None None None None None None None None).

(** Lines 124-326: the round once the four cards are dealt. *)
Definition afterDeal (g : BlackjackGame.t) (gameHistory : list HandData)
           (handData : Captured) (betAmount multiplier : Q)
           (c1 c2 c3 c4 : Card.t)
  : result (option BlackjackGame.t * list HandData * Response) :=
  let playerHand := [c1; c3] in
  let dealerHand := [c2; c4] in
  let playerValue := calculateHandValue playerHand in
  let playerBlackjack :=
    Nat.eqb (length playerHand) 2 && (playerValue =? 21) in
  let dealerBlackjack :=
    Nat.eqb (length dealerHand) 2 && (calculateHandValue dealerHand =? 21) in
  if playerBlackjack || dealerBlackjack then
    let '(result, profit, g) :=
      naturals g betAmount playerBlackjack dealerBlackjack in
    let g := closeHand g betAmount in
    respond g gameHistory false
      (handData false None (Some (BlackjackGame.bankroll g)) (Some profit)
                (Some betAmount) (Some multiplier) (Some playerHand)
                (Some dealerHand) (Some c2) (Some playerValue)
                (Some (calculateHandValue dealerHand)) None (Some result))
  else
    let tempHand := Hand.mk playerHand betAmount false false in
    turn <~ playerLoop (Deck.cards (BlackjackGame.deck g)) g tempHand
                       betAmount playerHand [] c2 ;;
    match turn with
    | Busted g tempHand betAmount playerHand actions =>
        respond g gameHistory false
          (handData false None (Some (BlackjackGame.bankroll g))
                    (Some (- betAmount)%Q) (Some betAmount)
                    (Some multiplier) (Some playerHand) (Some dealerHand)
                    (Some c2) (Some (Hand.getValue tempHand)) None
                    (Some actions) (Some r_playerBust))
    | Stood g tempHand betAmount playerHand actions =>
        (* lines 276-285: the engine's dealer loop *)
        '(g, tempDealerHand) <~
          lift (BlackjackGame.dealerTurn g
                  (Hand.mk dealerHand 0 false false)) ;;
        let dealerHand := Hand.cards tempDealerHand in
        let '(result, profit, g) :=
          compare g tempHand tempDealerHand betAmount in
        let g := closeHand g betAmount in
        respond g gameHistory false
          (handData false None (Some (BlackjackGame.bankroll g))
                    (Some profit) (Some betAmount) (Some multiplier)
                    (Some playerHand) (Some dealerHand) (Some c2)
                    (Some (Hand.getValue tempHand))
                    (Some (Hand.getValue tempDealerHand))
                    (Some actions) (Some result))
    end.

(** Lines 102-118: bet sizing and the deal. *)
Definition playRound (g : BlackjackGame.t) (gameHistory : list HandData)
           (handData : Captured) (trueCount : Q)
  : result (option BlackjackGame.t * list HandData * Response) :=
  let betAmount := BlackjackGame.computeBet g trueCount in
  multiplier <~ divide betAmount (BlackjackGame.baseBet g) ;;
  '(c1, g) <~ lift (BlackjackGame.dealAndCount g) ;;
  '(c2, g) <~ lift (BlackjackGame.dealAndCount g) ;;
  '(c3, g) <~ lift (BlackjackGame.dealAndCount g) ;;
  '(c4, g) <~ lift (BlackjackGame.dealAndCount g) ;;
  afterDeal g gameHistory handData betAmount multiplier c1 c2 c3 c4.

Section Route.

Variable shuffle : nat -> list Card.t -> list Card.t.

Definition playHand (game : option BlackjackGame.t)
           (gameHistory : list HandData)
  : result (option BlackjackGame.t * list HandData * Response) :=
  match game with
  | None => Done (None, gameHistory, NoGameStarted)
  | Some g =>
      (* lines 59-65: captured before the reshuffle check *)
      let handData : Captured :=
        mkHandData
          (BlackjackGame.handsPlayed g + BlackjackGame.handsSatOut g + 1)
          (BlackjackGame.bankroll g)
          (CardCounter.runningCount (BlackjackGame.counter g))
          (BlackjackGame.currentTrueCount g)
          (Deck.decksRemaining (BlackjackGame.deck g))
          (* lines 68-72: the key is set when the check fires *)
          (Deck.needsReshuffle (BlackjackGame.deck g)
                               (BlackjackGame.reshufflePoint g)) in
      (* lines 68-71: the same two resets as the engine's check *)
      let g := BlackjackGame.reshuffleCheck shuffle g in
      let trueCount := BlackjackGame.currentTrueCount g in
      if BlackjackGame.useWonging g
         && Qltb trueCount (BlackjackGame.wongingThreshold g) then
        sitOut g gameHistory handData
      else playRound g gameHistory handData trueCount
  end.

(** The body of [newGame]'s response. *)
Record Started : Type := mkStarted {
  ng_bankroll : Q;
  ng_baseBet : Q;
  ng_useCardCounting : bool;
  ng_useWonging : bool
}.

(** Lines 24-47; [c] holds the request's six settings after [data.get]
    filled in the defaults and [float] converted them.  The session is
    built by the call [BlackjackGame(...)]; when that raises, the globals
    keep their values. *)
Definition newGame (c : BlackjackGame.Config)
  : result (option BlackjackGame.t * list HandData * Started) :=
  game <~ lift (BlackjackGame.newSession shuffle c) ;;
  Done (Some game, [],
        mkStarted (BlackjackGame.bankroll game) (BlackjackGame.baseBet game)
                  (BlackjackGame.useCardCounting game)
                  (BlackjackGame.useWonging game)).

End Route.

End Route.

(** * Vocabulary of the statements *)

Definition card (r : Card.Rank) (s : Card.Suit) : Card.t := Card.mk r s.

Definition handOf (cs : list Card.t) : Hand.t := Hand.mk cs 0%Q false false.

(** The bet of [getBetAmount] before its final floor at [baseBet]. *)
Definition cappedBet (m : BankrollManager.t) (trueCount currentBankroll : Q)
  : Q :=
  pymin (pymin (BankrollManager.baseBet m
                * pymin (BankrollManager.stepMultiplier trueCount)
                        (BankrollManager.maxBetMultiplier m))%Q
               (BankrollManager.maxAllowedBet currentBankroll))
        currentBankroll.


(** The counter after [countCard] has been called exactly once on each
    card of [dealt], in order, starting from a reset counter. *)
Definition countAll (dealt : list Card.t) : CardCounter.t :=
  fold_left (fun k c => snd (CardCounter.countCard k c)) dealt CardCounter.new.

(** The Hi-Lo tally of a list of cards. *)
Definition tally (dealt : list Card.t) : Z :=
  fold_right (fun c acc => CardCounter.countValue c + acc) 0 dealt.

(** The counting invariant: the cards missing from the shoe since its last
    rebuild are exactly the cards the counter was fed, once each. *)
Definition Counted (shuffle : nat -> list Card.t -> list Card.t)
           (g : BlackjackGame.t) : Prop :=
  exists dealt,
    dealt ++ Deck.cards (BlackjackGame.deck g)
    = BlackjackGame.shoe shuffle (BlackjackGame.shuffleIndex g)
                         (Deck.numDecks (BlackjackGame.deck g))
    /\ BlackjackGame.counter g = countAll dealt.

(** The value of a hand made of the cards [cs]. *)
Definition valueOf (cs : list Card.t) : Z := Hand.getValue (handOf cs).

(** A configuration the spec calls valid: penetration strictly between 0
    and 1, positive starting bankroll and base bet. *)
Definition validConfig (c : BlackjackGame.Config) : bool :=
  Float64.ltb (Float64.ofZ 0) (BlackjackGame.cfg_penetration c)
  && Float64.ltb (BlackjackGame.cfg_penetration c) (Float64.ofZ 1)
  && Qltb 0 (BlackjackGame.cfg_startingBankroll c)
  && Qltb 0 (BlackjackGame.cfg_baseBet c).

(** Two outcomes of [random.shuffle] used in the examples: the shoe left
    as built, and the shoe cut [k] cards from the top. *)
Definition noShuffle : nat -> list Card.t -> list Card.t := fun _ l => l.

Definition cutAt (k : nat) : nat -> list Card.t -> list Card.t :=
  fun _ l => skipn k l ++ firstn k l.

(** The sessions of the examples. *)
Definition nearFullPenetration : BlackjackGame.Config :=
  BlackjackGame.mkConfig 1000 10 false (Float64.ofQ (1023 # 1024)) false
                         (-1).

Definition shortBankroll : BlackjackGame.Config :=
  BlackjackGame.mkConfig 25 10 true (Float64.ofQ (1 # 128)) true (-1).

Definition brokeFromStart : BlackjackGame.Config :=
  BlackjackGame.mkConfig 5 10 true (Float64.ofQ (75 # 100)) true (-1).

Definition brokeAndSittingOut : BlackjackGame.Config :=
  BlackjackGame.mkConfig 5 10 true (Float64.ofQ (75 # 100)) true 1.

Definition invalidConfig : BlackjackGame.Config :=
  BlackjackGame.mkConfig (-5) 0 true (Float64.ofZ 2) true (-1).

(** The part of the session state fixed at creation that the reshuffle
    check depends on. *)
Definition TableOf (reshufflePoint : Z) (numDecks : nat)
           (g : BlackjackGame.t) : Prop :=
  BlackjackGame.reshufflePoint g = reshufflePoint
  /\ Deck.numDecks (BlackjackGame.deck g) = numDecks.

(** The fields of a session set at creation and read by [playHand]. *)
Definition settings (g : BlackjackGame.t) :=
  (BlackjackGame.baseBet g, BlackjackGame.useCardCounting g,
   BlackjackGame.useWonging g, BlackjackGame.wongingThreshold g,
   BlackjackGame.penetration g, BlackjackGame.reshufflePoint g,
   BlackjackGame.bankrollManager g).

(** The money and statistics fields of a session. *)
Definition ledger (g : BlackjackGame.t) :=
  (BlackjackGame.bankroll g, BlackjackGame.handsPlayed g,
   BlackjackGame.handsWon g, BlackjackGame.handsLost g,
   BlackjackGame.handsPushed g, BlackjackGame.handsSatOut g,
   BlackjackGame.totalWagered g, BlackjackGame.maxBankroll g,
   BlackjackGame.minBankroll g).

(** How a played hand was settled, from the state before the deal to the
    state after: a push, a blackjack paid 3:2 on the bet, or a win or a
    loss of the stake. *)
Definition settledAs (g g' : BlackjackGame.t) (p bet stake : Q) : Prop :=
  (p = 0%Q
   /\ BlackjackGame.bankroll g' = BlackjackGame.bankroll g
   /\ BlackjackGame.handsWon g' = BlackjackGame.handsWon g
   /\ BlackjackGame.handsLost g' = BlackjackGame.handsLost g
   /\ BlackjackGame.handsPushed g' = BlackjackGame.handsPushed g + 1)
  \/ (p = (bet * (3 # 2))%Q
      /\ BlackjackGame.bankroll g' = (BlackjackGame.bankroll g + p)%Q
      /\ BlackjackGame.handsWon g' = BlackjackGame.handsWon g + 1
      /\ BlackjackGame.handsLost g' = BlackjackGame.handsLost g
      /\ BlackjackGame.handsPushed g' = BlackjackGame.handsPushed g)
  \/ (p = stake
      /\ BlackjackGame.bankroll g' = (BlackjackGame.bankroll g + stake)%Q
      /\ BlackjackGame.handsWon g' = BlackjackGame.handsWon g + 1
      /\ BlackjackGame.handsLost g' = BlackjackGame.handsLost g
      /\ BlackjackGame.handsPushed g' = BlackjackGame.handsPushed g)
  \/ (p = (- stake)%Q
      /\ BlackjackGame.bankroll g' = (BlackjackGame.bankroll g - stake)%Q
      /\ BlackjackGame.handsWon g' = BlackjackGame.handsWon g
      /\ BlackjackGame.handsLost g' = BlackjackGame.handsLost g + 1
      /\ BlackjackGame.handsPushed g' = BlackjackGame.handsPushed g).

(** The bankroll's high and low marks were refreshed with the new
    bankroll, or nothing about the bankroll changed. *)
Definition marksKept (g g' : BlackjackGame.t) : Prop :=
  (BlackjackGame.maxBankroll g'
   = pymax (BlackjackGame.maxBankroll g) (BlackjackGame.bankroll g')
   /\ BlackjackGame.minBankroll g'
      = pymin (BlackjackGame.minBankroll g) (BlackjackGame.bankroll g'))
  \/ (BlackjackGame.bankroll g' = BlackjackGame.bankroll g
      /\ BlackjackGame.maxBankroll g' = BlackjackGame.maxBankroll g
      /\ BlackjackGame.minBankroll g' = BlackjackGame.minBankroll g).

(** A session with a base bet of 0. *)
Definition zeroBaseBet : BlackjackGame.Config :=
  BlackjackGame.mkConfig 1000 0 true (Float64.ofQ (75 # 100)) true (-1).

(** The globals [game] and [gameHistory] of the web layer after
    [newGame] was called with the settings [c], followed by any number of
    calls of the play-hand route that returned a response. *)
Inductive Served (shuffle : nat -> list Card.t -> list Card.t)
          (c : BlackjackGame.Config)
  : option BlackjackGame.t -> list Route.HandData -> Prop :=
| served_new game hist reply :
    Route.newGame shuffle c = Route.Done (game, hist, reply) ->
    Served shuffle c game hist
| served_hand game hist game' hist' resp :
    Served shuffle c game hist ->
    Route.playHand shuffle game hist = Route.Done (game', hist', resp) ->
    Served shuffle c game' hist'.

(** The profit recorded in an entry of the history. *)
Definition profitOf (hd : Route.HandData) : Q :=
  match Route.profit hd with
  | Some p => p
  | None => 0%Q
  end.

(** [start] with the profits of a history added to it one after the
    other, first entry first, as the route added them to the bankroll. *)
Definition withProfits (start : Q) (hist : list Route.HandData) : Q :=
  fold_left (fun bankroll hd => (bankroll + profitOf hd)%Q) hist start.

(** * Properties *)

(** ** Hand values and softness *)

Section HandFacts.

Import Hand.

Lemma reduceAces_no_bust (n : nat) (total : Z) :
  total <= 21 -> reduceAces n total = (total, n).
Proof.
  intros Hle. destruct n as [|k]; simpl; [reflexivity|].
  destruct (21 <? total) eqn:E; [apply Z.ltb_lt in E; lia | reflexivity].
Qed.

(** What the loop leaves behind: [k] aces are still worth 11, the
    other [n - k] were turned into 1, and the loop stopped either
    because the total fits or because no ace is left. *)
Lemma reduceAces_spec (n : nat) :
  forall total v k,
    reduceAces n total = (v, k) ->
    (k <= n)%nat /\
    v = total - 10 * Z.of_nat (n - k) /\
    ((0 < k)%nat -> v <= 21) /\
    ((k < n)%nat -> 11 < v).
Proof.
  induction n as [|n IH]; intros total v k H; simpl in H.
  - injection H as <- <-. repeat split; try lia.
  - destruct (21 <? total) eqn:E.
    + apply Z.ltb_lt in E.
      destruct (IH _ _ _ H) as (Hk & Hv & Hfit & Hred).
      repeat split; lia.
    + apply Z.ltb_ge in E. injection H as <- <-.
      repeat split; lia.
Qed.

Lemma getValue_le_rawTotal (h : t) : getValue h <= rawTotal (cards h).
Proof.
  unfold getValue.
  destruct (reduceAces (countAces (cards h)) (rawTotal (cards h)))
    as [v k] eqn:E.
  destruct (reduceAces_spec _ _ _ _ E) as (_ & -> & _). cbn [fst]. lia.
Qed.

Lemma hardTotal_le_getValue (h : t) : hardTotal (cards h) <= getValue h.
Proof.
  unfold getValue, hardTotal.
  destruct (reduceAces (countAces (cards h)) (rawTotal (cards h)))
    as [v k] eqn:E.
  destruct (reduceAces_spec _ _ _ _ E) as (Hk & -> & _). cbn [fst]. lia.
Qed.

(** One direction of the spec's definition holds of the code. *)
Lemma isSoft_isSoftSpec (h : t) : isSoft h = true -> isSoftSpec h = true.
Proof.
  unfold isSoft, isSoftSpec. intros H.
  apply andb_true_iff in H as [Ha Ht]. apply Z.leb_le in Ht.
  rewrite (reduceAces_no_bust _ _ Ht). now rewrite Ha, (proj2 (Z.leb_le _ _) Ht).
Qed.

(** The code's test is the spec's test restricted to hands whose total
    before any reduction is already at most 21. *)
Lemma isSoft_characterised (h : t) :
  isSoft h = isSoftSpec h && (rawTotal (cards h) <=? 21).
Proof.
  destruct (rawTotal (cards h) <=? 21) eqn:Ht.
  - rewrite andb_true_r. unfold isSoft, isSoftSpec.
    apply Z.leb_le in Ht. rewrite (reduceAces_no_bust _ _ Ht).
    reflexivity.
  - rewrite andb_false_r. unfold isSoft. rewrite Ht. apply andb_false_r.
Qed.

End HandFacts.

(** C1: [Hand.isSoft] is meant to hold exactly when, after the ace
    reduction of [getValue], an ace is still counted as 11 and the value is
    at most 21.  On a pair of aces the value is 12 with one ace still at 11,
    so the hand is soft, yet [isSoft] answers [False] because it tests the
    total before reduction (22); the same happens on A, A, 9. *)
Theorem isSoft_pair_of_aces_not_soft :
  let pair := handOf [card Card.RA Card.Spades; card Card.RA Card.Hearts] in
  let aa9 := handOf [card Card.RA Card.Spades; card Card.RA Card.Hearts;
                     card Card.R9 Card.Clubs] in
  Hand.getValue pair = 12 /\
  Hand.isSoftSpec pair = true /\ Hand.isSoft pair = false /\
  Hand.getValue aa9 = 21 /\
  Hand.isSoftSpec aa9 = true /\ Hand.isSoft aa9 = false.
Proof. repeat split; reflexivity. Qed.

(** ** Basic strategy *)

Section StrategyFacts.

Import BasicStrategy.

Lemma hardHandStrategy_not_split (pv dv : Z) (cd : bool) :
  hardHandStrategy pv dv cd <> SPLIT.
Proof.
  unfold hardHandStrategy.
  repeat match goal with
         | |- context [if ?b then _ else _] => destruct b
         end; discriminate.
Qed.

Lemma softHandStrategy_not_split (pv dv : Z) (cd : bool) :
  softHandStrategy pv dv cd <> SPLIT.
Proof.
  unfold softHandStrategy.
  repeat match goal with
         | |- context [if ?b then _ else _] => destruct b
         end; discriminate.
Qed.

Lemma hardHandStrategy_no_double (pv dv : Z) :
  hardHandStrategy pv dv false <> DOUBLE.
Proof.
  unfold hardHandStrategy. simpl.
  repeat match goal with
         | |- context [if ?b then _ else _] => destruct b
         end; discriminate.
Qed.

Lemma softHandStrategy_no_double (pv dv : Z) :
  softHandStrategy pv dv false <> DOUBLE.
Proof.
  unfold softHandStrategy. simpl.
  repeat match goal with
         | |- context [if ?b then _ else _] => destruct b
         end; discriminate.
Qed.

(** Without the pair table the decision is always defined and is never
    [SPLIT]. *)
Lemma getAction_noSplit (h : Hand.t) (up : Card.t) (cd : bool) :
  exists a, getAction h up cd false = Ok a /\ a <> SPLIT.
Proof.
  unfold getAction. simpl.
  destruct (Hand.isSoft h && Nat.eqb (length (Hand.cards h)) 2);
    eexists; split; try reflexivity.
  - apply softHandStrategy_not_split.
  - apply hardHandStrategy_not_split.
Qed.

(** The soft and hard tables, as [getAction] reaches them directly,
    honour [canDouble = False]. *)
Lemma getAction_noSplit_no_double (h : Hand.t) (up : Card.t) :
  getAction h up false false <> Ok DOUBLE.
Proof.
  unfold getAction. simpl.
  destruct (Hand.isSoft h && Nat.eqb (length (Hand.cards h)) 2);
    intros H; injection H as H.
  - exact (softHandStrategy_no_double _ _ H).
  - exact (hardHandStrategy_no_double _ _ H).
Qed.

End StrategyFacts.

(** C2: with [canDouble = False], [getAction] is meant never to answer
    [DOUBLE].  The soft and hard tables honour the flag, but
    [pairSplittingStrategy] calls [hardHandStrategy] with a literal [True]:
    a pair of 5s against a dealer 6 with [canSplit = True] and
    [canDouble = False] is answered [DOUBLE]. *)
Theorem getAction_pair_of_fives_doubles :
  let fives := handOf [card Card.R5 Card.Spades; card Card.R5 Card.Hearts] in
  let six := card Card.R6 Card.Clubs in
  Hand.canSplit fives = true /\
  BasicStrategy.getAction fives six false true = Ok DOUBLE /\
  BasicStrategy.getAction fives six false false = Ok HIT.
Proof. repeat split; reflexivity. Qed.

(** ** Float comparisons, [min] and [max] *)

Lemma Qltb_true (x y : Q) : Qltb x y = true -> (x < y)%Q.
Proof.
  unfold Qltb. intros H. apply negb_true_iff in H.
  apply Qnot_le_lt. intros Hle. apply Qle_bool_iff in Hle. congruence.
Qed.

Lemma Qltb_false (x y : Q) : Qltb x y = false -> (y <= x)%Q.
Proof.
  unfold Qltb. intros H. apply negb_false_iff in H.
  now apply Qle_bool_iff.
Qed.

Lemma Qltb_lt (x y : Q) : (x < y)%Q -> Qltb x y = true.
Proof.
  intros H. destruct (Qltb x y) eqn:E; [reflexivity|].
  apply Qltb_false in E. lra.
Qed.

Lemma Qltb_ge (x y : Q) : (y <= x)%Q -> Qltb x y = false.
Proof.
  intros H. destruct (Qltb x y) eqn:E; [|reflexivity].
  apply Qltb_true in E. lra.
Qed.

Ltac qcases :=
  repeat match goal with
         | |- context [Qltb ?a ?b] =>
             let E := fresh "E" in
             destruct (Qltb a b) eqn:E;
             [apply Qltb_true in E | apply Qltb_false in E]
         end.

Section MinMax.

Local Open Scope Q_scope.

Lemma pymin_le_l (a b : Q) : pymin a b <= a.
Proof. unfold pymin. qcases; lra. Qed.

Lemma pymin_le_r (a b : Q) : pymin a b <= b.
Proof. unfold pymin. qcases; lra. Qed.

Lemma pymin_glb (a b c : Q) : c <= a -> c <= b -> c <= pymin a b.
Proof. unfold pymin. qcases; lra. Qed.

Lemma pymin_mono (a a' b b' : Q) :
  a <= a' -> b <= b' -> pymin a b <= pymin a' b'.
Proof. unfold pymin. qcases; lra. Qed.

Lemma pymin_right (a b : Q) : b < a -> pymin a b = b.
Proof. intros H. unfold pymin. now rewrite (Qltb_lt _ _ H). Qed.

Lemma pymax_ge_l (a b : Q) : a <= pymax a b.
Proof. unfold pymax. qcases; lra. Qed.


Lemma pymax_mono_r (a b b' : Q) : b <= b' -> pymax a b <= pymax a b'.
Proof. unfold pymax. qcases; lra. Qed.

Lemma pymax_left (a b : Q) : b <= a -> pymax a b = a.
Proof. intros H. unfold pymax. now rewrite (Qltb_ge _ _ H). Qed.

End MinMax.

(** ** Bet sizing *)

Section BetFacts.

Import BankrollManager.
Local Open Scope Q_scope.

Lemma stepMultiplier_ge_1 (tc : Q) : 1 <= stepMultiplier tc.
Proof. unfold stepMultiplier. qcases; lra. Qed.

Lemma stepMultiplier_mono (tc1 tc2 : Q) :
  tc1 <= tc2 -> stepMultiplier tc1 <= stepMultiplier tc2.
Proof. intros H. unfold stepMultiplier. qcases; lra. Qed.

Lemma getBetAmount_unfold (m : t) (tc bankroll : Q) :
  getBetAmount m tc bankroll = pymax (baseBet m) (cappedBet m tc bankroll).
Proof. reflexivity. Qed.

Lemma cappedBet_le_raw (m : t) (tc bankroll : Q) :
  cappedBet m tc bankroll
  <= baseBet m * pymin (stepMultiplier tc) (maxBetMultiplier m).
Proof.
  unfold cappedBet.
  eapply Qle_trans; [apply pymin_le_l|]. apply pymin_le_l.
Qed.





End BetFacts.




(** C9: for a fixed bankroll, base bet and multiplier cap, the bet is
    non-decreasing in the true count. *)
Theorem getBetAmount_monotone (m : BankrollManager.t) (bankroll tc1 tc2 : Q) :
  (tc1 <= tc2)%Q ->
  (BankrollManager.getBetAmount m tc1 bankroll
   <= BankrollManager.getBetAmount m tc2 bankroll)%Q.
Proof.
  intros Htc. rewrite !getBetAmount_unfold.
  destruct (Qlt_le_dec (BankrollManager.baseBet m) 0) as [Hneg|Hpos].
  - (* a negative base bet: the floor decides, or the cap is constant *)
    destruct (Qlt_le_dec (BankrollManager.maxBetMultiplier m) 1) as [Hm|Hm].
    + unfold cappedBet.
      rewrite !pymin_right with (a := BankrollManager.stepMultiplier _);
        [apply Qle_refl| |].
      * pose proof (stepMultiplier_ge_1 tc2). lra.
      * pose proof (stepMultiplier_ge_1 tc1). lra.
    + assert (Hfloor : forall tc,
                 (cappedBet m tc bankroll <= BankrollManager.baseBet m)%Q).
      { intros tc. eapply Qle_trans; [apply cappedBet_le_raw|].
        assert (1 <= pymin (BankrollManager.stepMultiplier tc)
                           (BankrollManager.maxBetMultiplier m))%Q
          by (apply pymin_glb; [apply stepMultiplier_ge_1 | exact Hm]).
        nra. }
      rewrite !pymax_left by apply Hfloor. apply Qle_refl.
  - apply pymax_mono_r. unfold cappedBet.
    apply pymin_mono; [|apply Qle_refl].
    apply pymin_mono; [|apply Qle_refl].
    assert (pymin (BankrollManager.stepMultiplier tc1)
                  (BankrollManager.maxBetMultiplier m)
            <= pymin (BankrollManager.stepMultiplier tc2)
                     (BankrollManager.maxBetMultiplier m))%Q
      by (apply pymin_mono; [now apply stepMultiplier_mono | apply Qle_refl]).
    nra.
Qed.

Lemma getBetAmount_monotone_witness :
  (BankrollManager.getBetAmount (BankrollManager.mk 10 10) (15 # 10) 10000
   <= BankrollManager.getBetAmount (BankrollManager.mk 10 10) (35 # 10) 10000)%Q.
Proof.
  apply (getBetAmount_monotone (BankrollManager.mk 10 10) 10000
                               (15 # 10) (35 # 10)).
  vm_compute. discriminate.
Defined.

Lemma Ok_inj {A : Type} (a b : A) : Ok a = Ok b -> a = b.
Proof. congruence. Qed.

(** ** The counting invariant *)

Lemma countAll_snoc (dealt : list Card.t) (c : Card.t) :
  countAll (dealt ++ [c]) = snd (CardCounter.countCard (countAll dealt) c).
Proof. unfold countAll. now rewrite fold_left_app. Qed.

Lemma countAll_fields (dealt : list Card.t) :
  CardCounter.cardsSeen (countAll dealt) = Z.of_nat (length dealt) /\
  CardCounter.runningCount (countAll dealt) = tally dealt.
Proof.
  induction dealt as [|c dealt IH] using rev_ind; [split; reflexivity|].
  rewrite countAll_snoc. destruct IH as [IHs IHr]. cbn [snd CardCounter.countCard
    CardCounter.cardsSeen CardCounter.runningCount].
  rewrite IHs, IHr, length_app. cbn [length]. split; [lia|].
  unfold tally. rewrite fold_right_app. cbn [fold_right].
  generalize (CardCounter.countValue c). clear.
  induction dealt as [|d dealt IH]; intros z; cbn [fold_right]; [lia|].
  rewrite <- IH. lia.
Qed.

Section Preservation.

Import BlackjackGame.

Variable shuffle : nat -> list Card.t -> list Card.t.

(** A property of the session state that survives drawing and counting a
    card, the reshuffle check, and any change to the money and statistics
    fields survives every call of [playHand]. *)
Variable P : t -> Prop.

Hypothesis P_ext :
  forall g g',
    deck g' = deck g -> counter g' = counter g ->
    shuffleIndex g' = shuffleIndex g ->
    reshufflePoint g' = reshufflePoint g ->
    P g -> P g'.

Hypothesis P_drew :
  forall g c rest, Deck.cards (deck g) = c :: rest -> P g -> P (drew g c rest).

Hypothesis P_reshuffle : forall g, P g -> P (reshuffleCheck shuffle g).

Lemma dealAndCount_Ok (g g' : t) (c : Card.t) :
  dealAndCount g = Ok (c, g') ->
  exists rest, Deck.cards (deck g) = c :: rest /\ g' = drew g c rest.
Proof.
  unfold dealAndCount, Deck.dealCard.
  destruct (Deck.cards (deck g)) as [|c0 rest]; [discriminate|].
  cbn [bind]. intros H. injection H as <- <-. now exists rest.
Qed.

Lemma dealAndCount_preserves (g g' : t) (c : Card.t) :
  dealAndCount g = Ok (c, g') -> P g -> P g'.
Proof.
  intros H Hg. destruct (dealAndCount_Ok _ _ _ H) as (rest & Hc & ->).
  now apply P_drew.
Qed.

Lemma burn_preserves (n : nat) :
  forall g, P g -> P (burn n g).
Proof.
  induction n as [|n IH]; intros g Hg; cbn [burn]; [exact Hg|].
  destruct (Deck.cards (deck g)) as [|c rest] eqn:Hc; [now apply IH|].
  apply IH. now apply P_drew.
Qed.

Lemma initialDeal_preserves (g g' : t) (ph dh ph' dh' : Hand.t) :
  initialDeal g ph dh = Ok (g', ph', dh') ->
  P g -> P g'.
Proof.
  unfold initialDeal. intros H Hg.
  destruct (dealAndCount g) as [[c1 g1]|] eqn:E1; [|discriminate].
  cbn [bind] in H.
  destruct (dealAndCount g1) as [[c2 g2]|] eqn:E2; [|discriminate].
  cbn [bind] in H.
  destruct (dealAndCount g2) as [[c3 g3]|] eqn:E3; [|discriminate].
  cbn [bind] in H.
  destruct (dealAndCount g3) as [[c4 g4]|] eqn:E4; [|discriminate].
  cbn [bind] in H. injection H as <- _ _.
  eauto using dealAndCount_preserves.
Qed.

Lemma lose_preserves (g : t) (h : Hand.t) :
  P g -> P (lose g h).
Proof. apply P_ext; reflexivity. Qed.

Lemma playPlayerLoop_preserves (shoe : list Card.t) :
  forall g ph up g' ph' r,
    Deck.cards (deck g) = shoe ->
    playPlayerLoop shoe g ph up = Ok (g', ph', r) ->
    P g -> P g'.
Proof.
  induction shoe as [|c rest IH]; intros g ph up g' ph' r Hshoe H Hg;
    cbn [playPlayerLoop] in H;
    destruct (getAction_noSplit ph up (canDoubleNow g ph))
      as (a & Ha & Hns);
    rewrite Ha in H; cbn [bind] in H; destruct a;
    try discriminate; try congruence.
  - destruct (canDoubleNow g ph); discriminate.
  - destruct (Hand.isBusted (Hand.addCard ph c)).
    + injection H as <- _ _. apply lose_preserves. now apply P_drew.
    + eapply IH; [|exact H|now apply P_drew]. reflexivity.
  - destruct (canDoubleNow g ph).
    + match type of H with
      | (if ?b then _ else _) = _ => destruct b
      end; injection H as <- _ _;
        [apply lose_preserves|]; now apply P_drew.
    + destruct (Hand.isBusted (Hand.addCard ph c)).
      * injection H as <- _ _. apply lose_preserves. now apply P_drew.
      * eapply IH; [|exact H|now apply P_drew]. reflexivity.
Qed.

Lemma dealerLoop_preserves (shoe : list Card.t) :
  forall g dh g' dh',
    Deck.cards (deck g) = shoe ->
    dealerLoop shoe g dh = Ok (g', dh') ->
    P g -> P g'.
Proof.
  induction shoe as [|c rest IH]; intros g dh g' dh' Hshoe H Hg;
    cbn [dealerLoop] in H;
    destruct (Hand.getValue dh <? 17); try discriminate;
    try (now injection H as <- _).
  eapply IH; [|exact H|now apply P_drew]. reflexivity.
Qed.

Lemma determineWinner_preserves (g g' : t) (ph dh : Hand.t) (p : Q) :
  determineWinner g ph dh = (g', p) ->
  P g -> P g'.
Proof.
  unfold determineWinner. intros H.
  repeat match type of H with
         | (if ?b then _ else _) = _ => destruct b
         end; injection H as <- _; apply P_ext; reflexivity.
Qed.

Lemma dealAndPlay_preserves (g g' : t) (bet p : Q) :
  dealAndPlay g bet = Ok (g', p) ->
  P g -> P g'.
Proof.
  unfold dealAndPlay. intros H Hg.
  destruct (initialDeal g _ _) as [[[g1 ph] dh]|] eqn:Edeal; [|discriminate].
  cbn [bind] in H.
  pose proof (initialDeal_preserves _ _ _ _ _ _ Edeal Hg) as Hg1.
  assert (Hg1' : P
                   (set_totalWagered g1 (totalWagered g1 + bet)%Q))
    by (revert Hg1; apply P_ext; reflexivity).
  set (g1' := set_totalWagered g1 (totalWagered g1 + bet)%Q) in *.
  destruct (Hand.isBlackjack ph).
  - destruct (Hand.isBlackjack dh); injection H as <- _;
      revert Hg1'; apply P_ext; reflexivity.
  - destruct (Hand.isBlackjack dh).
    + injection H as <- _. revert Hg1'; apply P_ext; reflexivity.
    + destruct (Hand.cards dh) as [|up ?]; [discriminate|].
      unfold playPlayerHand in H.
      destruct (playPlayerLoop _ g1' ph up) as [[[g2 ph2] r]|] eqn:Eplay;
        [|discriminate].
      cbn [bind] in H.
      pose proof (playPlayerLoop_preserves _ _ _ _ _ _ _ eq_refl Eplay Hg1')
        as Hg2.
      destruct r as [r|].
      * injection H as <- _. revert Hg2; apply P_ext; reflexivity.
      * unfold dealerTurn in H.
        destruct (dealerLoop _ g2 dh) as [[g3 dh3]|] eqn:Edealer;
          [|discriminate].
        cbn [bind] in H.
        pose proof (dealerLoop_preserves _ _ _ _ _ eq_refl Edealer Hg2) as Hg3.
        destruct (determineWinner g3 ph2 dh3) as [g4 profit] eqn:Ewin.
        pose proof (determineWinner_preserves _ _ _ _ _ Ewin Hg3) as Hg4.
        injection H as <- _. revert Hg4; apply P_ext; reflexivity.
Qed.

Lemma playHand_preserves (g g' : t) (p : Q) :
  playHand shuffle g = Ok (g', p) ->
  P g -> P g'.
Proof.
  unfold playHand. intros H Hg.
  apply P_reshuffle in Hg.
  set (g1 := reshuffleCheck shuffle g) in *.
  destruct (useWonging g1 && Qltb (currentTrueCount g1) (wongingThreshold g1)).
  - apply Ok_inj, pair_equal_spec in H. destruct H as [<- _].
    apply burn_preserves. revert Hg; apply P_ext; reflexivity.
  - destruct (Qltb (bankroll g1) (computeBet g1 (currentTrueCount g1))).
    + now injection H as <- _.
    + eapply dealAndPlay_preserves; eassumption.
Qed.

Lemma playHands_preserves (n : nat) :
  forall g g', playHands shuffle n g = Ok g' ->
               P g -> P g'.
Proof.
  induction n as [|n IH]; intros g g' H Hg; cbn [playHands] in H.
  - now injection H as <-.
  - destruct (playHand shuffle g) as [[g1 p]|] eqn:E; [|discriminate].
    cbn [bind] in H. eapply IH; [exact H|].
    eapply playHand_preserves; eassumption.
Qed.

End Preservation.

Section CountedFacts.

Import BlackjackGame.

Variable shuffle : nat -> list Card.t -> list Card.t.

Lemma Counted_ext (g g' : t) :
  deck g' = deck g -> counter g' = counter g ->
  shuffleIndex g' = shuffleIndex g ->
  reshufflePoint g' = reshufflePoint g ->
  Counted shuffle g -> Counted shuffle g'.
Proof.
  intros Hd Hc Hi _ (dealt & Hshoe & Hcount). exists dealt.
  now rewrite Hd, Hc, Hi.
Qed.

Lemma Counted_drew (g : t) (c : Card.t) (rest : list Card.t) :
  Deck.cards (deck g) = c :: rest ->
  Counted shuffle g -> Counted shuffle (drew g c rest).
Proof.
  intros Hcards (dealt & Hshoe & Hcount). exists (dealt ++ [c]).
  cbn [drew set_counter set_deck deck counter shuffleIndex Deck.cards
       Deck.numDecks].
  rewrite <- app_assoc. cbn [app]. rewrite <- Hcards, Hshoe.
  split; [reflexivity|]. now rewrite countAll_snoc, Hcount.
Qed.

Lemma reshuffleCheck_Counted (g : t) :
  Counted shuffle g -> Counted shuffle (reshuffleCheck shuffle g).
Proof.
  intros Hg. unfold reshuffleCheck.
  destruct (Deck.needsReshuffle (deck g) (reshufflePoint g)); [|exact Hg].
  exists []. split; reflexivity.
Qed.

Lemma init_Counted (c : Config) : Counted shuffle (init shuffle c).
Proof. exists []. split; reflexivity. Qed.

Lemma playHands_Counted (n : nat) (g g' : t) :
  playHands shuffle n g = Ok g' -> Counted shuffle g -> Counted shuffle g'.
Proof.
  exact (playHands_preserves shuffle (Counted shuffle) Counted_ext
           Counted_drew reshuffleCheck_Counted n g g').
Qed.

End CountedFacts.

Lemma noShuffle_Permutation (i : nat) (l : list Card.t) :
  Permutation (noShuffle i l) l.
Proof. apply Permutation_refl. Qed.

Lemma cutAt_Permutation (k i : nat) (l : list Card.t) :
  Permutation (cutAt k i l) l.
Proof.
  unfold cutAt. rewrite <- (firstn_skipn k l) at 3. apply Permutation_app_comm.
Qed.

(** C7: in every state a session reaches through [playHand] calls, the
    cards missing from the current shoe are exactly the cards passed to
    [countCard] since the shoe was built, once each and in order; so
    [cardsSeen] is their number and [runningCount] their Hi-Lo tally.  And
    when the reshuffle check fires, it leaves a full shoe with running
    count and cards-seen both 0. *)
Theorem playHand_counts_every_card
        (shuffle : nat -> list Card.t -> list Card.t)
        (c : BlackjackGame.Config) (n : nat) (g : BlackjackGame.t) :
  BlackjackGame.playHands shuffle n (BlackjackGame.init shuffle c) = Ok g ->
  (exists dealt,
      dealt ++ Deck.cards (BlackjackGame.deck g)
      = BlackjackGame.shoe shuffle (BlackjackGame.shuffleIndex g)
                           (Deck.numDecks (BlackjackGame.deck g))
      /\ BlackjackGame.counter g = countAll dealt
      /\ CardCounter.cardsSeen (BlackjackGame.counter g)
         = Z.of_nat (length dealt)
      /\ CardCounter.runningCount (BlackjackGame.counter g) = tally dealt)
  /\ (Deck.needsReshuffle (BlackjackGame.deck g)
                          (BlackjackGame.reshufflePoint g) = true ->
      let g1 := BlackjackGame.reshuffleCheck shuffle g in
      BlackjackGame.counter g1 = CardCounter.mk 0 0
      /\ Deck.cards (BlackjackGame.deck g1)
         = BlackjackGame.shoe shuffle (BlackjackGame.shuffleIndex g1)
                              (Deck.numDecks (BlackjackGame.deck g1))).
Proof.
  intros Hrun. split.
  - destruct (playHands_Counted shuffle n _ _ Hrun
                (init_Counted shuffle c)) as (dealt & Hshoe & Hcount).
    exists dealt. destruct (countAll_fields dealt) as [Hseen Hrc].
    rewrite Hcount. auto.
  - intros Hneed. unfold BlackjackGame.reshuffleCheck. rewrite Hneed.
    split; reflexivity.
Qed.

Lemma playHand_counts_every_card_witness :
  exists g dealt,
    BlackjackGame.playHands noShuffle 3
      (BlackjackGame.init noShuffle BlackjackGame.defaultConfig) = Ok g
    /\ dealt ++ Deck.cards (BlackjackGame.deck g)
       = BlackjackGame.shoe noShuffle 0 6
    /\ length dealt = 16%nat
    /\ CardCounter.cardsSeen (BlackjackGame.counter g) = 16
    /\ CardCounter.runningCount (BlackjackGame.counter g) = tally dealt.
Proof.
  destruct (BlackjackGame.playHands noShuffle 3
              (BlackjackGame.init noShuffle BlackjackGame.defaultConfig))
    as [g|e] eqn:Hrun; [|vm_compute in Hrun; discriminate].
  destruct (playHand_counts_every_card noShuffle BlackjackGame.defaultConfig
              3 g Hrun) as ((dealt & Hshoe & Hcount & Hseen & Hrc) & _).
  exists g, dealt.
  assert (Hg : BlackjackGame.shuffleIndex g = 0%nat
               /\ Deck.numDecks (BlackjackGame.deck g) = 6%nat
               /\ CardCounter.cardsSeen (BlackjackGame.counter g) = 16).
  { vm_compute in Hrun. apply Ok_inj in Hrun. subst g. repeat split. }
  destruct Hg as (Hi & Hn & H16). rewrite Hi, Hn in Hshoe.
  repeat split; try assumption. lia.
Defined.

(** ** The dealer's turn *)

Lemma rawTotal_app (a b : list Card.t) :
  Hand.rawTotal (a ++ b) = Hand.rawTotal a + Hand.rawTotal b.
Proof.
  unfold Hand.rawTotal. induction a as [|c a IH]; cbn [app fold_right]; lia.
Qed.

Lemma countAces_app (a b : list Card.t) :
  Hand.countAces (a ++ b) = (Hand.countAces a + Hand.countAces b)%nat.
Proof. unfold Hand.countAces. now rewrite filter_app, length_app. Qed.

(** Every card adds at least 1 to the total with aces counted as 1. *)
Lemma hardTotal_snoc (cs : list Card.t) (c : Card.t) :
  Hand.hardTotal cs + 1 <= Hand.hardTotal (cs ++ [c]).
Proof.
  assert (H1 : 1 <= Hand.rawTotal [c] - 10 * Z.of_nat (Hand.countAces [c]))
    by (destruct c as [[] s]; vm_compute; discriminate).
  unfold Hand.hardTotal. rewrite rawTotal_app, countAces_app, Nat2Z.inj_add.
  lia.
Qed.

Lemma getValue_valueOf (h : Hand.t) : Hand.getValue h = valueOf (Hand.cards h).
Proof. reflexivity. Qed.

Lemma dealerLoop_trace (shoe : list Card.t) :
  forall g dh g' dh',
    Deck.cards (BlackjackGame.deck g) = shoe ->
    BlackjackGame.dealerLoop shoe g dh = Ok (g', dh') ->
    17 <= Hand.getValue dh' /\
    exists drawn,
      Hand.cards dh' = Hand.cards dh ++ drawn /\
      shoe = drawn ++ Deck.cards (BlackjackGame.deck g') /\
      forall k, (k < length drawn)%nat ->
                valueOf (Hand.cards dh ++ firstn k drawn) < 17.
Proof.
  induction shoe as [|c rest IH]; intros g dh g' dh' Hshoe H;
    cbn [BlackjackGame.dealerLoop] in H;
    destruct (Hand.getValue dh <? 17) eqn:E; try discriminate.
  - apply Ok_inj, pair_equal_spec in H. destruct H as [<- <-].
    apply Z.ltb_ge in E. split; [exact E|]. exists [].
    rewrite app_nil_r. repeat split; [now rewrite Hshoe|].
    cbn [length]. lia.
  - apply Z.ltb_lt in E.
    destruct (IH (BlackjackGame.drew g c rest) (Hand.addCard dh c) g' dh'
                 eq_refl H) as (H17 & drawn & Hcards & Hrest & Hlow).
    split; [exact H17|]. exists (c :: drawn).
    cbn [Hand.addCard Hand.cards] in Hcards, Hlow.
    rewrite <- app_assoc in Hcards. repeat split.
    + exact Hcards.
    + cbn [app]. now rewrite <- Hrest.
    + intros [|k] Hk; cbn [firstn].
      * rewrite app_nil_r. now rewrite <- getValue_valueOf.
      * cbn [length] in Hk.
        replace (Hand.cards dh ++ c :: firstn k drawn)
          with ((Hand.cards dh ++ [c]) ++ firstn k drawn)
          by now rewrite <- app_assoc.
        apply Hlow. lia.
  - apply Ok_inj, pair_equal_spec in H. destruct H as [<- <-].
    apply Z.ltb_ge in E. split; [exact E|]. exists [].
    rewrite app_nil_r. repeat split; [now rewrite Hshoe|].
    cbn [length]. lia.
Qed.

Lemma dealerLoop_total (shoe : list Card.t) :
  forall g dh,
    17 - Hand.hardTotal (Hand.cards dh) <= Z.of_nat (length shoe) ->
    exists g' dh', BlackjackGame.dealerLoop shoe g dh = Ok (g', dh').
Proof.
  induction shoe as [|c rest IH]; intros g dh Hlen;
    cbn [BlackjackGame.dealerLoop];
    destruct (Hand.getValue dh <? 17) eqn:E; try (now eexists; eexists).
  - apply Z.ltb_lt in E. pose proof (hardTotal_le_getValue dh).
    cbn [length] in Hlen. lia.
  - apply IH. cbn [Hand.addCard Hand.cards].
    pose proof (hardTotal_snoc (Hand.cards dh) c).
    cbn [length] in Hlen. lia.
Qed.

(** C8: in the dealer turn a card is drawn whenever the dealer hand is
    worth less than 17 and none is drawn at 17 or more, soft 17 included;
    so a dealer turn that ends leaves a hand worth at least 17, every
    shorter hand along the way having been worth less than 17; and the
    turn does end when the shoe holds 17 cards (fewer if the hand already
    has a hard total). *)
Theorem dealer_draws_below_17_only (g : BlackjackGame.t) (dh : Hand.t) :
  (Hand.getValue dh < 17 ->
   forall c rest,
     Deck.cards (BlackjackGame.deck g) = c :: rest ->
     BlackjackGame.dealerTurn g dh
     = BlackjackGame.dealerTurn (BlackjackGame.drew g c rest)
                                (Hand.addCard dh c))
  /\ (17 <= Hand.getValue dh -> BlackjackGame.dealerTurn g dh = Ok (g, dh))
  /\ (forall g' dh',
         BlackjackGame.dealerTurn g dh = Ok (g', dh') ->
         17 <= Hand.getValue dh' /\
         exists drawn,
           Hand.cards dh' = Hand.cards dh ++ drawn /\
           Deck.cards (BlackjackGame.deck g)
           = drawn ++ Deck.cards (BlackjackGame.deck g') /\
           forall k, (k < length drawn)%nat ->
                     valueOf (Hand.cards dh ++ firstn k drawn) < 17)
  /\ (17 - Hand.hardTotal (Hand.cards dh)
      <= Z.of_nat (length (Deck.cards (BlackjackGame.deck g))) ->
      exists g' dh', BlackjackGame.dealerTurn g dh = Ok (g', dh'))
  /\ (let soft17 := handOf [card Card.RA Card.Spades; card Card.R6 Card.Hearts] in
      Hand.isSoft soft17 = true /\ Hand.getValue soft17 = 17 /\
      BlackjackGame.dealerTurn g soft17 = Ok (g, soft17)).
Proof.
  unfold BlackjackGame.dealerTurn. repeat split.
  - intros Hlt c rest Hcards. rewrite Hcards.
    cbn [BlackjackGame.dealerLoop].
    now rewrite (proj2 (Z.ltb_lt _ _) Hlt).
  - intros Hge.
    destruct (Deck.cards (BlackjackGame.deck g));
      cbn [BlackjackGame.dealerLoop];
      now rewrite (proj2 (Z.ltb_ge _ _) Hge).
  - eapply dealerLoop_trace; [reflexivity|eassumption].
  - eapply dealerLoop_trace; [reflexivity|eassumption].
  - apply dealerLoop_total.
  - destruct (Deck.cards (BlackjackGame.deck g)); reflexivity.
Qed.

Lemma dealer_draws_below_17_only_witness :
  let g := BlackjackGame.init noShuffle BlackjackGame.defaultConfig in
  let dh := handOf [card Card.R5 Card.Spades; card Card.R3 Card.Hearts] in
  exists g' dh',
    BlackjackGame.dealerTurn g dh = Ok (g', dh') /\ 17 <= Hand.getValue dh'.
Proof.
  intros g dh.
  destruct (dealer_draws_below_17_only g dh) as (_ & _ & Hend & Htotal & _).
  destruct Htotal as (g' & dh' & Hrun); [vm_compute; discriminate|].
  exists g', dh'. split; [exact Hrun|]. now apply (Hend g' dh').
Defined.

(** ** Running out of money *)

(** C5 (as amended): when the hand is not sat out and the bankroll is
    below the computed bet, [playHand] returns 0.0 having drawn no card,
    with bankroll and every aggregate statistic as before the call; shoe
    and counter are as before too unless the reshuffle check at the start
    of the call fired, in which case the shoe was rebuilt and the counter
    reset. *)
Theorem playHand_insufficient_funds
        (shuffle : nat -> list Card.t -> list Card.t) (g : BlackjackGame.t) :
  let g1 := BlackjackGame.reshuffleCheck shuffle g in
  BlackjackGame.useWonging g1
  && Qltb (BlackjackGame.currentTrueCount g1)
          (BlackjackGame.wongingThreshold g1) = false ->
  Qltb (BlackjackGame.bankroll g1)
       (BlackjackGame.computeBet g1 (BlackjackGame.currentTrueCount g1))
  = true ->
  BlackjackGame.playHand shuffle g = Ok (g1, 0%Q)
  /\ (Deck.needsReshuffle (BlackjackGame.deck g)
                          (BlackjackGame.reshufflePoint g) = false -> g1 = g)
  /\ (Deck.needsReshuffle (BlackjackGame.deck g)
                          (BlackjackGame.reshufflePoint g) = true ->
      Deck.cards (BlackjackGame.deck g1)
      = BlackjackGame.shoe shuffle (S (BlackjackGame.shuffleIndex g))
                           (Deck.numDecks (BlackjackGame.deck g))
      /\ BlackjackGame.counter g1 = CardCounter.mk 0 0)
  /\ BlackjackGame.bankroll g1 = BlackjackGame.bankroll g
  /\ BlackjackGame.handsPlayed g1 = BlackjackGame.handsPlayed g
  /\ BlackjackGame.handsWon g1 = BlackjackGame.handsWon g
  /\ BlackjackGame.handsLost g1 = BlackjackGame.handsLost g
  /\ BlackjackGame.handsPushed g1 = BlackjackGame.handsPushed g
  /\ BlackjackGame.handsSatOut g1 = BlackjackGame.handsSatOut g
  /\ BlackjackGame.totalWagered g1 = BlackjackGame.totalWagered g
  /\ BlackjackGame.maxBankroll g1 = BlackjackGame.maxBankroll g
  /\ BlackjackGame.minBankroll g1 = BlackjackGame.minBankroll g.
Proof.
  intros g1 Hplay Hbroke. split.
  - unfold BlackjackGame.playHand. fold g1. now rewrite Hplay, Hbroke.
  - subst g1. unfold BlackjackGame.reshuffleCheck.
    destruct (Deck.needsReshuffle (BlackjackGame.deck g)
                                  (BlackjackGame.reshufflePoint g));
      repeat split; try reflexivity; discriminate.
Qed.

Lemma playHand_insufficient_funds_witness :
  let g := BlackjackGame.init noShuffle brokeFromStart in
  BlackjackGame.playHand noShuffle g = Ok (g, 0%Q).
Proof.
  intros g.
  assert (Hplay :
    BlackjackGame.useWonging (BlackjackGame.reshuffleCheck noShuffle g)
    && Qltb (BlackjackGame.currentTrueCount
               (BlackjackGame.reshuffleCheck noShuffle g))
            (BlackjackGame.wongingThreshold
               (BlackjackGame.reshuffleCheck noShuffle g)) = false)
    by (vm_compute; reflexivity).
  assert (Hbroke :
    Qltb (BlackjackGame.bankroll (BlackjackGame.reshuffleCheck noShuffle g))
         (BlackjackGame.computeBet
            (BlackjackGame.reshuffleCheck noShuffle g)
            (BlackjackGame.currentTrueCount
               (BlackjackGame.reshuffleCheck noShuffle g))) = true)
    by (vm_compute; reflexivity).
  destruct (playHand_insufficient_funds noShuffle g Hplay Hbroke)
    as (Hret & Hsame & _).
  assert (Hfull : Deck.needsReshuffle (BlackjackGame.deck g)
                    (BlackjackGame.reshufflePoint g) = false)
    by (vm_compute; reflexivity).
  rewrite Hret. now rewrite (Hsame Hfull).
Defined.

(** A sat-out round draws and counts its four cards whatever the
    bankroll: the bet is not computed on that path. *)
Lemma playHand_sat_out_when_broke :
  let g := BlackjackGame.init noShuffle brokeAndSittingOut in
  Qltb (BlackjackGame.bankroll g)
       (BlackjackGame.computeBet g (BlackjackGame.currentTrueCount g)) = true
  /\ match BlackjackGame.playHand noShuffle g with
     | Ok (g', p) =>
         p = 0%Q
         /\ length (Deck.cards (BlackjackGame.deck g')) = 308%nat
         /\ BlackjackGame.counter g' = CardCounter.mk (-4) 4
         /\ BlackjackGame.handsSatOut g' = 1
         /\ BlackjackGame.bankroll g' = BlackjackGame.bankroll g
     | Raise _ => False
     end.
Proof. vm_compute. repeat split. Qed.

Lemma shortBankroll_second_call :
  match BlackjackGame.playHands (cutAt 8) 1
          (BlackjackGame.init (cutAt 8) shortBankroll) with
  | Ok g =>
      match BlackjackGame.playHand (cutAt 8) g with
      | Ok (g', p) =>
          Qltb (BlackjackGame.bankroll g)
               (BlackjackGame.computeBet g (BlackjackGame.currentTrueCount g))
          = true
          /\ length (Deck.cards (BlackjackGame.deck g)) = 306%nat
          /\ length (Deck.cards (BlackjackGame.deck g')) = 312%nat
          /\ BlackjackGame.counter g = CardCounter.mk 4 6
          /\ BlackjackGame.counter g' = CardCounter.mk 0 0
          /\ BlackjackGame.bankroll g' = BlackjackGame.bankroll g
      | Raise _ => False
      end
  | Raise _ => False
  end.
Proof. vm_compute. repeat split. Qed.

(** The claim as the spec words it fails: a session that loses a doubled
    bet on its first hand is left with 5 against a bet of 10 and a shoe of
    306 cards under a reshuffle point of 309; the next call reports no
    money, yet it has rebuilt the shoe and zeroed the counter. *)
Lemma playHand_insufficient_funds_reshuffles :
  exists g g' p,
    BlackjackGame.playHands (cutAt 8) 1
      (BlackjackGame.init (cutAt 8) shortBankroll) = Ok g
    /\ Qltb (BlackjackGame.bankroll g)
            (BlackjackGame.computeBet g (BlackjackGame.currentTrueCount g))
       = true
    /\ BlackjackGame.playHand (cutAt 8) g = Ok (g', p)
    /\ g' <> g
    /\ length (Deck.cards (BlackjackGame.deck g)) = 306%nat
    /\ length (Deck.cards (BlackjackGame.deck g')) = 312%nat
    /\ BlackjackGame.counter g = CardCounter.mk 4 6
    /\ BlackjackGame.counter g' = CardCounter.mk 0 0
    /\ BlackjackGame.bankroll g' = BlackjackGame.bankroll g.
Proof.
  pose proof shortBankroll_second_call as H.
  destruct (BlackjackGame.playHands (cutAt 8) 1
              (BlackjackGame.init (cutAt 8) shortBankroll))
    as [g|e]; [|contradiction].
  destruct (BlackjackGame.playHand (cutAt 8) g) as [[g' p]|e] eqn:Hnext;
    [|contradiction].
  destruct H as (Hbroke & Hlen & Hlen' & Hc & Hc' & Hbank).
  exists g, g', p.
  split; [reflexivity|]. split; [exact Hbroke|]. split; [exact Hnext|].
  split; [|now repeat split].
  intros ->. rewrite Hc in Hc'. discriminate.
Qed.

(** ** How many cards a hand can take *)

Lemma hardTotal_ge_length (cs : list Card.t) :
  Z.of_nat (length cs) <= Hand.hardTotal cs.
Proof.
  induction cs as [|c cs IH] using rev_ind; [vm_compute; discriminate|].
  pose proof (hardTotal_snoc cs c). rewrite length_app. cbn [length]. lia.
Qed.

Lemma hardHandStrategy_stands (pv dv : Z) (cd : bool) :
  17 <= pv -> BasicStrategy.hardHandStrategy pv dv cd = STAND.
Proof.
  intros H. unfold BasicStrategy.hardHandStrategy.
  now rewrite (proj2 (Z.leb_le _ _) H).
Qed.

(** The strategy asks for a card only while the total with aces as 1 is
    at most 16. *)
Lemma drawing_needs_low_hardTotal (h : Hand.t) (up : Card.t) (cd : bool)
      (a : Action) :
  BasicStrategy.getAction h up cd false = Ok a ->
  a <> STAND -> Hand.hardTotal (Hand.cards h) <= 16.
Proof.
  unfold BasicStrategy.getAction. cbn [andb].
  destruct (Hand.isSoft h && Nat.eqb (length (Hand.cards h)) 2) eqn:E.
  - intros _ _. apply andb_true_iff in E as [Hs _]. unfold Hand.isSoft in Hs.
    apply andb_true_iff in Hs as [Ha Ht].
    apply Z.ltb_lt in Ha. apply Z.leb_le in Ht. unfold Hand.hardTotal. lia.
  - intros H Hns. apply Ok_inj in H.
    destruct (Z_lt_le_dec (Hand.getValue h) 17) as [Hlt|Hge].
    + pose proof (hardTotal_le_getValue h). lia.
    + rewrite hardHandStrategy_stands in H by assumption. congruence.
Qed.

Lemma playPlayerLoop_total (shoe : list Card.t) :
  forall g ph up,
    Deck.cards (BlackjackGame.deck g) = shoe ->
    17 - Hand.hardTotal (Hand.cards ph) <= Z.of_nat (length shoe) ->
    exists g' ph' r,
      BlackjackGame.playPlayerLoop shoe g ph up = Ok (g', ph', r)
      /\ Z.of_nat (length shoe)
         <= Z.of_nat (length (Deck.cards (BlackjackGame.deck g')))
            + Z.max 0 (17 - Hand.hardTotal (Hand.cards ph)).
Proof.
  induction shoe as [|c rest IH]; intros g ph up Hshoe Hlen;
    cbn [BlackjackGame.playPlayerLoop];
    destruct (getAction_noSplit ph up (BlackjackGame.canDoubleNow g ph))
      as (a & Ha & Hns);
    rewrite Ha; cbn [bind];
    pose proof (drawing_needs_low_hardTotal _ _ _ _ Ha) as Hlow;
    cbn [length] in Hlen |- *;
    destruct a; try congruence;
    try (assert (Hand.hardTotal (Hand.cards ph) <= 16)
          by (apply Hlow; discriminate)).
  - lia.
  - do 3 eexists. split; [reflexivity|]. rewrite Hshoe. cbn [length]. lia.
  - lia.
  - pose proof (hardTotal_snoc (Hand.cards ph) c) as Hsnoc.
    destruct (Hand.isBusted (Hand.addCard ph c)).
    + do 3 eexists. split; [reflexivity|].
      cbn [BlackjackGame.lose BlackjackGame.set_handsLost
           BlackjackGame.set_bankroll BlackjackGame.drew
           BlackjackGame.set_counter BlackjackGame.set_deck
           BlackjackGame.deck Deck.cards]. lia.
    + destruct (IH (BlackjackGame.drew g c rest) (Hand.addCard ph c) up
                   eq_refl) as (g' & ph' & r & Hrun & Hbound).
      * cbn [Hand.addCard Hand.cards]. lia.
      * exists g', ph', r. split; [exact Hrun|].
        cbn [Hand.addCard Hand.cards] in Hbound. lia.
  - do 3 eexists. split; [reflexivity|]. rewrite Hshoe. cbn [length]. lia.
  - pose proof (hardTotal_snoc (Hand.cards ph) c) as Hsnoc.
    destruct (BlackjackGame.canDoubleNow g ph).
    + match goal with
      | |- context [if ?b then _ else _] => destruct b
      end; do 3 eexists; (split; [reflexivity|]);
        cbn [BlackjackGame.lose BlackjackGame.set_handsLost
             BlackjackGame.set_bankroll BlackjackGame.drew
             BlackjackGame.set_counter BlackjackGame.set_deck
             BlackjackGame.deck Deck.cards]; lia.
    + destruct (Hand.isBusted (Hand.addCard ph c)).
      * do 3 eexists. split; [reflexivity|].
        cbn [BlackjackGame.lose BlackjackGame.set_handsLost
             BlackjackGame.set_bankroll BlackjackGame.drew
             BlackjackGame.set_counter BlackjackGame.set_deck
             BlackjackGame.deck Deck.cards]. lia.
      * destruct (IH (BlackjackGame.drew g c rest) (Hand.addCard ph c) up
                     eq_refl) as (g' & ph' & r & Hrun & Hbound).
        -- cbn [Hand.addCard Hand.cards]. lia.
        -- exists g', ph', r. split; [exact Hrun|].
           cbn [Hand.addCard Hand.cards] in Hbound. lia.
Qed.

Lemma dealAndCount_cons (g : BlackjackGame.t) (c : Card.t)
      (rest : list Card.t) :
  Deck.cards (BlackjackGame.deck g) = c :: rest ->
  BlackjackGame.dealAndCount g = Ok (c, BlackjackGame.drew g c rest).
Proof.
  intros Hcards. unfold BlackjackGame.dealAndCount, Deck.dealCard.
  rewrite Hcards. reflexivity.
Qed.

Lemma initialDeal_total (g : BlackjackGame.t) (ph dh : Hand.t)
      (c1 c2 c3 c4 : Card.t) (rest : list Card.t) :
  Deck.cards (BlackjackGame.deck g) = c1 :: c2 :: c3 :: c4 :: rest ->
  exists g',
    BlackjackGame.initialDeal g ph dh
    = Ok (g', Hand.addCard (Hand.addCard ph c1) c3,
          Hand.addCard (Hand.addCard dh c2) c4)
    /\ Deck.cards (BlackjackGame.deck g') = rest.
Proof.
  intros Hcards. unfold BlackjackGame.initialDeal.
  rewrite (dealAndCount_cons g c1 _ Hcards). cbn [bind].
  set (g1 := BlackjackGame.drew g c1 (c2 :: c3 :: c4 :: rest)).
  rewrite (dealAndCount_cons g1 c2 (c3 :: c4 :: rest) eq_refl). cbn [bind].
  set (g2 := BlackjackGame.drew g1 c2 (c3 :: c4 :: rest)).
  rewrite (dealAndCount_cons g2 c3 (c4 :: rest) eq_refl). cbn [bind].
  set (g3 := BlackjackGame.drew g2 c3 (c4 :: rest)).
  rewrite (dealAndCount_cons g3 c4 rest eq_refl). cbn [bind].
  exists (BlackjackGame.drew g3 c4 rest). split; reflexivity.
Qed.

(** Thirty-four cards are enough for any hand: four for the deal and at
    most fifteen each for the player and the dealer. *)
Lemma dealAndPlay_total (g : BlackjackGame.t) (bet : Q) :
  (34 <= length (Deck.cards (BlackjackGame.deck g)))%nat ->
  exists g' p, BlackjackGame.dealAndPlay g bet = Ok (g', p).
Proof.
  intros Hlen.
  destruct (Deck.cards (BlackjackGame.deck g))
    as [|c1 [|c2 [|c3 [|c4 rest]]]] eqn:Hcards;
    try (cbn [length] in Hlen; lia).
  destruct (initialDeal_total g (Hand.mk [] bet false false) Hand.new
              _ _ _ _ _ Hcards) as (g1 & Hdeal & Hrest).
  unfold BlackjackGame.dealAndPlay. rewrite Hdeal. cbn [bind].
  set (ph := Hand.addCard (Hand.addCard (Hand.mk [] bet false false) c1) c3).
  set (dh := Hand.addCard (Hand.addCard Hand.new c2) c4).
  set (g1' := BlackjackGame.set_totalWagered g1 _).
  destruct (Hand.isBlackjack ph);
    [destruct (Hand.isBlackjack dh); eexists; eexists; reflexivity|].
  destruct (Hand.isBlackjack dh); [eexists; eexists; reflexivity|].
  cbn [dh Hand.addCard Hand.cards Hand.new app].
  assert (Hph : 2 <= Hand.hardTotal (Hand.cards ph))
    by (apply (hardTotal_ge_length [c1; c3])).
  assert (Hdh : 2 <= Hand.hardTotal (Hand.cards dh))
    by (apply (hardTotal_ge_length [c2; c4])).
  assert (Hshoe : Deck.cards (BlackjackGame.deck g1') = rest) by exact Hrest.
  cbn [length] in Hlen.
  unfold BlackjackGame.playPlayerHand.
  destruct (playPlayerLoop_total _ g1' ph c2 eq_refl)
    as (g2 & ph2 & r & Hplay & Hbound); [rewrite Hshoe; lia|].
  rewrite Hplay. cbn [bind].
  destruct r as [r|]; [eexists; eexists; reflexivity|].
  unfold BlackjackGame.dealerTurn.
  destruct (dealerLoop_total (Deck.cards (BlackjackGame.deck g2)) g2 dh)
    as (g3 & dh3 & Hdealer); [rewrite Hshoe in Hbound; lia|].
  rewrite Hdealer. cbn [bind].
  destruct (BlackjackGame.determineWinner g3 ph2 dh3) as [g4 profit].
  eexists; eexists; reflexivity.
Qed.

Lemma playHand_total (shuffle : nat -> list Card.t -> list Card.t)
      (g : BlackjackGame.t) :
  (34 <= length (Deck.cards (BlackjackGame.deck
                               (BlackjackGame.reshuffleCheck shuffle g))))%nat ->
  exists g' p, BlackjackGame.playHand shuffle g = Ok (g', p).
Proof.
  intros Hlen. unfold BlackjackGame.playHand.
  set (g1 := BlackjackGame.reshuffleCheck shuffle g) in *.
  destruct (BlackjackGame.useWonging g1 && _);
    [eexists; eexists; reflexivity|].
  destruct (Qltb _ _); [eexists; eexists; reflexivity|].
  now apply dealAndPlay_total.
Qed.

Lemma fresh_length : length (Deck.fresh 6) = 312%nat.
Proof. reflexivity. Qed.

Section Safety.

Import BlackjackGame.

Variable shuffle : nat -> list Card.t -> list Card.t.

(** [random.shuffle] permutes, so it keeps the number of cards. *)
Hypothesis shuffle_length : forall i l, length (shuffle i l) = length l.

Variable rp : Z.
Hypothesis rp_covers_a_hand : 34 <= rp.

Lemma TableOf_ext (g g' : t) :
  deck g' = deck g -> counter g' = counter g ->
  shuffleIndex g' = shuffleIndex g ->
  reshufflePoint g' = reshufflePoint g ->
  TableOf rp 6 g -> TableOf rp 6 g'.
Proof. intros Hd _ _ Hr [H1 H2]. split; congruence. Qed.

Lemma TableOf_drew (g : t) (c : Card.t) (rest : list Card.t) :
  Deck.cards (deck g) = c :: rest ->
  TableOf rp 6 g -> TableOf rp 6 (drew g c rest).
Proof. intros _ [H1 H2]. split; assumption. Qed.

Lemma TableOf_reshuffle (g : t) :
  TableOf rp 6 g -> TableOf rp 6 (reshuffleCheck shuffle g).
Proof.
  intros [H1 H2]. unfold reshuffleCheck.
  destruct (Deck.needsReshuffle (deck g) (reshufflePoint g));
    split; assumption.
Qed.

Lemma reshuffleCheck_covers_a_hand (g : t) :
  TableOf rp 6 g ->
  (34 <= length (Deck.cards (deck (reshuffleCheck shuffle g))))%nat.
Proof.
  intros [H1 H2]. unfold reshuffleCheck, Deck.needsReshuffle.
  destruct (Z.of_nat (length (Deck.cards (deck g))) <? reshufflePoint g)
    eqn:E.
  - cbn [set_counter set_shuffleIndex set_deck deck Deck_reset Deck.cards].
    unfold shoe. rewrite shuffle_length, H2, fresh_length. lia.
  - apply Z.ltb_ge in E. lia.
Qed.

(** Where the reshuffle point leaves room for a whole hand, no call of
    [playHand] raises. *)
Lemma playHands_total (n : nat) :
  forall g, TableOf rp 6 g -> exists g', playHands shuffle n g = Ok g'.
Proof.
  induction n as [|n IH]; intros g Hg; cbn [playHands]; [now exists g|].
  destruct (playHand_total shuffle g (reshuffleCheck_covers_a_hand g Hg))
    as (g1 & p & Hrun).
  rewrite Hrun. cbn [bind]. apply IH.
  exact (playHand_preserves shuffle (TableOf rp 6) TableOf_ext TableOf_drew
           TableOf_reshuffle g g1 p Hrun Hg).
Qed.

End Safety.

(** The default penetration of 0.75 puts the reshuffle point at 78, so a
    default session never draws from an empty shoe, whatever the shuffles. *)
Lemma defaultConfig_never_raises
      (shuffle : nat -> list Card.t -> list Card.t) (n : nat) :
  (forall i l, length (shuffle i l) = length l) ->
  exists g,
    BlackjackGame.playHands shuffle n
      (BlackjackGame.init shuffle BlackjackGame.defaultConfig) = Ok g.
Proof.
  intros Hlen. apply (playHands_total shuffle Hlen 78); [lia|].
  split; reflexivity.
Qed.

(** ** Drawing from the shoe *)

Lemma nearFullPenetration_run :
  match BlackjackGame.playHands noShuffle 56
          (BlackjackGame.init noShuffle nearFullPenetration) with
  | Ok g =>
      Deck.cards (BlackjackGame.deck g) = []
      /\ Deck.needsReshuffle (BlackjackGame.deck g)
                             (BlackjackGame.reshufflePoint g) = false
      /\ BlackjackGame.playHand noShuffle g = Raise IndexError
  | Raise _ => False
  end.
Proof. vm_compute. repeat split. Qed.

(** C4: with penetration in (0,1) no call of [playHand] should reach
    [dealCard] on an empty shoe.  With penetration 1023/1024 the reshuffle
    point is [int(312/1024)] = 0, so the check at the start of a hand never
    fires: flat-betting through the shoe as built, the 56th hand leaves the
    shoe empty and the 57th call pops from the empty list.  (The sat-out
    path guards each draw with [len(self.deck.cards) > 0]; the deal, the
    player turn and the dealer turn do not.  A reshuffle point of at least
    34 does keep every draw safe: [playHands_total].) *)
Theorem playHand_draws_from_empty_shoe :
  validConfig nearFullPenetration = true
  /\ BlackjackGame.reshufflePoint
       (BlackjackGame.init noShuffle nearFullPenetration) = 0
  /\ (exists g,
         BlackjackGame.playHands noShuffle 56
           (BlackjackGame.init noShuffle nearFullPenetration) = Ok g
         /\ Deck.cards (BlackjackGame.deck g) = []
         /\ Deck.needsReshuffle (BlackjackGame.deck g)
                                (BlackjackGame.reshufflePoint g) = false
         /\ BlackjackGame.playHand noShuffle g = Raise IndexError)
  /\ BlackjackGame.playHands noShuffle 57
       (BlackjackGame.init noShuffle nearFullPenetration) = Raise IndexError.
Proof.
  split; [reflexivity|]. split; [reflexivity|]. split.
  - pose proof nearFullPenetration_run as H.
    destruct (BlackjackGame.playHands noShuffle 56
                (BlackjackGame.init noShuffle nearFullPenetration))
      as [g|e]; [|contradiction].
    exists g. split; [reflexivity|exact H].
  - vm_compute. reflexivity.
Qed.

(** ** Session creation *)

(** C6 (as amended): session creation validates nothing and never raises
    ConfigurationError.  It computes [6 * 52 * (1 - penetration)] in double
    arithmetic and passes it to [int()]: when the product is an infinity
    the call raises OverflowError, when it is a NaN the call raises
    ValueError, and in every other case, whatever the bankroll and the
    base bet and whether or not the penetration lies in (0,1), it returns
    a session whose bankroll, base bet and penetration are the values
    given, whose reshuffle point is the product truncated toward zero,
    and whose shoe is full and counters are zero. *)
Theorem newSession_never_rejects
        (shuffle : nat -> list Card.t -> list Card.t)
        (c : BlackjackGame.Config) :
  let product :=
    Float64.mul (Float64.ofZ (6 * 52))
                (Float64.sub (Float64.ofZ 1) (BlackjackGame.cfg_penetration c))
  in
  BlackjackGame.newSession shuffle c <> Raise ConfigurationError
  /\ match product with
     | S754_infinity _ =>
         BlackjackGame.newSession shuffle c = Raise OverflowError
     | S754_nan =>
         BlackjackGame.newSession shuffle c = Raise ValueError
     | S754_zero _ | S754_finite _ _ _ =>
         exists g,
           BlackjackGame.newSession shuffle c = Ok g
           /\ BlackjackGame.bankroll g = BlackjackGame.cfg_startingBankroll c
           /\ BlackjackGame.baseBet g = BlackjackGame.cfg_baseBet c
           /\ BlackjackGame.penetration g = BlackjackGame.cfg_penetration c
           /\ Float64.toInt product = Ok (BlackjackGame.reshufflePoint g)
           /\ Deck.cards (BlackjackGame.deck g)
              = BlackjackGame.shoe shuffle 0 6
           /\ BlackjackGame.counter g = CardCounter.mk 0 0
           /\ BlackjackGame.handsPlayed g = 0
           /\ BlackjackGame.handsSatOut g = 0
           /\ BlackjackGame.totalWagered g = 0%Q
     end.
Proof.
  intros product. unfold BlackjackGame.newSession.
  change (BlackjackGame.reshuffleProduct 6 (BlackjackGame.cfg_penetration c))
    with product.
  assert (Hrp : BlackjackGame.reshufflePoint (BlackjackGame.init shuffle c)
                = Float64.trunc product) by reflexivity.
  destruct product as [s| s| |s m e] eqn:E; cbn [Float64.toInt bind];
    (split; [discriminate|]); try reflexivity;
    exists (BlackjackGame.init shuffle c); rewrite Hrp; repeat split.
Qed.

(** The claim as the spec words it fails: a configuration with
    penetration 2, bankroll -5 and base bet 0 yields a session. *)
Lemma newSession_accepts_invalid_config :
  validConfig invalidConfig = false
  /\ BlackjackGame.newSession noShuffle invalidConfig
     <> Raise ConfigurationError
  /\ exists g,
       BlackjackGame.newSession noShuffle invalidConfig = Ok g
       /\ BlackjackGame.bankroll g = (-5)%Q
       /\ BlackjackGame.reshufflePoint g = -312.
Proof.
  split; [reflexivity|]. split; [discriminate|].
  exists (BlackjackGame.init noShuffle invalidConfig). repeat split.
Qed.

(** The calls on which [int()] raises, whatever the other settings: an
    infinite or huge penetration overflows the product, a NaN stays a
    NaN. *)
Lemma newSession_int_exceptions
      (shuffle : nat -> list Card.t -> list Card.t)
      (bankroll baseBet threshold : Q) (counting wonging : bool) :
  let session penetration :=
    BlackjackGame.newSession shuffle
      (BlackjackGame.mkConfig bankroll baseBet counting penetration wonging
                              threshold) in
  session Float64.inf = Raise OverflowError
  /\ session (Float64.ofZ (10 ^ 308)) = Raise OverflowError
  /\ session (Float64.ofZ (- 10 ^ 308)) = Raise OverflowError
  /\ session Float64.nan = Raise ValueError.
Proof. repeat split; vm_compute; reflexivity. Qed.

(** Reshuffle points where the rounding of the double product decides:
    at penetration 278/312 the product is just below 34. *)
Lemma reshufflePoint_rounding
      (shuffle : nat -> list Card.t -> list Card.t)
      (bankroll baseBet threshold : Q) (counting wonging : bool) :
  let point penetration :=
    BlackjackGame.reshufflePoint
      (BlackjackGame.init shuffle
         (BlackjackGame.mkConfig bankroll baseBet counting penetration
                                 wonging threshold)) in
  point (Float64.ofQ (75 # 100)) = 78
  /\ point (Float64.ofQ (278 # 312)) = 33
  /\ point (Float64.ofQ (89 # 100)) = 34
  /\ point (Float64.ofQ (58 # 100)) = 131.
Proof. repeat split; vm_compute; reflexivity. Qed.

(** ** The statistics snapshot *)

(** C10 (as amended): the snapshot computes profit as bankroll minus the
    constant 1000, whatever the starting bankroll was, and ROI as that
    profit divided by the total wagered and multiplied by 100 (0 when
    nothing was wagered); so the reported profit is the session's true
    profit exactly when the starting bankroll was 1000. *)
Theorem getStats_profit_against_1000
        (g : BlackjackGame.t) (startingBankroll : Q) :
  exists st,
    App.getStats (Some g) = Some st
    /\ App.st_profit st = (BlackjackGame.bankroll g - 1000)%Q
    /\ App.st_roi st
       = (if Qltb 0 (BlackjackGame.totalWagered g)
          then App.st_profit st / BlackjackGame.totalWagered g * 100
          else 0)%Q
    /\ ((BlackjackGame.totalWagered g == 0)%Q -> App.st_roi st = 0%Q)
    /\ ((App.st_profit st == BlackjackGame.bankroll g - startingBankroll)%Q
        <-> (startingBankroll == 1000)%Q).
Proof.
  eexists. split; [reflexivity|]. cbn [App.st_profit App.st_roi].
  split; [reflexivity|]. split; [reflexivity|]. split.
  - intros Hz. rewrite Qltb_ge; [reflexivity|]. rewrite Hz. apply Qle_refl.
  - split; intros H; lra.
Qed.

Lemma getStats_profit_against_1000_witness :
  exists st,
    App.getStats (Some (BlackjackGame.init noShuffle brokeFromStart)) = Some st
    /\ App.st_roi st = 0%Q.
Proof.
  destruct (getStats_profit_against_1000
              (BlackjackGame.init noShuffle brokeFromStart) 5)
    as (st & Hst & _ & _ & Hroi & _).
  exists st. split; [exact Hst|]. apply Hroi. reflexivity.
Defined.

Lemma defaultConfig_first_hand_stats :
  match BlackjackGame.playHands noShuffle 1
          (BlackjackGame.init noShuffle BlackjackGame.defaultConfig) with
  | Ok g =>
      match App.getStats (Some g) with
      | Some st =>
          (BlackjackGame.totalWagered g == 10)%Q
          /\ (App.st_profit st == 15)%Q
          /\ (App.st_roi st == 150)%Q
          /\ ~ (App.st_roi st
                == App.st_profit st / BlackjackGame.totalWagered g)%Q
      | None => False
      end
  | Raise _ => False
  end.
Proof. vm_compute. repeat split. intros H. discriminate H. Qed.

(** The claim as the spec words it fails on the ROI: after a first hand
    won with a blackjack on a bet of 10 the profit is 15 and the snapshot
    reports an ROI of 150, not 15/10. *)
Lemma getStats_roi_is_a_percentage :
  exists g st,
    BlackjackGame.playHands noShuffle 1
      (BlackjackGame.init noShuffle BlackjackGame.defaultConfig) = Ok g
    /\ App.getStats (Some g) = Some st
    /\ (BlackjackGame.totalWagered g == 10)%Q
    /\ (App.st_profit st == 15)%Q
    /\ (App.st_roi st == 150)%Q
    /\ ~ (App.st_roi st
          == App.st_profit st / BlackjackGame.totalWagered g)%Q.
Proof.
  pose proof defaultConfig_first_hand_stats as H.
  destruct (BlackjackGame.playHands noShuffle 1
              (BlackjackGame.init noShuffle BlackjackGame.defaultConfig))
    as [g|e]; [|contradiction].
  destruct (App.getStats (Some g)) as [st|] eqn:Hst; [|contradiction].
  exists g, st. split; [reflexivity|]. split; [exact Hst|]. exact H.
Qed.

(** * Further properties of the engine *)

(** ** Hand values *)

Lemma countAces_le_length (cs : list Card.t) :
  (Hand.countAces cs <= length cs)%nat.
Proof.
  unfold Hand.countAces. induction cs as [|c cs IH]; cbn [filter length];
    [lia|]. destruct (Card.isAce c); cbn [length]; lia.
Qed.

(** At most one ace stays at 11, and it does exactly when that fits. *)
Lemma getValue_cases (h : Hand.t) :
  let hard := Hand.hardTotal (Hand.cards h) in
  (0 < Hand.countAces (Hand.cards h))%nat /\ hard + 10 <= 21
  /\ Hand.getValue h = hard + 10
  \/ ((Hand.countAces (Hand.cards h) = 0)%nat \/ 21 < hard + 10)
     /\ Hand.getValue h = hard.
Proof.
  intros hard. subst hard. unfold Hand.getValue, Hand.hardTotal.
  pose proof (hardTotal_ge_length (Hand.cards h)) as Hlen.
  pose proof (countAces_le_length (Hand.cards h)) as Haces.
  unfold Hand.hardTotal in Hlen.
  destruct (Hand.reduceAces (Hand.countAces (Hand.cards h))
                            (Hand.rawTotal (Hand.cards h))) as [v k] eqn:E.
  destruct (reduceAces_spec _ _ _ _ E) as (Hk & Hv & Hfit & Hred).
  cbn [fst]. destruct k as [|[|k]].
  - right. split; [|lia].
    destruct (Hand.countAces (Hand.cards h)) as [|n]; [now left|right].
    assert (11 < v) by (apply Hred; lia). lia.
  - left. assert (v <= 21) by (apply Hfit; lia). repeat split; lia.
  - assert (v <= 21) by (apply Hfit; lia). lia.
Qed.

(** X1: the value of a hand is its total with every ace counted as 1,
    plus 10 exactly when the hand holds an ace and the extra 10 does not
    take it past 21; so at most one ace is ever counted as 11. *)
Theorem getValue_best_total (h : Hand.t) :
  Hand.getValue h
  = if (0 <? Z.of_nat (Hand.countAces (Hand.cards h)))
       && (Hand.hardTotal (Hand.cards h) + 10 <=? 21)
    then Hand.hardTotal (Hand.cards h) + 10
    else Hand.hardTotal (Hand.cards h).
Proof.
  destruct (getValue_cases h) as [(Ha & Hfit & ->)|([Ha|Hfit] & ->)].
  - rewrite (proj2 (Z.ltb_lt _ _)) by lia.
    now rewrite (proj2 (Z.leb_le _ _)) by lia.
  - rewrite Ha. reflexivity.
  - rewrite (proj2 (Z.leb_gt _ _)) by lia. now rewrite andb_false_r.
Qed.

(** X2: a hand is busted exactly when its total with every ace counted as
    1 exceeds 21; aces never bust a hand that fits with them at 1. *)
Theorem isBusted_iff_hardTotal (h : Hand.t) :
  Hand.isBusted h = (21 <? Hand.hardTotal (Hand.cards h)).
Proof.
  unfold Hand.isBusted.
  destruct (getValue_cases h) as [(Ha & Hfit & ->)|([Ha|Hfit] & ->)].
  - rewrite (proj2 (Z.ltb_ge _ _)) by lia.
    now rewrite (proj2 (Z.ltb_ge _ _)) by lia.
  - reflexivity.
  - reflexivity.
Qed.

(** X3: [isBlackjack] holds exactly of the two-card hands made of an ace
    and a card worth 10 (10, J, Q or K), in either order. *)
Theorem isBlackjack_iff_ace_and_ten (h : Hand.t) :
  Hand.isBlackjack h = true <->
  exists c1 c2,
    Hand.cards h = [c1; c2]
    /\ (Card.isAce c1 = true /\ Card.getValue c2 = 10
        \/ Card.getValue c1 = 10 /\ Card.isAce c2 = true).
Proof.
  unfold Hand.isBlackjack, Hand.getValue. split.
  - intros H. apply andb_true_iff in H as [Hlen Hval].
    destruct (Hand.cards h) as [|c1 [|c2 [|c3 cs]]]; try discriminate.
    exists c1, c2. split; [reflexivity|].
    destruct c1 as [[] s1], c2 as [[] s2]; vm_compute in Hval;
      try discriminate; vm_compute; auto.
  - intros (c1 & c2 & -> & Hcase).
    destruct c1 as [[] s1], c2 as [[] s2];
      destruct Hcase as [[Ha Hv]|[Hv Ha]];
      try discriminate; reflexivity.
Qed.

(** ** The shoe and the Hi-Lo count *)

Lemma Card_eq_dec (x y : Card.t) : {x = y} + {x <> y}.
Proof. decide equality; decide equality. Defined.

Lemma built_length (n : nat) : length (Deck.built n) = (52 * n)%nat.
Proof.
  induction n as [|n IH]; [reflexivity|].
  cbn [Deck.built]. rewrite length_app, IH.
  change (length Deck.oneDeck) with 52%nat. lia.
Qed.

Lemma built_count (n : nat) (c : Card.t) :
  count_occ Card_eq_dec (Deck.built n) c = n.
Proof.
  induction n as [|n IH]; [reflexivity|].
  cbn [Deck.built]. rewrite count_occ_app, IH.
  assert (H1 : count_occ Card_eq_dec Deck.oneDeck c = 1%nat)
    by (destruct c as [[] []]; reflexivity).
  rewrite H1. reflexivity.
Qed.

Lemma tally_app (a b : list Card.t) : tally (a ++ b) = tally a + tally b.
Proof.
  unfold tally. induction a as [|c a IH]; cbn [app fold_right]; lia.
Qed.

Lemma tally_Permutation (a b : list Card.t) :
  Permutation a b -> tally a = tally b.
Proof.
  unfold tally. induction 1; cbn [fold_right]; lia.
Qed.

Lemma tally_fresh (n : nat) : tally (Deck.fresh n) = 0.
Proof.
  unfold Deck.fresh.
  rewrite <- (tally_Permutation _ _ (Permutation_rev (Deck.built n))).
  induction n as [|n IH]; [reflexivity|].
  cbn [Deck.built]. rewrite tally_app, IH. reflexivity.
Qed.

(** X4: a shoe of [n] decks holds 52 n cards, each of the 52 cards
    exactly [n] times, whatever permutation the shuffle applied; and its
    Hi-Lo tally is 0 (the count is balanced). *)
Theorem shoe_composition (shuffle : nat -> list Card.t -> list Card.t)
        (i n : nat) (c : Card.t) :
  (forall i l, Permutation (shuffle i l) l) ->
  length (BlackjackGame.shoe shuffle i n) = (52 * n)%nat
  /\ count_occ Card_eq_dec (BlackjackGame.shoe shuffle i n) c = n
  /\ tally (BlackjackGame.shoe shuffle i n) = 0.
Proof.
  intros Hperm. unfold BlackjackGame.shoe.
  pose proof (Hperm i (Deck.fresh n)) as Hp. repeat split.
  - rewrite (Permutation_length Hp). unfold Deck.fresh.
    rewrite length_rev. apply built_length.
  - rewrite (proj1 (Permutation_count_occ Card_eq_dec _ _) Hp).
    unfold Deck.fresh. rewrite count_occ_rev. apply built_count.
  - rewrite (tally_Permutation _ _ Hp). apply tally_fresh.
Qed.

Lemma shoe_composition_witness :
  length (BlackjackGame.shoe (cutAt 8) 0 6) = 312%nat
  /\ count_occ Card_eq_dec (BlackjackGame.shoe (cutAt 8) 0 6)
                           (card Card.RA Card.Spades) = 6%nat.
Proof.
  destruct (shoe_composition (cutAt 8) 0 6 (card Card.RA Card.Spades)
              (cutAt_Permutation 8)) as (Hlen & Hcount & _).
  split; [exact Hlen | exact Hcount].
Defined.

(** X5: in every state a session reaches, the running count is minus the
    Hi-Lo tally of the cards still in the shoe, and cards seen plus cards
    remaining make the 312 cards of the shoe. *)
Theorem runningCount_mirrors_shoe
        (shuffle : nat -> list Card.t -> list Card.t)
        (c : BlackjackGame.Config) (n : nat) (g : BlackjackGame.t) :
  (forall i l, Permutation (shuffle i l) l) ->
  BlackjackGame.playHands shuffle n (BlackjackGame.init shuffle c) = Ok g ->
  CardCounter.runningCount (BlackjackGame.counter g)
  + tally (Deck.cards (BlackjackGame.deck g)) = 0
  /\ CardCounter.cardsSeen (BlackjackGame.counter g)
     + Deck.cardsRemaining (BlackjackGame.deck g) = 312.
Proof.
  intros Hperm Hrun.
  destruct (playHands_Counted shuffle n _ _ Hrun (init_Counted shuffle c))
    as (dealt & Hshoe & Hcount).
  assert (Htable : TableOf (BlackjackGame.reshufflePoint
                              (BlackjackGame.init shuffle c)) 6 g).
  { refine (playHands_preserves shuffle (TableOf _ 6) (TableOf_ext _)
              (TableOf_drew _) (TableOf_reshuffle shuffle _) n _ g Hrun _).
    split; reflexivity. }
  destruct Htable as [_ Hdecks]. rewrite Hdecks in Hshoe.
  destruct (countAll_fields dealt) as [Hseen Hrc].
  rewrite Hcount, Hseen, Hrc. unfold Deck.cardsRemaining.
  pose proof (Hperm (BlackjackGame.shuffleIndex g) (Deck.fresh 6)) as Hp.
  fold (BlackjackGame.shoe shuffle (BlackjackGame.shuffleIndex g) 6) in Hp.
  rewrite <- Hshoe in Hp. split.
  - rewrite <- tally_app, (tally_Permutation _ _ Hp). apply tally_fresh.
  - apply Permutation_length in Hp. rewrite length_app, fresh_length in Hp.
    lia.
Qed.

Lemma runningCount_mirrors_shoe_witness :
  exists g,
    BlackjackGame.playHands noShuffle 3
      (BlackjackGame.init noShuffle BlackjackGame.defaultConfig) = Ok g
    /\ CardCounter.runningCount (BlackjackGame.counter g)
       + tally (Deck.cards (BlackjackGame.deck g)) = 0.
Proof.
  destruct (BlackjackGame.playHands noShuffle 3
              (BlackjackGame.init noShuffle BlackjackGame.defaultConfig))
    as [g|e] eqn:Hrun; [|vm_compute in Hrun; discriminate].
  exists g. split; [reflexivity|].
  exact (proj1 (runningCount_mirrors_shoe noShuffle
                  BlackjackGame.defaultConfig 3 g noShuffle_Permutation
                  Hrun)).
Defined.

(** ** The decision tables *)

Ltac zcases :=
  repeat (match goal with
          | |- context [?a <=? ?b] =>
              let E := fresh "E" in destruct (a <=? b) eqn:E
          | |- context [?a =? ?b] =>
              let E := fresh "E" in destruct (a =? b) eqn:E
          | |- context [?a <? ?b] =>
              let E := fresh "E" in destruct (a <? b) eqn:E
          end; cbn [andb orb negb]).

Ltac zprops :=
  repeat match goal with
         | H : (_ <=? _) = true |- _ => apply Z.leb_le in H
         | H : (_ <=? _) = false |- _ => apply Z.leb_gt in H
         | H : (_ =? _) = true |- _ => apply Z.eqb_eq in H
         | H : (_ =? _) = false |- _ => apply Z.eqb_neq in H
         | H : (_ <? _) = true |- _ => apply Z.ltb_lt in H
         | H : (_ <? _) = false |- _ => apply Z.ltb_ge in H
         end.

Lemma canSplit_pair (h : Hand.t) :
  Hand.canSplit h = true ->
  exists c0 c1,
    Hand.cards h = [c0; c1] /\ Card.getValue c0 = Card.getValue c1.
Proof.
  unfold Hand.canSplit.
  destruct (Hand.cards h) as [|c0 [|c1 [|c2 cs]]]; try discriminate.
  intros H. apply Z.eqb_eq in H. now exists c0, c1.
Qed.

Lemma pairSplittingStrategy_cases (h : Hand.t) (c0 : Card.t)
      (cs : list Card.t) (dv : Z) :
  Hand.cards h = c0 :: cs ->
  BasicStrategy.pairSplittingStrategy h dv = Ok SPLIT
  /\ Card.getValue c0 <> 5 /\ Card.getValue c0 <> 10
  \/ BasicStrategy.pairSplittingStrategy h dv
     = Ok (BasicStrategy.hardHandStrategy (Hand.getValue h) dv true)
     /\ Card.getValue c0 <> 11 /\ Card.getValue c0 <> 8.
Proof.
  intros Hcards. unfold BasicStrategy.pairSplittingStrategy.
  rewrite Hcards. unfold BasicStrategy.inZ. cbn [existsb].
  destruct c0 as [[] s]; cbn [Card.getValue Card.rank];
    repeat match goal with
           | |- context [Z.eqb ?a ?b] =>
               let r := eval vm_compute in (Z.eqb a b) in
               change (Z.eqb a b) with r
           end;
    cbn [andb orb];
    zcases;
    first [ left; split; [reflexivity | split; discriminate]
          | right; split; [reflexivity | split; discriminate] ].
Qed.

(** X6: [getAction] always answers: the pair table reads [cards[0]] only
    behind [canSplit()], which holds of two-card hands only. *)
Theorem getAction_never_raises (h : Hand.t) (up : Card.t)
        (canDouble canSplit : bool) :
  exists a, BasicStrategy.getAction h up canDouble canSplit = Ok a.
Proof.
  unfold BasicStrategy.getAction.
  destruct (canSplit && Hand.canSplit h) eqn:E.
  - apply andb_true_iff in E as [_ E].
    destruct (canSplit_pair h E) as (c0 & c1 & Hcards & _).
    destruct (pairSplittingStrategy_cases h c0 [c1] (Card.getValue up) Hcards)
      as [(-> & _)|(-> & _)]; eexists; reflexivity.
  - destruct (Hand.isSoft h && Nat.eqb (length (Hand.cards h)) 2);
      eexists; reflexivity.
Qed.

(** X7: [getAction] answers [SPLIT] only when the caller allows splitting
    and the hand is two cards of equal value other than 5 and 10. *)
Theorem getAction_split_only_pairs (h : Hand.t) (up : Card.t)
        (canDouble canSplit : bool) :
  BasicStrategy.getAction h up canDouble canSplit = Ok SPLIT ->
  canSplit = true
  /\ exists c0 c1,
       Hand.cards h = [c0; c1]
       /\ Card.getValue c0 = Card.getValue c1
       /\ Card.getValue c0 <> 5 /\ Card.getValue c0 <> 10.
Proof.
  unfold BasicStrategy.getAction.
  destruct (canSplit && Hand.canSplit h) eqn:E.
  - apply andb_true_iff in E as [-> E]. intros H. split; [reflexivity|].
    destruct (canSplit_pair h E) as (c0 & c1 & Hcards & Heq).
    exists c0, c1. split; [exact Hcards|]. split; [exact Heq|].
    destruct (pairSplittingStrategy_cases h c0 [c1] (Card.getValue up) Hcards)
      as [(_ & H5 & H10)|(Hhard & _)]; [now split|].
    rewrite Hhard in H. apply Ok_inj in H.
    now apply hardHandStrategy_not_split in H.
  - destruct (Hand.isSoft h && Nat.eqb (length (Hand.cards h)) 2);
      intros H; apply Ok_inj in H.
    + now apply softHandStrategy_not_split in H.
    + now apply hardHandStrategy_not_split in H.
Qed.

Lemma getAction_split_only_pairs_witness :
  exists c0 c1,
    [card Card.R8 Card.Spades; card Card.R8 Card.Hearts] = [c0; c1]
    /\ Card.getValue c0 = Card.getValue c1.
Proof.
  destruct (getAction_split_only_pairs
              (handOf [card Card.R8 Card.Spades; card Card.R8 Card.Hearts])
              (card Card.RK Card.Clubs) true true eq_refl)
    as (_ & c0 & c1 & Hcards & Heq & _).
  exists c0, c1. split; [exact Hcards | exact Heq].
Defined.

(** X8: with splitting allowed, a pair of aces or of eights is always
    split, whatever the dealer shows, and a pair of fives or of ten-valued
    cards never is. *)
Theorem getAction_pairs_always_and_never_split
        (h : Hand.t) (c0 c1 up : Card.t) (canDouble : bool) :
  Hand.cards h = [c0; c1] ->
  Card.getValue c0 = Card.getValue c1 ->
  (Card.getValue c0 = 11 \/ Card.getValue c0 = 8 ->
   BasicStrategy.getAction h up canDouble true = Ok SPLIT)
  /\ (Card.getValue c0 = 5 \/ Card.getValue c0 = 10 ->
      BasicStrategy.getAction h up canDouble true <> Ok SPLIT).
Proof.
  intros Hcards Heq.
  assert (Hpair : Hand.canSplit h = true)
    by (unfold Hand.canSplit; rewrite Hcards; now apply Z.eqb_eq).
  unfold BasicStrategy.getAction. rewrite Hpair. cbn [andb].
  destruct (pairSplittingStrategy_cases h c0 [c1] (Card.getValue up) Hcards)
    as [(-> & H5 & H10)|(-> & H11 & H8)]; split; intros Hv.
  - reflexivity.
  - lia.
  - lia.
  - intros H. apply Ok_inj in H. now apply hardHandStrategy_not_split in H.
Qed.

Lemma getAction_pairs_always_and_never_split_witness :
  BasicStrategy.getAction
    (handOf [card Card.RA Card.Spades; card Card.RA Card.Hearts])
    (card Card.RK Card.Clubs) false true = Ok SPLIT.
Proof.
  apply (getAction_pairs_always_and_never_split
           (handOf [card Card.RA Card.Spades; card Card.RA Card.Hearts])
           (card Card.RA Card.Spades) (card Card.RA Card.Hearts)
           (card Card.RK Card.Clubs) false eq_refl eq_refl).
  left. reflexivity.
Defined.

Lemma hardHandStrategy_thresholds (pv dv : Z) (cd : bool) :
  let a := BasicStrategy.hardHandStrategy pv dv cd in
  (a = DOUBLE -> cd = true /\ 9 <= pv <= 11)
  /\ (pv <= 11 -> a <> STAND)
  /\ (17 <= pv -> a = STAND)
  /\ (pv <= 8 -> a = HIT).
Proof.
  unfold BasicStrategy.hardHandStrategy.
  destruct cd; cbn [andb]; zcases; zprops;
    repeat split; intros; try reflexivity; try lia; try discriminate.
Qed.

Lemma softHandStrategy_thresholds (pv dv : Z) (cd : bool) :
  let a := BasicStrategy.softHandStrategy pv dv cd in
  (a = DOUBLE -> cd = true /\ 13 <= pv <= 18)
  /\ (pv <= 16 -> a <> STAND)
  /\ (19 <= pv -> a = STAND)
  /\ (pv <= 12 -> a = HIT).
Proof.
  unfold BasicStrategy.softHandStrategy, BasicStrategy.inZ.
  cbn [existsb].
  destruct cd; cbn [andb orb]; zcases; zprops;
    repeat split; intros; try reflexivity; try lia; try discriminate.
Qed.

(** X9: when the caller does not allow splitting, [getAction] answers
    [DOUBLE] only if the caller allows doubling, and only on a hand worth
    between 9 and 18. *)
Theorem getAction_double_needs_permission (h : Hand.t) (up : Card.t)
        (canDouble : bool) :
  BasicStrategy.getAction h up canDouble false = Ok DOUBLE ->
  canDouble = true /\ 9 <= Hand.getValue h <= 18.
Proof.
  unfold BasicStrategy.getAction. cbn [andb].
  destruct (Hand.isSoft h && Nat.eqb (length (Hand.cards h)) 2);
    intros H; apply Ok_inj in H.
  - destruct (softHandStrategy_thresholds
                (Hand.getValue h) (Card.getValue up) canDouble)
      as (Hd & _). destruct (Hd H). split; [assumption|lia].
  - destruct (hardHandStrategy_thresholds
                (Hand.getValue h) (Card.getValue up) canDouble)
      as (Hd & _). destruct (Hd H). split; [assumption|lia].
Qed.

Lemma getAction_double_needs_permission_witness :
  9 <= Hand.getValue
         (handOf [card Card.R6 Card.Spades; card Card.R5 Card.Hearts]) <= 18.
Proof.
  apply (getAction_double_needs_permission
           (handOf [card Card.R6 Card.Spades; card Card.R5 Card.Hearts])
           (card Card.R6 Card.Clubs) true).
  reflexivity.
Defined.

(** X10: when the caller does not allow splitting, the strategy never
    stands on a hand worth 11 or less (a hit cannot bust it), always
    stands on 19 or more, and always hits on 8 or less. *)
Theorem getAction_thresholds (h : Hand.t) (up : Card.t) (canDouble : bool)
        (a : Action) :
  BasicStrategy.getAction h up canDouble false = Ok a ->
  (Hand.getValue h <= 11 -> a <> STAND)
  /\ (19 <= Hand.getValue h -> a = STAND)
  /\ (Hand.getValue h <= 8 -> a = HIT).
Proof.
  unfold BasicStrategy.getAction. cbn [andb].
  destruct (Hand.isSoft h && Nat.eqb (length (Hand.cards h)) 2);
    intros H; apply Ok_inj in H; subst a.
  - destruct (softHandStrategy_thresholds
                (Hand.getValue h) (Card.getValue up) canDouble)
      as (_ & H1 & H2 & H3).
    repeat split; intros; [apply H1|apply H2|apply H3]; lia.
  - destruct (hardHandStrategy_thresholds
                (Hand.getValue h) (Card.getValue up) canDouble)
      as (_ & H1 & H2 & H3).
    repeat split; intros; [apply H1|apply H2|apply H3]; lia.
Qed.

Lemma getAction_thresholds_witness :
  HIT <> STAND.
Proof.
  apply (getAction_thresholds
           (handOf [card Card.R6 Card.Spades; card Card.R2 Card.Hearts])
           (card Card.R6 Card.Clubs) true HIT eq_refl).
  vm_compute. discriminate.
Defined.

(** ** Money and statistics through a hand *)

Lemma playPlayerLoop_ledger (shoe : list Card.t) :
  forall g ph up g' ph' r,
    BlackjackGame.playPlayerLoop shoe g ph up = Ok (g', ph', r) ->
    settings g' = settings g
    /\ (Hand.betAmount ph' = Hand.betAmount ph
        \/ Hand.betAmount ph' = (Hand.betAmount ph * 2)%Q
           /\ Hand.isDoubled ph' = true)
    /\ match r with
       | None =>
           ledger g' = ledger g
           /\ (Hand.isBusted ph = false -> Hand.isBusted ph' = false)
       | Some x =>
           x = (- Hand.betAmount ph')%Q
           /\ ledger g' = ledger (BlackjackGame.lose g ph')
           /\ Hand.isBusted ph' = true
       end.
Proof.
  induction shoe as [|c rest IH]; intros g ph up g' ph' r H;
    cbn [BlackjackGame.playPlayerLoop] in H;
    destruct (getAction_noSplit ph up (BlackjackGame.canDoubleNow g ph))
      as (a & Ha & Hns);
    rewrite Ha in H; cbn [bind] in H; destruct a;
    try discriminate; try congruence.
  - apply Ok_inj in H. injection H as <- <- <-. auto.
  - destruct (BlackjackGame.canDoubleNow g ph); discriminate.
  - destruct (Hand.isBusted (Hand.addCard ph c)) eqn:Hbust.
    + apply Ok_inj in H. injection H as <- <- <-.
      repeat split; auto.
    + destruct (IH _ _ _ _ _ _ H) as (Hset & Hbet & Hr).
      split; [exact Hset|]. split; [exact Hbet|].
      destruct r as [x|]; [exact Hr|].
      destruct Hr as [Hl Hb]. split; [exact Hl|]. intros _. now apply Hb.
  - apply Ok_inj in H. injection H as <- <- <-. auto.
  - destruct (BlackjackGame.canDoubleNow g ph).
    + match type of H with
      | (if ?b then _ else _) = _ => destruct b eqn:Hbust
      end; apply Ok_inj in H; injection H as <- <- <-;
        repeat split; auto.
    + destruct (Hand.isBusted (Hand.addCard ph c)) eqn:Hbust.
      * apply Ok_inj in H. injection H as <- <- <-.
        repeat split; auto.
      * destruct (IH _ _ _ _ _ _ H) as (Hset & Hbet & Hr).
        split; [exact Hset|]. split; [exact Hbet|].
        destruct r as [x|]; [exact Hr|].
        destruct Hr as [Hl Hb]. split; [exact Hl|]. intros _. now apply Hb.
Qed.

Lemma dealerLoop_ledger (shoe : list Card.t) :
  forall g dh g' dh',
    BlackjackGame.dealerLoop shoe g dh = Ok (g', dh') ->
    settings g' = settings g /\ ledger g' = ledger g.
Proof.
  induction shoe as [|c rest IH]; intros g dh g' dh' H;
    cbn [BlackjackGame.dealerLoop] in H;
    destruct (Hand.getValue dh <? 17); try discriminate.
  - apply Ok_inj in H. injection H as <- <-. auto.
  - exact (IH _ _ _ _ H).
  - apply Ok_inj in H. injection H as <- <-. auto.
Qed.

Lemma burn_effect (n : nat) :
  forall g,
    settings (BlackjackGame.burn n g) = settings g
    /\ ledger (BlackjackGame.burn n g) = ledger g
    /\ Deck.cards (BlackjackGame.deck (BlackjackGame.burn n g))
       = skipn n (Deck.cards (BlackjackGame.deck g))
    /\ BlackjackGame.counter (BlackjackGame.burn n g)
       = fold_left (fun k c => snd (CardCounter.countCard k c))
                   (firstn n (Deck.cards (BlackjackGame.deck g)))
                   (BlackjackGame.counter g).
Proof.
  induction n as [|n IH]; intros g; cbn [BlackjackGame.burn].
  - repeat split.
  - destruct (Deck.cards (BlackjackGame.deck g)) as [|c rest] eqn:Hcards.
    + destruct (IH g) as (H1 & H2 & H3 & H4).
      rewrite Hcards in H3, H4. rewrite H3, H4.
      rewrite skipn_nil, firstn_nil. now repeat split.
    + destruct (IH (BlackjackGame.drew g c rest)) as (H1 & H2 & H3 & H4).
      rewrite H1, H2, H3, H4. repeat split.
Qed.

Lemma initialDeal_ledger (g g' : BlackjackGame.t) (ph dh ph' dh' : Hand.t) :
  BlackjackGame.initialDeal g ph dh = Ok (g', ph', dh') ->
  settings g' = settings g /\ ledger g' = ledger g
  /\ Hand.betAmount ph' = Hand.betAmount ph
  /\ exists c1 c2 c3 c4 rest,
       Deck.cards (BlackjackGame.deck g) = c1 :: c2 :: c3 :: c4 :: rest
       /\ Deck.cards (BlackjackGame.deck g') = rest
       /\ Hand.cards ph' = Hand.cards ph ++ [c1; c3]
       /\ Hand.cards dh' = Hand.cards dh ++ [c2; c4].
Proof.
  unfold BlackjackGame.initialDeal. intros H.
  destruct (BlackjackGame.dealAndCount g) as [[c1 g1]|] eqn:E1;
    [|discriminate].
  cbn [bind] in H.
  destruct (BlackjackGame.dealAndCount g1) as [[c2 g2]|] eqn:E2;
    [|discriminate].
  cbn [bind] in H.
  destruct (BlackjackGame.dealAndCount g2) as [[c3 g3]|] eqn:E3;
    [|discriminate].
  cbn [bind] in H.
  destruct (BlackjackGame.dealAndCount g3) as [[c4 g4]|] eqn:E4;
    [|discriminate].
  cbn [bind] in H. apply Ok_inj in H. injection H as <- <- <-.
  destruct (dealAndCount_Ok _ _ _ E1) as (r1 & Hc1 & ->).
  destruct (dealAndCount_Ok _ _ _ E2) as (r2 & Hc2 & ->).
  destruct (dealAndCount_Ok _ _ _ E3) as (r3 & Hc3 & ->).
  destruct (dealAndCount_Ok _ _ _ E4) as (r4 & Hc4 & ->).
  cbn [BlackjackGame.drew BlackjackGame.set_counter BlackjackGame.set_deck
       BlackjackGame.deck Deck.cards] in Hc2, Hc3, Hc4.
  subst r1 r2 r3.
  repeat split. exists c1, c2, c3, c4, r4.
  cbn [Hand.addCard Hand.cards]. rewrite <- !app_assoc. now repeat split.
Qed.

Ltac game_fields :=
  cbn [BlackjackGame.deck BlackjackGame.bankroll BlackjackGame.baseBet
       BlackjackGame.useCardCounting BlackjackGame.useWonging
       BlackjackGame.wongingThreshold BlackjackGame.penetration
       BlackjackGame.reshufflePoint BlackjackGame.counter
       BlackjackGame.bankrollManager BlackjackGame.handsPlayed
       BlackjackGame.handsWon BlackjackGame.handsLost
       BlackjackGame.handsPushed BlackjackGame.handsSatOut
       BlackjackGame.totalWagered BlackjackGame.maxBankroll
       BlackjackGame.minBankroll BlackjackGame.shuffleIndex
       BlackjackGame.set_deck BlackjackGame.set_counter
       BlackjackGame.set_bankroll BlackjackGame.set_handsPlayed
       BlackjackGame.set_handsWon BlackjackGame.set_handsLost
       BlackjackGame.set_handsPushed BlackjackGame.set_handsSatOut
       BlackjackGame.set_totalWagered BlackjackGame.set_minmax
       BlackjackGame.set_shuffleIndex BlackjackGame.updateBankrollStats
       BlackjackGame.lose BlackjackGame.drew] in *.

Lemma determineWinner_cases (g g' : BlackjackGame.t) (ph dh : Hand.t)
      (p : Q) :
  BlackjackGame.determineWinner g ph dh = (g', p) ->
  settings g' = settings g
  /\ BlackjackGame.handsPlayed g' = BlackjackGame.handsPlayed g
  /\ BlackjackGame.handsSatOut g' = BlackjackGame.handsSatOut g
  /\ BlackjackGame.totalWagered g' = BlackjackGame.totalWagered g
  /\ BlackjackGame.maxBankroll g' = BlackjackGame.maxBankroll g
  /\ BlackjackGame.minBankroll g' = BlackjackGame.minBankroll g
  /\ (p = 0%Q
      /\ BlackjackGame.bankroll g' = BlackjackGame.bankroll g
      /\ BlackjackGame.handsWon g' = BlackjackGame.handsWon g
      /\ BlackjackGame.handsLost g' = BlackjackGame.handsLost g
      /\ BlackjackGame.handsPushed g' = BlackjackGame.handsPushed g + 1
      \/ p = Hand.betAmount ph
         /\ BlackjackGame.bankroll g'
            = (BlackjackGame.bankroll g + Hand.betAmount ph)%Q
         /\ BlackjackGame.handsWon g' = BlackjackGame.handsWon g + 1
         /\ BlackjackGame.handsLost g' = BlackjackGame.handsLost g
         /\ BlackjackGame.handsPushed g' = BlackjackGame.handsPushed g
      \/ p = (- Hand.betAmount ph)%Q
         /\ BlackjackGame.bankroll g'
            = (BlackjackGame.bankroll g - Hand.betAmount ph)%Q
         /\ BlackjackGame.handsWon g' = BlackjackGame.handsWon g
         /\ BlackjackGame.handsLost g' = BlackjackGame.handsLost g + 1
         /\ BlackjackGame.handsPushed g' = BlackjackGame.handsPushed g).
Proof.
  unfold BlackjackGame.determineWinner. intros H.
  repeat match type of H with
         | (if ?b then _ else _) = _ => destruct b
         end; injection H as <- <-; repeat split; auto 10.
Qed.

Ltac ledger_facts := unfold settings, ledger in *; game_fields.

Lemma dealAndPlay_cases (g g' : BlackjackGame.t) (bet p : Q) :
  BlackjackGame.dealAndPlay g bet = Ok (g', p) ->
  settings g' = settings g
  /\ BlackjackGame.handsPlayed g' = BlackjackGame.handsPlayed g + 1
  /\ BlackjackGame.handsSatOut g' = BlackjackGame.handsSatOut g
  /\ BlackjackGame.totalWagered g'
     = (BlackjackGame.totalWagered g + bet)%Q
  /\ marksKept g g'
  /\ exists stake,
       (stake = bet \/ stake = (bet * 2)%Q) /\ settledAs g g' p bet stake.
Proof.
  unfold BlackjackGame.dealAndPlay. intros H.
  destruct (BlackjackGame.initialDeal g _ _) as [[[g1 ph] dh]|] eqn:Edeal;
    [|discriminate].
  cbn [bind] in H.
  destruct (initialDeal_ledger _ _ _ _ _ _ Edeal) as (Hs1 & Hl1 & Hbet1 & _).
  cbn [Hand.betAmount] in Hbet1.
  destruct (Hand.isBlackjack ph).
  - destruct (Hand.isBlackjack dh); apply Ok_inj in H; injection H as <- <-.
    + ledger_facts. unfold marksKept, settledAs. game_fields.
      repeat split; try congruence.
      * right. repeat split; congruence.
      * exists bet. split; [now left|]. left. repeat split; congruence.
    + ledger_facts. unfold marksKept, settledAs. game_fields.
      repeat split; try congruence.
      * left. split; congruence.
      * exists bet. split; [now left|]. right; left.
        repeat split; congruence.
  - destruct (Hand.isBlackjack dh).
    + apply Ok_inj in H; injection H as <- <-.
      ledger_facts. unfold marksKept, settledAs. game_fields.
      repeat split; try congruence.
      * left. split; congruence.
      * exists bet. split; [now left|]. right; right; right.
        repeat split; congruence.
    + destruct (Hand.cards dh) as [|up ?]; [discriminate|].
      unfold BlackjackGame.playPlayerHand in H.
      destruct (BlackjackGame.playPlayerLoop _ _ ph up)
        as [[[g2 ph2] r]|] eqn:Eplay; [|discriminate].
      cbn [bind] in H.
      destruct (playPlayerLoop_ledger _ _ _ _ _ _ _ Eplay)
        as (Hs2 & Hbet2 & Hr).
      assert (Hstake : Hand.betAmount ph2 = bet
                       \/ Hand.betAmount ph2 = (bet * 2)%Q)
        by (destruct Hbet2 as [Hb|[Hb _]]; rewrite Hb, Hbet1; auto).
      destruct r as [x|].
      * destruct Hr as (-> & Hl2 & _).
        apply Ok_inj in H; injection H as <- <-.
        ledger_facts. unfold marksKept, settledAs. game_fields.
        repeat split; try congruence.
        -- left. split; congruence.
        -- exists (Hand.betAmount ph2). split; [exact Hstake|].
           right; right; right. repeat split; congruence.
      * destruct Hr as (Hl2 & _).
        unfold BlackjackGame.dealerTurn in H.
        destruct (BlackjackGame.dealerLoop _ g2 dh) as [[g3 dh3]|]
          eqn:Edealer; [|discriminate].
        cbn [bind] in H.
        destruct (dealerLoop_ledger _ _ _ _ _ Edealer) as (Hs3 & Hl3).
        destruct (BlackjackGame.determineWinner g3 ph2 dh3) as [g4 profit]
          eqn:Ewin.
        destruct (determineWinner_cases _ _ _ _ _ Ewin)
          as (Hs4 & Hp4 & Hso4 & Htw4 & Hmax4 & Hmin4 & Hcase).
        apply Ok_inj in H; injection H as <- <-.
        ledger_facts. unfold marksKept, settledAs. game_fields.
        repeat split; try congruence.
        -- left. split; congruence.
        -- exists (Hand.betAmount ph2). split; [exact Hstake|].
           destruct Hcase as [Hc|[Hc|Hc]];
             destruct Hc as (Hp & Hb & Hw & Hlo & Hpu);
             [left|right; right; left|right; right; right];
             repeat split; congruence.
Qed.

Lemma reshuffleCheck_ledger (shuffle : nat -> list Card.t -> list Card.t)
      (g : BlackjackGame.t) :
  settings (BlackjackGame.reshuffleCheck shuffle g) = settings g
  /\ ledger (BlackjackGame.reshuffleCheck shuffle g) = ledger g.
Proof.
  unfold BlackjackGame.reshuffleCheck.
  destruct (Deck.needsReshuffle _ _); split; reflexivity.
Qed.

(** The three ways a call of [playHand] returns: sat out, out of money,
    or played and settled. *)
Lemma playHand_cases (shuffle : nat -> list Card.t -> list Card.t)
      (g g' : BlackjackGame.t) (p : Q) :
  BlackjackGame.playHand shuffle g = Ok (g', p) ->
  let g1 := BlackjackGame.reshuffleCheck shuffle g in
  let tc := BlackjackGame.currentTrueCount g1 in
  let bet := BlackjackGame.computeBet g1 tc in
  settings g' = settings g
  /\ (BlackjackGame.useWonging g
      && Qltb tc (BlackjackGame.wongingThreshold g) = true
      /\ p = 0%Q
      /\ g' = BlackjackGame.burn 4
                (BlackjackGame.set_handsSatOut g1
                   (BlackjackGame.handsSatOut g1 + 1))
      \/ BlackjackGame.useWonging g
         && Qltb tc (BlackjackGame.wongingThreshold g) = false
         /\ Qltb (BlackjackGame.bankroll g) bet = true
         /\ p = 0%Q /\ g' = g1
      \/ BlackjackGame.useWonging g
         && Qltb tc (BlackjackGame.wongingThreshold g) = false
         /\ Qltb (BlackjackGame.bankroll g) bet = false
         /\ BlackjackGame.handsPlayed g' = BlackjackGame.handsPlayed g + 1
         /\ BlackjackGame.handsSatOut g' = BlackjackGame.handsSatOut g
         /\ BlackjackGame.totalWagered g'
            = (BlackjackGame.totalWagered g + bet)%Q
         /\ marksKept g g'
         /\ exists stake,
              (stake = bet \/ stake = (bet * 2)%Q)
              /\ settledAs g g' p bet stake).
Proof.
  intros H g1 tc bet. unfold BlackjackGame.playHand in H.
  fold g1 in H. fold tc in H. fold bet in H.
  destruct (reshuffleCheck_ledger shuffle g) as [Hs1 Hl1].
  fold g1 in Hs1, Hl1.
  assert (Hw : BlackjackGame.useWonging g1 = BlackjackGame.useWonging g)
    by (unfold settings in Hs1; congruence).
  assert (Ht : BlackjackGame.wongingThreshold g1
               = BlackjackGame.wongingThreshold g)
    by (unfold settings in Hs1; congruence).
  assert (Hb : BlackjackGame.bankroll g1 = BlackjackGame.bankroll g)
    by (unfold ledger in Hl1; congruence).
  rewrite Hw, Ht, Hb in H.
  destruct (BlackjackGame.useWonging g
            && Qltb tc (BlackjackGame.wongingThreshold g)).
  - apply Ok_inj, pair_equal_spec in H. destruct H as [<- <-].
    split; [|now left].
    destruct (burn_effect 4 (BlackjackGame.set_handsSatOut g1
                               (BlackjackGame.handsSatOut g1 + 1)))
      as (Hs & _).
    rewrite Hs. exact Hs1.
  - destruct (Qltb (BlackjackGame.bankroll g) bet).
    + apply Ok_inj, pair_equal_spec in H. destruct H as [<- <-].
      split; [exact Hs1|]. right; left. auto.
    + destruct (dealAndPlay_cases _ _ _ _ H)
        as (Hs & Hp & Hso & Htw & Hmarks & stake & Hstake & Hsettled).
      split; [congruence|]. right; right.
      unfold marksKept, settledAs, ledger in *.
      injection Hl1 as E1 E2 E3 E4 E5 E6 E7 E8 E9.
      rewrite E1, E2, E3, E4, E5, E6, E7, E8, E9 in *.
      repeat split; try assumption. exists stake. now split.
Qed.

Lemma pymax_ge_r (a b : Q) : (b <= pymax a b)%Q.
Proof. unfold pymax. qcases; lra. Qed.

(** A call either leaves money and the played-hand statistics alone (a
    sat-out round or an out-of-money return) or plays and settles a hand. *)
Lemma playHand_idle_or_played
      (shuffle : nat -> list Card.t -> list Card.t)
      (g g' : BlackjackGame.t) (p : Q) :
  BlackjackGame.playHand shuffle g = Ok (g', p) ->
  let bet :=
    BlackjackGame.computeBet
      (BlackjackGame.reshuffleCheck shuffle g)
      (BlackjackGame.currentTrueCount
         (BlackjackGame.reshuffleCheck shuffle g)) in
  p = 0%Q
  /\ BlackjackGame.bankroll g' = BlackjackGame.bankroll g
  /\ BlackjackGame.handsPlayed g' = BlackjackGame.handsPlayed g
  /\ BlackjackGame.handsWon g' = BlackjackGame.handsWon g
  /\ BlackjackGame.handsLost g' = BlackjackGame.handsLost g
  /\ BlackjackGame.handsPushed g' = BlackjackGame.handsPushed g
  /\ BlackjackGame.totalWagered g' = BlackjackGame.totalWagered g
  /\ BlackjackGame.maxBankroll g' = BlackjackGame.maxBankroll g
  /\ BlackjackGame.minBankroll g' = BlackjackGame.minBankroll g
  /\ (BlackjackGame.handsSatOut g' = BlackjackGame.handsSatOut g + 1
      \/ BlackjackGame.handsSatOut g' = BlackjackGame.handsSatOut g)
  \/ BlackjackGame.handsPlayed g' = BlackjackGame.handsPlayed g + 1
     /\ BlackjackGame.handsSatOut g' = BlackjackGame.handsSatOut g
     /\ BlackjackGame.totalWagered g'
        = (BlackjackGame.totalWagered g + bet)%Q
     /\ marksKept g g'
     /\ exists stake,
          (stake = bet \/ stake = (bet * 2)%Q)
          /\ settledAs g g' p bet stake.
Proof.
  intros H bet.
  destruct (playHand_cases shuffle g g' p H)
    as (_ & [(_ & -> & ->)|[(_ & _ & -> & ->)|(_ & _ & Hplayed)]]).
  - left.
    destruct (burn_effect 4
                (BlackjackGame.set_handsSatOut
                   (BlackjackGame.reshuffleCheck shuffle g)
                   (BlackjackGame.handsSatOut
                      (BlackjackGame.reshuffleCheck shuffle g) + 1)))
      as (_ & Hl & _).
    destruct (reshuffleCheck_ledger shuffle g) as [_ Hl1].
    unfold ledger in Hl, Hl1. game_fields.
    repeat split; try congruence. left. congruence.
  - left. destruct (reshuffleCheck_ledger shuffle g) as [_ Hl1].
    unfold ledger in Hl1.
    repeat split; try congruence. right. congruence.
  - right. exact Hplayed.
Qed.

Lemma playHands_invariant
      (shuffle : nat -> list Card.t -> list Card.t)
      (I : nat -> BlackjackGame.t -> Prop) :
  (forall k g g' p,
      I k g -> BlackjackGame.playHand shuffle g = Ok (g', p) -> I (S k) g') ->
  forall n k g g',
    I k g -> BlackjackGame.playHands shuffle n g = Ok g' -> I (k + n)%nat g'.
Proof.
  intros Hstep. induction n as [|n IH]; intros k g g' Hk H;
    cbn [BlackjackGame.playHands] in H.
  - apply Ok_inj in H. subst g'. now rewrite Nat.add_0_r.
  - destruct (BlackjackGame.playHand shuffle g) as [[g1 p]|] eqn:E;
      [|discriminate].
    cbn [bind] in H. rewrite Nat.add_succ_r.
    apply (IH (S k) g1 g' (Hstep k g g1 p Hk E) H).
Qed.

(** X11: the profit a call of [playHand] returns is exactly the change of
    the bankroll over the call. *)
Theorem playHand_profit_is_bankroll_change
        (shuffle : nat -> list Card.t -> list Card.t)
        (g g' : BlackjackGame.t) (p : Q) :
  BlackjackGame.playHand shuffle g = Ok (g', p) ->
  (BlackjackGame.bankroll g' == BlackjackGame.bankroll g + p)%Q.
Proof.
  intros H.
  destruct (playHand_idle_or_played shuffle g g' p H)
    as [(-> & -> & _)|(_ & _ & _ & _ & stake & _ & Hs)]; [lra|].
  destruct Hs as [Hc|[Hc|[Hc|Hc]]]; destruct Hc as (-> & -> & _); lra.
Qed.

Lemma playHand_profit_is_bankroll_change_witness :
  exists g' p,
    BlackjackGame.playHand noShuffle
      (BlackjackGame.init noShuffle BlackjackGame.defaultConfig)
    = Ok (g', p)
    /\ (BlackjackGame.bankroll g' == 1000 + p)%Q.
Proof.
  destruct (BlackjackGame.playHand noShuffle
              (BlackjackGame.init noShuffle BlackjackGame.defaultConfig))
    as [[g' p]|e] eqn:Hrun; [|vm_compute in Hrun; discriminate].
  exists g', p. split; [reflexivity|].
  exact (playHand_profit_is_bankroll_change noShuffle _ g' p Hrun).
Defined.

(** X12: in every state a session reaches after [n] calls, hands played
    is the sum of hands won, lost and pushed, no counter is negative, and
    hands played plus hands sat out is at most [n]. *)
Theorem hands_played_is_won_lost_pushed
        (shuffle : nat -> list Card.t -> list Card.t)
        (c : BlackjackGame.Config) (n : nat) (g : BlackjackGame.t) :
  BlackjackGame.playHands shuffle n (BlackjackGame.init shuffle c) = Ok g ->
  BlackjackGame.handsPlayed g
  = BlackjackGame.handsWon g + BlackjackGame.handsLost g
    + BlackjackGame.handsPushed g
  /\ 0 <= BlackjackGame.handsWon g
  /\ 0 <= BlackjackGame.handsLost g
  /\ 0 <= BlackjackGame.handsPushed g
  /\ 0 <= BlackjackGame.handsSatOut g
  /\ BlackjackGame.handsPlayed g + BlackjackGame.handsSatOut g
     <= Z.of_nat n.
Proof.
  intros Hrun.
  refine (playHands_invariant shuffle
            (fun k g =>
               BlackjackGame.handsPlayed g
               = BlackjackGame.handsWon g + BlackjackGame.handsLost g
                 + BlackjackGame.handsPushed g
               /\ 0 <= BlackjackGame.handsWon g
               /\ 0 <= BlackjackGame.handsLost g
               /\ 0 <= BlackjackGame.handsPushed g
               /\ 0 <= BlackjackGame.handsSatOut g
               /\ BlackjackGame.handsPlayed g + BlackjackGame.handsSatOut g
                  <= Z.of_nat k)
            _ n 0%nat _ g _ Hrun).
  - clear. intros k g g' p (Hsum & Hw & Hl & Hp & Hs & Hn) H.
    destruct (playHand_idle_or_played shuffle g g' p H)
      as [(_ & _ & E1 & E2 & E3 & E4 & _ & _ & _ & E5)
         |(E1 & E2 & _ & _ & stake & _ & Hc)].
    + rewrite E1, E2, E3, E4. destruct E5 as [-> | ->]; lia.
    + rewrite E1, E2.
      destruct Hc as [Hc|[Hc|[Hc|Hc]]];
        destruct Hc as (_ & _ & -> & -> & ->); lia.
  - cbn. lia.
Qed.

Lemma hands_played_is_won_lost_pushed_witness :
  exists g,
    BlackjackGame.playHands noShuffle 3
      (BlackjackGame.init noShuffle BlackjackGame.defaultConfig) = Ok g
    /\ BlackjackGame.handsPlayed g
       = BlackjackGame.handsWon g + BlackjackGame.handsLost g
         + BlackjackGame.handsPushed g.
Proof.
  destruct (BlackjackGame.playHands noShuffle 3
              (BlackjackGame.init noShuffle BlackjackGame.defaultConfig))
    as [g|e] eqn:Hrun; [|vm_compute in Hrun; discriminate].
  exists g. split; [reflexivity|].
  exact (proj1 (hands_played_is_won_lost_pushed noShuffle
                  BlackjackGame.defaultConfig 3 g Hrun)).
Defined.

(** X13: in every state a session reaches, the bankroll lies between the
    recorded minimum and maximum, and so does the starting bankroll. *)
Theorem bankroll_between_marks
        (shuffle : nat -> list Card.t -> list Card.t)
        (c : BlackjackGame.Config) (n : nat) (g : BlackjackGame.t) :
  BlackjackGame.playHands shuffle n (BlackjackGame.init shuffle c) = Ok g ->
  (BlackjackGame.minBankroll g <= BlackjackGame.bankroll g)%Q
  /\ (BlackjackGame.bankroll g <= BlackjackGame.maxBankroll g)%Q
  /\ (BlackjackGame.minBankroll g <= BlackjackGame.cfg_startingBankroll c)%Q
  /\ (BlackjackGame.cfg_startingBankroll c <= BlackjackGame.maxBankroll g)%Q.
Proof.
  intros Hrun.
  refine (playHands_invariant shuffle
            (fun _ g =>
               (BlackjackGame.minBankroll g <= BlackjackGame.bankroll g)%Q
               /\ (BlackjackGame.bankroll g <= BlackjackGame.maxBankroll g)%Q
               /\ (BlackjackGame.minBankroll g
                   <= BlackjackGame.cfg_startingBankroll c)%Q
               /\ (BlackjackGame.cfg_startingBankroll c
                   <= BlackjackGame.maxBankroll g)%Q)
            _ n 0%nat _ g _ Hrun).
  - clear. intros _ g g' p (H1 & H2 & H3 & H4) H.
    destruct (playHand_idle_or_played shuffle g g' p H)
      as [(_ & -> & _ & _ & _ & _ & _ & -> & -> & _)
         |(_ & _ & _ & Hmarks & _)]; [auto|].
    destruct Hmarks as [(-> & ->)|(-> & -> & ->)]; [|auto].
    repeat split.
    + apply pymin_le_r.
    + apply pymax_ge_r.
    + eapply Qle_trans; [apply pymin_le_l|exact H3].
    + eapply Qle_trans; [exact H4|apply pymax_ge_l].
  - cbn. repeat split; apply Qle_refl.
Qed.

Lemma bankroll_between_marks_witness :
  exists g,
    BlackjackGame.playHands noShuffle 3
      (BlackjackGame.init noShuffle BlackjackGame.defaultConfig) = Ok g
    /\ (BlackjackGame.bankroll g <= BlackjackGame.maxBankroll g)%Q.
Proof.
  destruct (BlackjackGame.playHands noShuffle 3
              (BlackjackGame.init noShuffle BlackjackGame.defaultConfig))
    as [g|e] eqn:Hrun; [|vm_compute in Hrun; discriminate].
  exists g. split; [reflexivity|].
  exact (proj1 (proj2 (bankroll_between_marks noShuffle
                         BlackjackGame.defaultConfig 3 g Hrun))).
Defined.

(** X14: a call that plays a hand adds the bet computed before the deal
    to the total wagered, also when the hand is doubled, and its profit
    is 0, one and a half times the bet, or plus or minus once or twice the
    bet; a call that plays no hand returns 0 and leaves bankroll and total
    wagered alone. *)
Theorem playHand_wager_and_payout
        (shuffle : nat -> list Card.t -> list Card.t)
        (g g' : BlackjackGame.t) (p : Q) :
  BlackjackGame.playHand shuffle g = Ok (g', p) ->
  let bet :=
    BlackjackGame.computeBet
      (BlackjackGame.reshuffleCheck shuffle g)
      (BlackjackGame.currentTrueCount
         (BlackjackGame.reshuffleCheck shuffle g)) in
  BlackjackGame.handsPlayed g' = BlackjackGame.handsPlayed g
  /\ p = 0%Q
  /\ BlackjackGame.bankroll g' = BlackjackGame.bankroll g
  /\ BlackjackGame.totalWagered g' = BlackjackGame.totalWagered g
  \/ BlackjackGame.handsPlayed g' = BlackjackGame.handsPlayed g + 1
     /\ BlackjackGame.totalWagered g'
        = (BlackjackGame.totalWagered g + bet)%Q
     /\ (p = 0%Q \/ p = (bet * (3 # 2))%Q
         \/ p = bet \/ p = (- bet)%Q
         \/ p = (bet * 2)%Q \/ p = (- (bet * 2))%Q).
Proof.
  intros H bet.
  destruct (playHand_idle_or_played shuffle g g' p H)
    as [(-> & -> & -> & _ & _ & _ & -> & _)
       |(-> & _ & -> & _ & stake & Hstake & Hc)]; [left; auto|].
  right. split; [reflexivity|]. split; [reflexivity|].
  destruct Hc as [Hc|[Hc|[Hc|Hc]]]; destruct Hc as (-> & _);
    destruct Hstake as [-> | ->]; auto 10.
Qed.

Lemma playHand_wager_and_payout_witness :
  exists g' p,
    BlackjackGame.playHand (cutAt 8)
      (BlackjackGame.init (cutAt 8) shortBankroll) = Ok (g', p)
    /\ (BlackjackGame.handsPlayed g' = 0 \/ BlackjackGame.handsPlayed g' = 0 + 1).
Proof.
  destruct (BlackjackGame.playHand (cutAt 8)
              (BlackjackGame.init (cutAt 8) shortBankroll))
    as [[g' p]|e] eqn:Hrun; [|vm_compute in Hrun; discriminate].
  exists g', p. split; [reflexivity|].
  destruct (playHand_wager_and_payout (cutAt 8) _ g' p Hrun)
    as [(E & _)|(E & _)]; [now left | now right].
Defined.

(** ** Scenarios of one call *)

Lemma countCards_fields (l : list Card.t) :
  forall k,
    CardCounter.cardsSeen
      (fold_left (fun k c => snd (CardCounter.countCard k c)) l k)
    = CardCounter.cardsSeen k + Z.of_nat (length l)
    /\ CardCounter.runningCount
         (fold_left (fun k c => snd (CardCounter.countCard k c)) l k)
       = CardCounter.runningCount k + tally l.
Proof.
  induction l as [|c l IH]; intros k; cbn [fold_left length].
  - unfold tally. cbn [fold_right]. split; lia.
  - destruct (IH (snd (CardCounter.countCard k c))) as [H1 H2].
    rewrite H1, H2. unfold tally. cbn [fold_right snd CardCounter.countCard
      CardCounter.cardsSeen CardCounter.runningCount]. split; lia.
Qed.

(** X15: a sat-out round (Wonging on, true count below the threshold
    after the reshuffle check) returns 0, adds one to hands sat out,
    leaves bankroll, hands played and total wagered alone, and draws and
    counts the top four cards of the shoe, or all of them if fewer are
    left; it never raises. *)
Theorem playHand_sat_out_round
        (shuffle : nat -> list Card.t -> list Card.t) (g : BlackjackGame.t) :
  let g1 := BlackjackGame.reshuffleCheck shuffle g in
  BlackjackGame.useWonging g = true ->
  Qltb (BlackjackGame.currentTrueCount g1)
       (BlackjackGame.wongingThreshold g) = true ->
  exists g',
    BlackjackGame.playHand shuffle g = Ok (g', 0%Q)
    /\ BlackjackGame.handsSatOut g' = BlackjackGame.handsSatOut g + 1
    /\ BlackjackGame.bankroll g' = BlackjackGame.bankroll g
    /\ BlackjackGame.handsPlayed g' = BlackjackGame.handsPlayed g
    /\ BlackjackGame.totalWagered g' = BlackjackGame.totalWagered g
    /\ Deck.cards (BlackjackGame.deck g')
       = skipn 4 (Deck.cards (BlackjackGame.deck g1))
    /\ CardCounter.cardsSeen (BlackjackGame.counter g')
       = CardCounter.cardsSeen (BlackjackGame.counter g1)
         + Z.of_nat (Nat.min 4 (length (Deck.cards (BlackjackGame.deck g1))))
    /\ CardCounter.runningCount (BlackjackGame.counter g')
       = CardCounter.runningCount (BlackjackGame.counter g1)
         + tally (firstn 4 (Deck.cards (BlackjackGame.deck g1))).
Proof.
  intros g1 Hw Htc.
  destruct (reshuffleCheck_ledger shuffle g) as [Hs1 Hl1]. fold g1 in Hs1, Hl1.
  assert (Hcond : BlackjackGame.useWonging g1
                  && Qltb (BlackjackGame.currentTrueCount g1)
                          (BlackjackGame.wongingThreshold g1) = true).
  { unfold settings in Hs1.
    replace (BlackjackGame.useWonging g1) with true by congruence.
    replace (BlackjackGame.wongingThreshold g1)
      with (BlackjackGame.wongingThreshold g) by congruence.
    now rewrite Htc. }
  eexists. split.
  - unfold BlackjackGame.playHand. fold g1. rewrite Hcond. reflexivity.
  - destruct (burn_effect 4 (BlackjackGame.set_handsSatOut g1
                               (BlackjackGame.handsSatOut g1 + 1)))
      as (_ & Hl & Hcards & Hcount).
    destruct (countCards_fields
                (firstn 4 (Deck.cards (BlackjackGame.deck g1)))
                (BlackjackGame.counter g1)) as [Hseen Hrc].
    rewrite length_firstn in Hseen.
    unfold ledger in Hl, Hl1. game_fields.
    rewrite Hcards, Hcount, Hseen, Hrc.
    repeat split; congruence.
Qed.

Lemma playHand_sat_out_round_witness :
  exists g',
    BlackjackGame.playHand noShuffle
      (BlackjackGame.init noShuffle brokeAndSittingOut) = Ok (g', 0%Q)
    /\ BlackjackGame.handsSatOut g' = 0 + 1.
Proof.
  assert (Hw : BlackjackGame.useWonging
                 (BlackjackGame.init noShuffle brokeAndSittingOut) = true)
    by reflexivity.
  assert (Htc : Qltb (BlackjackGame.currentTrueCount
                        (BlackjackGame.reshuffleCheck noShuffle
                           (BlackjackGame.init noShuffle brokeAndSittingOut)))
                     (BlackjackGame.wongingThreshold
                        (BlackjackGame.init noShuffle brokeAndSittingOut))
                = true)
    by (vm_compute; reflexivity).
  destruct (playHand_sat_out_round noShuffle
              (BlackjackGame.init noShuffle brokeAndSittingOut) Hw Htc)
    as (g' & Hrun & Hsat & _).
  exists g'. split; [exact Hrun | exact Hsat].
Defined.

(** X16: when the hand is played (not sat out, bankroll enough for the
    bet) and the player's two cards make a blackjack while the dealer's do
    not, the call takes exactly four cards, returns one and a half times
    the bet, credits it to the bankroll and counts one hand won. *)
Theorem playHand_player_blackjack
        (shuffle : nat -> list Card.t -> list Card.t) (g : BlackjackGame.t)
        (c1 c2 c3 c4 : Card.t) (rest : list Card.t) :
  let g1 := BlackjackGame.reshuffleCheck shuffle g in
  let bet := BlackjackGame.computeBet g1 (BlackjackGame.currentTrueCount g1) in
  BlackjackGame.useWonging g
  && Qltb (BlackjackGame.currentTrueCount g1)
          (BlackjackGame.wongingThreshold g) = false ->
  Qltb (BlackjackGame.bankroll g) bet = false ->
  Deck.cards (BlackjackGame.deck g1) = c1 :: c2 :: c3 :: c4 :: rest ->
  Hand.isBlackjack (handOf [c1; c3]) = true ->
  Hand.isBlackjack (handOf [c2; c4]) = false ->
  exists g',
    BlackjackGame.playHand shuffle g = Ok (g', (bet * (3 # 2))%Q)
    /\ BlackjackGame.bankroll g'
       = (BlackjackGame.bankroll g + bet * (3 # 2))%Q
    /\ BlackjackGame.handsWon g' = BlackjackGame.handsWon g + 1
    /\ BlackjackGame.handsPlayed g' = BlackjackGame.handsPlayed g + 1
    /\ BlackjackGame.totalWagered g'
       = (BlackjackGame.totalWagered g + bet)%Q
    /\ Deck.cards (BlackjackGame.deck g') = rest.
Proof.
  intros g1 bet Hplay Hfunds Hcards Hbj Hnobj.
  destruct (reshuffleCheck_ledger shuffle g) as [Hs1 Hl1]. fold g1 in Hs1, Hl1.
  unfold settings in Hs1. unfold ledger in Hl1.
  destruct (initialDeal_total g1 (Hand.mk [] bet false false) Hand.new
              c1 c2 c3 c4 rest Hcards) as (g2 & Hdeal & Hrest).
  destruct (initialDeal_ledger _ _ _ _ _ _ Hdeal) as (_ & Hl2 & _).
  unfold ledger in Hl2.
  eexists. split.
  - unfold BlackjackGame.playHand. fold g1. fold bet.
    replace (BlackjackGame.useWonging g1)
      with (BlackjackGame.useWonging g) by congruence.
    replace (BlackjackGame.wongingThreshold g1)
      with (BlackjackGame.wongingThreshold g) by congruence.
    replace (BlackjackGame.bankroll g1)
      with (BlackjackGame.bankroll g) by congruence.
    rewrite Hplay, Hfunds.
    unfold BlackjackGame.dealAndPlay. rewrite Hdeal. cbn [bind].
    change (Hand.isBlackjack
              (Hand.addCard (Hand.addCard (Hand.mk [] bet false false) c1) c3))
      with (Hand.isBlackjack (handOf [c1; c3])).
    change (Hand.isBlackjack (Hand.addCard (Hand.addCard Hand.new c2) c4))
      with (Hand.isBlackjack (handOf [c2; c4])).
    rewrite Hbj, Hnobj. reflexivity.
  - game_fields. repeat split; congruence.
Qed.

Lemma playHand_player_blackjack_witness :
  exists g',
    BlackjackGame.playHand noShuffle
      (BlackjackGame.init noShuffle BlackjackGame.defaultConfig)
    = Ok (g', (10 * (3 # 2))%Q)
    /\ BlackjackGame.handsWon g' = 0 + 1
    /\ length (Deck.cards (BlackjackGame.deck g')) = 308%nat.
Proof.
  pose (g := BlackjackGame.init noShuffle BlackjackGame.defaultConfig).
  pose (rest := skipn 4 (Deck.cards (BlackjackGame.deck g))).
  destruct (playHand_player_blackjack noShuffle g
              (card Card.RA Card.Clubs) (card Card.RK Card.Clubs)
              (card Card.RQ Card.Clubs) (card Card.RJ Card.Clubs) rest)
    as (g' & Hrun & _ & Hwon & _ & _ & Hrest);
    try (vm_compute; reflexivity).
  exists g'. split; [exact Hrun|]. split; [exact Hwon|].
  rewrite Hrest. vm_compute. reflexivity.
Defined.

(** ** What a call can raise *)

Lemma playPlayerLoop_raises (shoe : list Card.t) :
  forall g ph up e,
    BlackjackGame.playPlayerLoop shoe g ph up = Raise e -> e = IndexError.
Proof.
  induction shoe as [|c rest IH]; intros g ph up e H;
    cbn [BlackjackGame.playPlayerLoop] in H;
    destruct (getAction_noSplit ph up (BlackjackGame.canDoubleNow g ph))
      as (a & Ha & Hns);
    rewrite Ha in H; cbn [bind] in H; destruct a;
    try discriminate; try congruence.
  - destruct (BlackjackGame.canDoubleNow g ph); congruence.
  - destruct (Hand.isBusted (Hand.addCard ph c)); [discriminate|].
    exact (IH _ _ _ _ H).
  - destruct (BlackjackGame.canDoubleNow g ph).
    + match type of H with
      | (if ?b then _ else _) = _ => destruct b
      end; discriminate.
    + destruct (Hand.isBusted (Hand.addCard ph c)); [discriminate|].
      exact (IH _ _ _ _ H).
Qed.

Lemma dealerLoop_raises (shoe : list Card.t) :
  forall g dh e,
    BlackjackGame.dealerLoop shoe g dh = Raise e -> e = IndexError.
Proof.
  induction shoe as [|c rest IH]; intros g dh e H;
    cbn [BlackjackGame.dealerLoop] in H;
    destruct (Hand.getValue dh <? 17); try discriminate; try congruence.
  exact (IH _ _ _ H).
Qed.

Lemma dealAndCount_raises (g : BlackjackGame.t) (e : exn) :
  BlackjackGame.dealAndCount g = Raise e -> e = IndexError.
Proof.
  unfold BlackjackGame.dealAndCount, Deck.dealCard.
  destruct (Deck.cards (BlackjackGame.deck g)); cbn [bind];
    [congruence|discriminate].
Qed.

Lemma initialDeal_raises (g : BlackjackGame.t) (ph dh : Hand.t) (e : exn) :
  BlackjackGame.initialDeal g ph dh = Raise e -> e = IndexError.
Proof.
  unfold BlackjackGame.initialDeal. intros H.
  destruct (BlackjackGame.dealAndCount g) as [[c1 g1]|e1] eqn:E1;
    cbn [bind] in H;
    [|injection H as <-; exact (dealAndCount_raises _ _ E1)].
  destruct (BlackjackGame.dealAndCount g1) as [[c2 g2]|e2] eqn:E2;
    cbn [bind] in H;
    [|injection H as <-; exact (dealAndCount_raises _ _ E2)].
  destruct (BlackjackGame.dealAndCount g2) as [[c3 g3]|e3] eqn:E3;
    cbn [bind] in H;
    [|injection H as <-; exact (dealAndCount_raises _ _ E3)].
  destruct (BlackjackGame.dealAndCount g3) as [[c4 g4]|e4] eqn:E4;
    cbn [bind] in H;
    [discriminate|injection H as <-; exact (dealAndCount_raises _ _ E4)].
Qed.

Lemma dealAndPlay_raises (g : BlackjackGame.t) (bet : Q) (e : exn) :
  BlackjackGame.dealAndPlay g bet = Raise e -> e = IndexError.
Proof.
  unfold BlackjackGame.dealAndPlay. intros H.
  destruct (BlackjackGame.initialDeal g _ _) as [[[g1 ph] dh]|e1] eqn:Edeal;
    cbn [bind] in H;
    [|injection H as <-; exact (initialDeal_raises _ _ _ _ Edeal)].
  destruct (Hand.isBlackjack ph);
    [destruct (Hand.isBlackjack dh); discriminate|].
  destruct (Hand.isBlackjack dh); [discriminate|].
  destruct (Hand.cards dh) as [|up ?]; [congruence|].
  unfold BlackjackGame.playPlayerHand in H.
  destruct (BlackjackGame.playPlayerLoop _ _ ph up)
    as [[[g2 ph2] r]|e2] eqn:Eplay; cbn [bind] in H;
    [|injection H as <-; exact (playPlayerLoop_raises _ _ _ _ _ Eplay)].
  destruct r as [x|]; [discriminate|].
  unfold BlackjackGame.dealerTurn in H.
  destruct (BlackjackGame.dealerLoop _ g2 dh) as [[g3 dh3]|e3] eqn:Edealer;
    cbn [bind] in H;
    [|injection H as <-; exact (dealerLoop_raises _ _ _ _ Edealer)].
  destruct (BlackjackGame.determineWinner g3 ph2 dh3). discriminate.
Qed.

(** X17: the only exception [playHand] raises is the [IndexError] of a
    draw from an empty shoe, and only when fewer than 34 cards were left
    after the reshuffle check; the [while True] of the player turn never
    spins. *)
Theorem playHand_raises_only_IndexError
        (shuffle : nat -> list Card.t -> list Card.t)
        (g : BlackjackGame.t) (e : exn) :
  BlackjackGame.playHand shuffle g = Raise e ->
  e = IndexError
  /\ (length (Deck.cards (BlackjackGame.deck
                            (BlackjackGame.reshuffleCheck shuffle g)))
      < 34)%nat.
Proof.
  intros H. split.
  - unfold BlackjackGame.playHand in H.
    destruct (_ && _); [discriminate|].
    destruct (Qltb _ _); [discriminate|].
    exact (dealAndPlay_raises _ _ _ H).
  - apply Nat.nle_gt. intros Hlen.
    destruct (playHand_total shuffle g Hlen) as (g' & p & Hok).
    congruence.
Qed.

Lemma playHand_raises_only_IndexError_witness :
  exists g,
    BlackjackGame.playHands noShuffle 56
      (BlackjackGame.init noShuffle nearFullPenetration) = Ok g
    /\ (length (Deck.cards (BlackjackGame.deck
                              (BlackjackGame.reshuffleCheck noShuffle g)))
        < 34)%nat.
Proof.
  pose proof nearFullPenetration_run as H.
  destruct (BlackjackGame.playHands noShuffle 56
              (BlackjackGame.init noShuffle nearFullPenetration))
    as [g|e]; [|contradiction].
  exists g. split; [reflexivity|].
  destruct H as (_ & _ & Hraise).
  exact (proj2 (playHand_raises_only_IndexError noShuffle g IndexError
                  Hraise)).
Defined.

(** ** The reshuffle point *)

(** X18: a session whose reshuffle point is at least 34 cards never
    raises: every sequence of [playHand] calls returns, whatever the
    shuffles.  The default penetration of 0.75 gives 78. *)
Theorem session_never_raises
        (shuffle : nat -> list Card.t -> list Card.t)
        (c : BlackjackGame.Config) (n : nat) :
  (forall i l, length (shuffle i l) = length l) ->
  34 <= BlackjackGame.reshufflePoint (BlackjackGame.init shuffle c) ->
  exists g,
    BlackjackGame.playHands shuffle n (BlackjackGame.init shuffle c) = Ok g.
Proof.
  intros Hlen Hrp.
  apply (playHands_total shuffle Hlen _ Hrp). split; reflexivity.
Qed.

Lemma session_never_raises_witness :
  BlackjackGame.reshufflePoint
    (BlackjackGame.init noShuffle BlackjackGame.defaultConfig) = 78
  /\ exists g,
       BlackjackGame.playHands noShuffle 40
         (BlackjackGame.init noShuffle BlackjackGame.defaultConfig) = Ok g.
Proof.
  split; [reflexivity|].
  apply (session_never_raises noShuffle BlackjackGame.defaultConfig 40).
  - reflexivity.
  - vm_compute. discriminate.
Defined.

(** X19: in a session whose reshuffle point is at most 312, every hand
    starts, after the reshuffle check, with at least the reshuffle
    point's number of cards in the shoe, and never more than 312. *)
Theorem hand_starts_above_reshuffle_point
        (shuffle : nat -> list Card.t -> list Card.t)
        (c : BlackjackGame.Config) (n : nat) (g : BlackjackGame.t) :
  (forall i l, length (shuffle i l) = length l) ->
  BlackjackGame.reshufflePoint (BlackjackGame.init shuffle c) <= 312 ->
  BlackjackGame.playHands shuffle n (BlackjackGame.init shuffle c) = Ok g ->
  BlackjackGame.reshufflePoint g
  <= Z.of_nat (length (Deck.cards
                         (BlackjackGame.deck
                            (BlackjackGame.reshuffleCheck shuffle g))))
  <= 312.
Proof.
  intros Hlen Hrp Hrun.
  assert (Htable : TableOf (BlackjackGame.reshufflePoint
                              (BlackjackGame.init shuffle c)) 6 g).
  { refine (playHands_preserves shuffle (TableOf _ 6) (TableOf_ext _)
              (TableOf_drew _) (TableOf_reshuffle shuffle _) n _ g Hrun _).
    split; reflexivity. }
  destruct Htable as [Hpoint Hdecks].
  destruct (playHands_Counted shuffle n _ _ Hrun (init_Counted shuffle c))
    as (dealt & Hshoe & _).
  apply (f_equal (@length _)) in Hshoe.
  unfold BlackjackGame.shoe in Hshoe.
  rewrite length_app, Hlen, Hdecks, fresh_length in Hshoe.
  unfold BlackjackGame.reshuffleCheck, Deck.needsReshuffle.
  destruct (Z.of_nat (length (Deck.cards (BlackjackGame.deck g)))
            <? BlackjackGame.reshufflePoint g) eqn:E.
  - cbn [BlackjackGame.set_counter BlackjackGame.set_shuffleIndex
         BlackjackGame.set_deck BlackjackGame.deck
         BlackjackGame.Deck_reset Deck.cards].
    unfold BlackjackGame.shoe. rewrite Hlen, Hdecks, fresh_length. lia.
  - apply Z.ltb_ge in E. lia.
Qed.

Lemma hand_starts_above_reshuffle_point_witness :
  exists g,
    BlackjackGame.playHands noShuffle 3
      (BlackjackGame.init noShuffle BlackjackGame.defaultConfig) = Ok g
    /\ BlackjackGame.reshufflePoint g
       <= Z.of_nat (length (Deck.cards
                              (BlackjackGame.deck
                                 (BlackjackGame.reshuffleCheck noShuffle g)))).
Proof.
  destruct (BlackjackGame.playHands noShuffle 3
              (BlackjackGame.init noShuffle BlackjackGame.defaultConfig))
    as [g|e] eqn:Hrun; [|vm_compute in Hrun; discriminate].
  exists g. split; [reflexivity|].
  refine (proj1 (hand_starts_above_reshuffle_point noShuffle
                   BlackjackGame.defaultConfig 3 g _ _ Hrun)).
  - reflexivity.
  - vm_compute. discriminate.
Defined.

(** ** The true count *)




(** * Properties of the web layer *)

Lemma calculateHandValue_fold (hand : list Card.t) :
  forall total aces,
    fold_left
      (fun (acc : Z * nat) (card : Card.t) =>
         let '(total, aces) := acc in
         match Card.rank card with
         | Card.RJ | Card.RQ | Card.RK => (total + 10, aces)
         | Card.RA => (total + 11, S aces)
         | Card.R2 => (total + 2, aces)
         | Card.R3 => (total + 3, aces)
         | Card.R4 => (total + 4, aces)
         | Card.R5 => (total + 5, aces)
         | Card.R6 => (total + 6, aces)
         | Card.R7 => (total + 7, aces)
         | Card.R8 => (total + 8, aces)
         | Card.R9 => (total + 9, aces)
         | Card.R10 => (total + 10, aces)
         end)
      hand (total, aces)
    = (total + Hand.rawTotal hand, (aces + Hand.countAces hand)%nat).
Proof.
  induction hand as [|c hand IH]; intros total aces; cbn [fold_left].
  - cbn. f_equal; lia.
  - change (c :: hand) with ([c] ++ hand).
    rewrite rawTotal_app, countAces_app.
    assert (H1 : Hand.rawTotal [c] = Card.getValue c)
      by (unfold Hand.rawTotal; cbn [fold_right]; lia).
    assert (H2 : Hand.countAces [c] = if Card.isAce c then 1%nat else 0%nat)
      by (unfold Hand.countAces; cbn [filter];
          destruct (Card.isAce c); reflexivity).
    rewrite H1, H2.
    destruct c as [[] s]; cbn [Card.rank Card.getValue Card.isAce];
      rewrite IH; f_equal; lia.
Qed.

Lemma calculateHandValue_getValue (hand : list Card.t) :
  Route.calculateHandValue hand = valueOf hand.
Proof.
  unfold Route.calculateHandValue. rewrite calculateHandValue_fold.
  reflexivity.
Qed.

(** X21: the web layer's own [calculateHandValue] gives every list of
    cards the value [Hand.getValue] gives the hand made of them. *)
Theorem calculateHandValue_agrees_with_getValue (h : Hand.t) :
  Route.calculateHandValue (Hand.cards h) = Hand.getValue h.
Proof. apply calculateHandValue_getValue. Qed.

Lemma Done_inj {A : Type} (a b : A) : Route.Done a = Route.Done b -> a = b.
Proof. congruence. Qed.

Lemma route_burn_is_burn (n : nat) :
  forall g burned,
    Route.burn n g burned
    = (BlackjackGame.burn n g,
       burned ++ firstn n (Deck.cards (BlackjackGame.deck g))).
Proof.
  induction n as [|n IH]; intros g burned;
    cbn [Route.burn BlackjackGame.burn firstn].
  - now rewrite app_nil_r.
  - destruct (Deck.cards (BlackjackGame.deck g)) as [|c rest] eqn:Hcards.
    + rewrite IH, Hcards, firstn_nil. reflexivity.
    + rewrite IH. cbn [BlackjackGame.drew BlackjackGame.set_counter
                       BlackjackGame.set_deck BlackjackGame.deck Deck.cards].
      now rewrite <- app_assoc.
Qed.

Lemma route_playerLoop_effect (shoe : list Card.t) :
  forall g th bet ph acts up turn,
    Route.playerLoop shoe g th bet ph acts up = Route.Done turn ->
    match turn with
    | Route.Stood g' th' bet' ph' acts' =>
        settings g' = settings g /\ ledger g' = ledger g
        /\ (bet' = bet \/ bet' = (bet * 2)%Q)
    | Route.Busted g' th' bet' ph' acts' =>
        exists gd,
          settings gd = settings g /\ ledger gd = ledger g
          /\ g' = Route.bust gd bet'
          /\ (bet' = bet \/ bet' = (bet * 2)%Q)
    end.
Proof.
  induction shoe as [|c rest IH]; intros g th bet ph acts up turn H;
    cbn [Route.playerLoop] in H;
    destruct (getAction_noSplit th up (BlackjackGame.canDoubleNow g th))
      as (a & Ha & Hns);
    rewrite Ha in H; cbn [Route.lift Route.rbind] in H; destruct a;
    try discriminate; try congruence.
  - apply Done_inj in H. subst turn. auto.
  - destruct (BlackjackGame.canDoubleNow g th); discriminate.
  - destruct (Hand.isBusted (Hand.addCard th c)).
    + apply Done_inj in H. subst turn.
      exists (BlackjackGame.drew g c rest). auto.
    + exact (IH _ _ _ _ _ _ _ H).
  - apply Done_inj in H. subst turn. auto.
  - destruct (BlackjackGame.canDoubleNow g th).
    + match type of H with
      | (if ?b then _ else _) = _ => destruct b
      end; apply Done_inj in H; subst turn;
        [exists (BlackjackGame.drew g c rest)|]; auto 6.
    + destruct (Hand.isBusted (Hand.addCard th c)).
      * apply Done_inj in H. subst turn.
        exists (BlackjackGame.drew g c rest). auto.
      * exact (IH _ _ _ _ _ _ _ H).
Qed.

Lemma respond_Done (g : BlackjackGame.t) (hist hist' : list Route.HandData)
      (sat : bool) (hd : Route.HandData) (og : option BlackjackGame.t)
      (resp : Route.Response) :
  Route.respond g hist sat hd = Route.Done (og, hist', resp) ->
  og = Some g /\ hist' = hist ++ [hd]
  /\ resp = Route.Success (Route.mkReply sat hd (App.getStats (Some g))).
Proof.
  unfold Route.respond. intros H. apply Done_inj in H.
  apply pair_equal_spec in H. destruct H as [H Hresp].
  apply pair_equal_spec in H. destruct H as [Hog Hhist]. auto.
Qed.

Lemma naturals_cases (g g' : BlackjackGame.t) (bet p : Q) (pbj dbj : bool)
      (res : Route.Result) :
  Route.naturals g bet pbj dbj = (res, p, g') ->
  settings g' = settings g
  /\ BlackjackGame.handsPlayed g' = BlackjackGame.handsPlayed g
  /\ BlackjackGame.handsSatOut g' = BlackjackGame.handsSatOut g
  /\ BlackjackGame.totalWagered g' = BlackjackGame.totalWagered g
  /\ BlackjackGame.maxBankroll g' = BlackjackGame.maxBankroll g
  /\ BlackjackGame.minBankroll g' = BlackjackGame.minBankroll g
  /\ settledAs g g' p bet bet.
Proof.
  unfold Route.naturals, settledAs. intros H.
  destruct (pbj && dbj); [|destruct pbj];
    apply pair_equal_spec in H; destruct H as [H <-];
    apply pair_equal_spec in H; destruct H as [_ <-];
    game_fields; repeat split; auto 10.
Qed.

Lemma compare_cases (g g' : BlackjackGame.t) (th dh : Hand.t) (bet p : Q)
      (res : Route.Result) (bet0 : Q) :
  Route.compare g th dh bet = (res, p, g') ->
  settings g' = settings g
  /\ BlackjackGame.handsPlayed g' = BlackjackGame.handsPlayed g
  /\ BlackjackGame.handsSatOut g' = BlackjackGame.handsSatOut g
  /\ BlackjackGame.totalWagered g' = BlackjackGame.totalWagered g
  /\ BlackjackGame.maxBankroll g' = BlackjackGame.maxBankroll g
  /\ BlackjackGame.minBankroll g' = BlackjackGame.minBankroll g
  /\ settledAs g g' p bet0 bet.
Proof.
  unfold Route.compare, settledAs. intros H.
  destruct (Hand.isBusted dh || _); [|destruct (_ <? _)];
    apply pair_equal_spec in H; destruct H as [H <-];
    apply pair_equal_spec in H; destruct H as [_ <-];
    game_fields; repeat split; auto 10.
Qed.

(** Closing a hand after it was settled from [g0] to [g1]. *)
Lemma closeHand_settled (g0 g1 : BlackjackGame.t) (p bet stake : Q) :
  settings g1 = settings g0 ->
  BlackjackGame.handsPlayed g1 = BlackjackGame.handsPlayed g0 ->
  BlackjackGame.handsSatOut g1 = BlackjackGame.handsSatOut g0 ->
  BlackjackGame.totalWagered g1 = BlackjackGame.totalWagered g0 ->
  BlackjackGame.maxBankroll g1 = BlackjackGame.maxBankroll g0 ->
  BlackjackGame.minBankroll g1 = BlackjackGame.minBankroll g0 ->
  settledAs g0 g1 p bet stake ->
  let g' := Route.closeHand g1 stake in
  settings g' = settings g0
  /\ BlackjackGame.handsPlayed g' = BlackjackGame.handsPlayed g0 + 1
  /\ BlackjackGame.handsSatOut g' = BlackjackGame.handsSatOut g0
  /\ BlackjackGame.totalWagered g'
     = (BlackjackGame.totalWagered g0 + stake)%Q
  /\ marksKept g0 g'
  /\ settledAs g0 g' p bet stake.
Proof.
  intros Hs Hp Hso Htw Hmax Hmin Hset g'. subst g'.
  unfold Route.closeHand, marksKept, settledAs in *.
  unfold settings in *. game_fields.
  repeat split; try congruence.
  left. split; congruence.
Qed.

Lemma dealAndCount_ledger (g g' : BlackjackGame.t) (c : Card.t) :
  BlackjackGame.dealAndCount g = Ok (c, g') ->
  settings g' = settings g /\ ledger g' = ledger g.
Proof.
  intros H. destruct (dealAndCount_Ok _ _ _ H) as (rest & _ & ->).
  split; reflexivity.
Qed.

(** The round from the dealt cards on, seen from the state [g] the cards
    were dealt in. *)
Lemma afterDeal_cases (g : BlackjackGame.t) (hist hist' : list Route.HandData)
      (cap : Route.Captured) (bet m : Q) (c1 c2 c3 c4 : Card.t)
      (og : option BlackjackGame.t) (resp : Route.Response) :
  Route.afterDeal g hist cap bet m c1 c2 c3 c4
  = Route.Done (og, hist', resp) ->
  exists g' hd stake p,
    og = Some g' /\ hist' = hist ++ [hd]
    /\ resp = Route.Success
                (Route.mkReply false hd (App.getStats (Some g')))
    /\ (exists ph dh up pv dv acts res,
           hd = cap false None (Some (BlackjackGame.bankroll g')) (Some p)
                    (Some stake) (Some m) ph dh up pv dv acts res)
    /\ (stake = bet \/ stake = (bet * 2)%Q)
    /\ settings g' = settings g
    /\ BlackjackGame.handsPlayed g' = BlackjackGame.handsPlayed g + 1
    /\ BlackjackGame.handsSatOut g' = BlackjackGame.handsSatOut g
    /\ BlackjackGame.totalWagered g'
       = (BlackjackGame.totalWagered g + stake)%Q
    /\ marksKept g g'
    /\ settledAs g g' p bet stake.
Proof.
  unfold Route.afterDeal. intros H.
  destruct (_ || _).
  - destruct (Route.naturals g bet _ _) as [[res p] g1] eqn:Enat.
    destruct (respond_Done _ _ _ _ _ _ _ H) as (-> & -> & ->).
    destruct (naturals_cases _ _ _ _ _ _ _ Enat)
      as (Hs & Hp & Hso & Htw & Hmax & Hmin & Hset).
    destruct (closeHand_settled g g1 p bet bet Hs Hp Hso Htw Hmax Hmin Hset)
      as (Hs' & Hp' & Hso' & Htw' & Hmarks & Hset').
    exists (Route.closeHand g1 bet). eexists. exists bet, p.
    split; [reflexivity|]. split; [reflexivity|]. split; [reflexivity|].
    split; [do 7 eexists; reflexivity|]. split; [now left|]. auto 10.
  - destruct (Route.playerLoop _ g _ bet _ _ c2) as [turn|e] eqn:Eturn;
      cbn [Route.rbind] in H; [|discriminate].
    pose proof (route_playerLoop_effect _ _ _ _ _ _ _ _ Eturn) as Heff.
    destruct turn as [gb th' bet' ph' acts'|gs th' bet' ph' acts'].
    + destruct Heff as (gd & Hsd & Hld & -> & Hstake).
      destruct (respond_Done _ _ _ _ _ _ _ H) as (-> & -> & ->).
      exists (Route.bust gd bet'). eexists. exists bet', (- bet')%Q.
      split; [reflexivity|]. split; [reflexivity|]. split; [reflexivity|].
      split; [do 7 eexists; reflexivity|]. split; [exact Hstake|].
      unfold Route.bust, marksKept, settledAs, settings, ledger in *.
      game_fields. repeat split; try congruence.
      * left. split; congruence.
      * right; right; right. repeat split; congruence.
    + destruct Heff as (Hss & Hls & Hstake).
      destruct (BlackjackGame.dealerTurn gs _) as [[g3 dh3]|e] eqn:Edealer;
        cbn [Route.lift Route.rbind] in H; [|discriminate].
      unfold BlackjackGame.dealerTurn in Edealer.
      destruct (dealerLoop_ledger _ _ _ _ _ Edealer) as (Hs3 & Hl3).
      destruct (Route.compare g3 th' dh3 bet') as [[res p] g4] eqn:Ecmp.
      destruct (respond_Done _ _ _ _ _ _ _ H) as (-> & -> & ->).
      destruct (compare_cases _ _ _ _ _ _ _ bet Ecmp)
        as (Hs4 & Hp4 & Hso4 & Htw4 & Hmax4 & Hmin4 & Hset4).
      assert (Hset : settledAs g g4 p bet bet').
      { unfold settledAs, ledger in *.
        destruct Hset4 as [Hc|[Hc|[Hc|Hc]]];
          destruct Hc as (Hp0 & Hb & Hw & Hlo & Hpu);
          [left|right; left|right; right; left|right; right; right];
          repeat split; congruence. }
      assert (Hfix : settings g4 = settings g
                     /\ BlackjackGame.handsPlayed g4
                        = BlackjackGame.handsPlayed g
                     /\ BlackjackGame.handsSatOut g4
                        = BlackjackGame.handsSatOut g
                     /\ BlackjackGame.totalWagered g4
                        = BlackjackGame.totalWagered g
                     /\ BlackjackGame.maxBankroll g4
                        = BlackjackGame.maxBankroll g
                     /\ BlackjackGame.minBankroll g4
                        = BlackjackGame.minBankroll g)
        by (unfold ledger in *; repeat split; congruence).
      destruct Hfix as (Hs & Hp & Hso & Htw & Hmax & Hmin).
      destruct (closeHand_settled g g4 p bet bet' Hs Hp Hso Htw Hmax Hmin
                  Hset) as (Hs' & Hp' & Hso' & Htw' & Hmarks & Hset').
      exists (Route.closeHand g4 bet'). eexists. exists bet', p.
      split; [reflexivity|]. split; [reflexivity|]. split; [reflexivity|].
      split; [do 7 eexists; reflexivity|]. split; [exact Hstake|]. auto 10.
Qed.

Lemma ledger_eq (a b : BlackjackGame.t) :
  ledger a = ledger b ->
  BlackjackGame.bankroll a = BlackjackGame.bankroll b
  /\ BlackjackGame.handsPlayed a = BlackjackGame.handsPlayed b
  /\ BlackjackGame.handsWon a = BlackjackGame.handsWon b
  /\ BlackjackGame.handsLost a = BlackjackGame.handsLost b
  /\ BlackjackGame.handsPushed a = BlackjackGame.handsPushed b
  /\ BlackjackGame.handsSatOut a = BlackjackGame.handsSatOut b
  /\ BlackjackGame.totalWagered a = BlackjackGame.totalWagered b
  /\ BlackjackGame.maxBankroll a = BlackjackGame.maxBankroll b
  /\ BlackjackGame.minBankroll a = BlackjackGame.minBankroll b.
Proof. unfold ledger. intros H. repeat split; congruence. Qed.

Lemma playRound_cases (g : BlackjackGame.t) (hist hist' : list Route.HandData)
      (cap : Route.Captured) (tc : Q)
      (og : option BlackjackGame.t) (resp : Route.Response) :
  Route.playRound g hist cap tc = Route.Done (og, hist', resp) ->
  let bet := BlackjackGame.computeBet g tc in
  exists g' hd stake p,
    og = Some g' /\ hist' = hist ++ [hd]
    /\ resp = Route.Success
                (Route.mkReply false hd (App.getStats (Some g')))
    /\ (exists m ph dh up pv dv acts res,
           hd = cap false None (Some (BlackjackGame.bankroll g')) (Some p)
                    (Some stake) (Some m) ph dh up pv dv acts res)
    /\ (stake = bet \/ stake = (bet * 2)%Q)
    /\ settings g' = settings g
    /\ BlackjackGame.handsPlayed g' = BlackjackGame.handsPlayed g + 1
    /\ BlackjackGame.handsSatOut g' = BlackjackGame.handsSatOut g
    /\ BlackjackGame.totalWagered g'
       = (BlackjackGame.totalWagered g + stake)%Q
    /\ marksKept g g'
    /\ settledAs g g' p bet stake.
Proof.
  intros H bet. unfold Route.playRound in H. fold bet in H.
  destruct (Route.divide bet (BlackjackGame.baseBet g)) as [m|e];
    cbn [Route.rbind] in H; [|discriminate].
  destruct (BlackjackGame.dealAndCount g) as [[c1 g1]|e] eqn:E1;
    cbn [Route.lift Route.rbind] in H; [|discriminate].
  destruct (BlackjackGame.dealAndCount g1) as [[c2 g2]|e] eqn:E2;
    cbn [Route.lift Route.rbind] in H; [|discriminate].
  destruct (BlackjackGame.dealAndCount g2) as [[c3 g3]|e] eqn:E3;
    cbn [Route.lift Route.rbind] in H; [|discriminate].
  destruct (BlackjackGame.dealAndCount g3) as [[c4 g4]|e] eqn:E4;
    cbn [Route.lift Route.rbind] in H; [|discriminate].
  destruct (dealAndCount_ledger _ _ _ E1) as [Hs1 Hl1].
  destruct (dealAndCount_ledger _ _ _ E2) as [Hs2 Hl2].
  destruct (dealAndCount_ledger _ _ _ E3) as [Hs3 Hl3].
  destruct (dealAndCount_ledger _ _ _ E4) as [Hs4 Hl4].
  destruct (afterDeal_cases _ _ _ _ _ _ _ _ _ _ _ _ H)
    as (g' & hd & stake & p & Hog & Hhist & Hresp & Hhd & Hstake & Hs & Hp
        & Hso & Htw & Hmarks & Hset).
  exists g', hd, stake, p.
  split; [exact Hog|]. split; [exact Hhist|]. split; [exact Hresp|].
  split; [destruct Hhd as (ph & Hhd); exists m, ph; exact Hhd|].
  split; [exact Hstake|].
  unfold marksKept, settledAs, settings, ledger in *.
  repeat split; congruence.
Qed.

(** What a successful call of the route did: it sat the round out, or
    it played and settled a hand; there is no third exit. *)
Lemma route_cases (shuffle : nat -> list Card.t -> list Card.t)
      (g : BlackjackGame.t) (hist hist' : list Route.HandData)
      (og : option BlackjackGame.t) (resp : Route.Response) :
  Route.playHand shuffle (Some g) hist = Route.Done (og, hist', resp) ->
  let g1 := BlackjackGame.reshuffleCheck shuffle g in
  let bet := BlackjackGame.computeBet g1 (BlackjackGame.currentTrueCount g1) in
  exists g' hd sat,
    og = Some g' /\ hist' = hist ++ [hd]
    /\ resp = Route.Success
                (Route.mkReply sat hd (App.getStats (Some g')))
    /\ settings g' = settings g
    /\ Route.handNumber hd
       = BlackjackGame.handsPlayed g + BlackjackGame.handsSatOut g + 1
    /\ Route.bankrollBefore hd = BlackjackGame.bankroll g
    /\ Route.bankrollAfter hd = Some (BlackjackGame.bankroll g')
    /\ Route.satOut hd = sat
    /\ sat = BlackjackGame.useWonging g1
             && Qltb (BlackjackGame.currentTrueCount g1)
                     (BlackjackGame.wongingThreshold g1)
    /\ (sat = true
        /\ Route.profit hd = Some 0%Q /\ Route.bet hd = None
        /\ ledger g'
           = ledger (BlackjackGame.set_handsSatOut g
                       (BlackjackGame.handsSatOut g + 1))
        \/ sat = false
           /\ exists stake p,
                Route.bet hd = Some stake /\ Route.profit hd = Some p
                /\ (stake = bet \/ stake = (bet * 2)%Q)
                /\ BlackjackGame.handsPlayed g'
                   = BlackjackGame.handsPlayed g + 1
                /\ BlackjackGame.handsSatOut g' = BlackjackGame.handsSatOut g
                /\ BlackjackGame.totalWagered g'
                   = (BlackjackGame.totalWagered g + stake)%Q
                /\ marksKept g g'
                /\ settledAs g g' p bet stake).
Proof.
  intros H g1 bet. unfold Route.playHand in H. fold g1 in H.
  destruct (reshuffleCheck_ledger shuffle g) as [Hs1 Hl1].
  fold g1 in Hs1, Hl1.
  destruct (BlackjackGame.useWonging g1 && _) eqn:Etest.
  - unfold Route.sitOut in H. rewrite route_burn_is_burn in H.
    cbn [app] in H.
    destruct (respond_Done _ _ _ _ _ _ _ H) as (-> & -> & ->).
    destruct (burn_effect 4 (BlackjackGame.set_handsSatOut g1
                               (BlackjackGame.handsSatOut g1 + 1)))
      as (Hsb & Hlb & _).
    do 3 eexists. split; [reflexivity|]. split; [reflexivity|].
    split; [reflexivity|].
    cbn [Route.handNumber Route.bankrollBefore Route.bankrollAfter
         Route.satOut Route.profit Route.bet].
    split; [rewrite Hsb; exact Hs1|].
    repeat (split; [reflexivity|]).
    left. repeat split.
    rewrite Hlb. unfold ledger in *. game_fields. congruence.
  - destruct (playRound_cases _ _ _ _ _ _ _ H)
      as (g' & hd & stake & p & -> & -> & -> & Hhd & Hstake & Hs & Hp
          & Hso & Htw & Hmarks & Hset).
    destruct Hhd as (m & ph & dh & up & pv & dv & acts & res & ->).
    do 3 eexists. split; [reflexivity|]. split; [reflexivity|].
    split; [reflexivity|].
    cbn [Route.handNumber Route.bankrollBefore Route.bankrollAfter
         Route.satOut Route.profit Route.bet].
    split; [congruence|].
    repeat (split; [reflexivity|]).
    right. split; [reflexivity|]. exists stake, p.
    split; [reflexivity|]. split; [reflexivity|]. split; [exact Hstake|].
    clear H. unfold marksKept, settledAs in *.
    destruct (ledger_eq _ _ Hl1)
      as (E1 & E2 & E3 & E4 & E5 & E6 & E7 & E8 & E9).
    rewrite E1, ?E2, ?E3, ?E4, ?E5, ?E6, ?E7, ?E8, ?E9 in *.
    auto 10.
Qed.

Lemma settings_eq (a b : BlackjackGame.t) :
  settings a = settings b ->
  BlackjackGame.baseBet a = BlackjackGame.baseBet b
  /\ BlackjackGame.useCardCounting a = BlackjackGame.useCardCounting b
  /\ BlackjackGame.useWonging a = BlackjackGame.useWonging b
  /\ BlackjackGame.wongingThreshold a = BlackjackGame.wongingThreshold b
  /\ BlackjackGame.reshufflePoint a = BlackjackGame.reshufflePoint b
  /\ BlackjackGame.bankrollManager a = BlackjackGame.bankrollManager b.
Proof. unfold settings. intros H. repeat split; congruence. Qed.

(** X22: the route divides the bet by the base bet to report the bet
    multiplier, so on a session whose base bet is 0 every call that does
    not sit the round out raises ZeroDivisionError, before a card is
    dealt. *)
Theorem route_zero_base_bet_raises
        (shuffle : nat -> list Card.t -> list Card.t)
        (g : BlackjackGame.t) (hist : list Route.HandData) :
  (BlackjackGame.baseBet g == 0)%Q ->
  BlackjackGame.useWonging g
  && Qltb (BlackjackGame.currentTrueCount
             (BlackjackGame.reshuffleCheck shuffle g))
          (BlackjackGame.wongingThreshold g) = false ->
  Route.playHand shuffle (Some g) hist = Route.Failed Route.ZeroDivisionError.
Proof.
  intros Hzero Htest. unfold Route.playHand.
  destruct (reshuffleCheck_ledger shuffle g) as [Hs _].
  destruct (settings_eq _ _ Hs) as (Eb & _ & Ew & Et & _).
  rewrite Ew, Et, Htest. unfold Route.playRound, Route.divide.
  rewrite Eb. apply Qeq_bool_iff in Hzero. rewrite Hzero. reflexivity.
Qed.

Lemma route_zero_base_bet_raises_witness :
  Route.playHand noShuffle
    (Some (BlackjackGame.init noShuffle zeroBaseBet)) []
  = Route.Failed Route.ZeroDivisionError.
Proof.
  apply route_zero_base_bet_raises; [reflexivity | vm_compute; reflexivity].
Defined.

(** The entries a call of the route makes in its response and in the
    session. *)
Lemma route_booking
      (shuffle : nat -> list Card.t -> list Card.t)
      (g : BlackjackGame.t) (hist hist' : list Route.HandData)
      (og : option BlackjackGame.t) (resp : Route.Response) :
  Route.playHand shuffle (Some g) hist = Route.Done (og, hist', resp) ->
  exists g' hd p,
    og = Some g' /\ hist' = hist ++ [hd]
    /\ resp = Route.Success
                (Route.mkReply (Route.satOut hd) hd
                               (App.getStats (Some g')))
    /\ Route.handNumber hd
       = BlackjackGame.handsPlayed g + BlackjackGame.handsSatOut g + 1
    /\ BlackjackGame.handsPlayed g' + BlackjackGame.handsSatOut g'
       = BlackjackGame.handsPlayed g + BlackjackGame.handsSatOut g + 1
    /\ Route.bankrollBefore hd = BlackjackGame.bankroll g
    /\ Route.bankrollAfter hd = Some (BlackjackGame.bankroll g')
    /\ Route.profit hd = Some p
    /\ (BlackjackGame.bankroll g' == BlackjackGame.bankroll g + p)%Q.
Proof.
  intros H.
  destruct (route_cases shuffle g hist hist' og resp H)
    as (g' & hd & sat & Hog & Hhist & Hresp & _ & Hnum & Hbefore & Hafter
        & Hsat & _ & Hcase).
  destruct Hcase as [(_ & Hp & _ & Hl)
                    |(_ & stake & p & _ & Hp & _ & Hpl & Hso & _ & _ & Hset)].
  - exists g', hd, 0%Q.
    destruct (ledger_eq _ _ Hl) as (E1 & E2 & _ & _ & _ & E6 & _).
    revert E1 E2 E6. game_fields. intros E1 E2 E6.
    rewrite Hsat, E1, E2, E6.
    repeat split; try assumption; try congruence; try lia. ring.
  - exists g', hd, p. rewrite Hsat, Hpl, Hso.
    repeat split; try assumption; try congruence; try lia.
    unfold settledAs in Hset.
    destruct Hset as [Hc|[Hc|[Hc|Hc]]]; destruct Hc as (-> & -> & _); ring.
Qed.

(** X23: every response of the play-hand route is booked consistently:
    the history grows by exactly the hand data that is returned, the
    statistics returned are those of the new state, the hand number is
    the new count of rounds played and sat out, the two bankroll keys are
    the bankroll before and after the call, and the profit key is the
    change of the bankroll. *)
Theorem route_books_the_round
        (shuffle : nat -> list Card.t -> list Card.t)
        (g : BlackjackGame.t) (hist hist' : list Route.HandData)
        (og : option BlackjackGame.t) (resp : Route.Response) :
  Route.playHand shuffle (Some g) hist = Route.Done (og, hist', resp) ->
  exists g' hd p,
    og = Some g' /\ hist' = hist ++ [hd]
    /\ resp = Route.Success
                (Route.mkReply (Route.satOut hd) hd
                               (App.getStats (Some g')))
    /\ Route.handNumber hd
       = BlackjackGame.handsPlayed g' + BlackjackGame.handsSatOut g'
    /\ Route.bankrollBefore hd = BlackjackGame.bankroll g
    /\ Route.bankrollAfter hd = Some (BlackjackGame.bankroll g')
    /\ Route.profit hd = Some p
    /\ (BlackjackGame.bankroll g' == BlackjackGame.bankroll g + p)%Q.
Proof.
  intros H.
  destruct (route_booking shuffle g hist hist' og resp H)
    as (g' & hd & p & Hog & Hhist & Hresp & Hnum & Hsum & Hrest).
  exists g', hd, p. rewrite Hsum, <- Hnum. auto.
Qed.

Lemma route_books_the_round_witness :
  exists g' hd p,
    Route.handNumber hd = BlackjackGame.handsPlayed g'
                          + BlackjackGame.handsSatOut g'
    /\ Route.profit hd = Some p
    /\ (BlackjackGame.bankroll g' == 1000 + p)%Q.
Proof.
  destruct (Route.playHand noShuffle
              (Some (BlackjackGame.init noShuffle
                       BlackjackGame.defaultConfig)) [])
    as [[[og hist'] resp]|e] eqn:Hrun; [|vm_compute in Hrun; discriminate].
  destruct (route_books_the_round noShuffle _ [] hist' og resp Hrun)
    as (g' & hd & p & _ & _ & _ & Hnum & _ & _ & Hp & Hb).
  exists g', hd, p. auto.
Defined.

(** X24: the route has no out-of-money exit.  When the bet exceeds the
    bankroll and the round is not sat out, the engine's [playHand] returns
    at once with the session as the reshuffle check left it, while a call
    of the route that answers has played and settled a hand for that bet,
    or twice that bet, and has added it to the total wagered. *)
Theorem route_plays_beyond_the_bankroll
        (shuffle : nat -> list Card.t -> list Card.t)
        (g : BlackjackGame.t) (hist hist' : list Route.HandData)
        (og : option BlackjackGame.t) (resp : Route.Response) :
  let g1 := BlackjackGame.reshuffleCheck shuffle g in
  let bet :=
    BlackjackGame.computeBet g1 (BlackjackGame.currentTrueCount g1) in
  Route.playHand shuffle (Some g) hist = Route.Done (og, hist', resp) ->
  BlackjackGame.useWonging g1
  && Qltb (BlackjackGame.currentTrueCount g1)
          (BlackjackGame.wongingThreshold g1) = false ->
  (BlackjackGame.bankroll g1 < bet)%Q ->
  BlackjackGame.playHand shuffle g = Ok (g1, 0%Q)
  /\ exists g' hd stake,
       og = Some g' /\ hist' = hist ++ [hd]
       /\ Route.satOut hd = false
       /\ Route.bet hd = Some stake
       /\ (stake = bet \/ stake = (bet * 2)%Q)
       /\ BlackjackGame.handsPlayed g' = BlackjackGame.handsPlayed g + 1
       /\ BlackjackGame.totalWagered g'
          = (BlackjackGame.totalWagered g + stake)%Q.
Proof.
  intros g1 bet H Htest Hshort. split.
  - unfold BlackjackGame.playHand. fold g1. rewrite Htest. fold bet.
    apply Qltb_lt in Hshort. now rewrite Hshort.
  - destruct (route_cases shuffle g hist hist' og resp H)
      as (g' & hd & sat & Hog & Hhist & _ & _ & _ & _ & _ & Hsat & Hsat'
          & Hcase).
    fold g1 in Hsat'. rewrite Htest in Hsat'.
    destruct Hcase as [(Habs & _)
                      |(_ & stake & p & Hbet & _ & Hstake & Hpl & _ & Htw & _)];
      [congruence|].
    exists g', hd, stake. rewrite Hsat. auto 10.
Qed.

Lemma route_plays_beyond_the_bankroll_witness :
  exists g' hd,
    Route.playHand noShuffle
      (Some (BlackjackGame.init noShuffle brokeFromStart)) []
    = Route.Done (Some g', [hd],
                  Route.Success
                    (Route.mkReply false hd (App.getStats (Some g'))))
    /\ BlackjackGame.handsPlayed g' = 1
    /\ BlackjackGame.playHand noShuffle
         (BlackjackGame.init noShuffle brokeFromStart)
       = Ok (BlackjackGame.init noShuffle brokeFromStart, 0%Q).
Proof.
  destruct (Route.playHand noShuffle
              (Some (BlackjackGame.init noShuffle brokeFromStart)) [])
    as [[[og hist'] resp]|e] eqn:Hrun; [|vm_compute in Hrun; discriminate].
  destruct (route_plays_beyond_the_bankroll noShuffle _ [] hist' og resp Hrun)
    as (Hengine & g' & hd & stake & -> & -> & Hsat & _ & _ & Hpl & _);
    [vm_compute; reflexivity | vm_compute; reflexivity |].
  exists g', hd.
  destruct (route_cases noShuffle _ [] _ _ resp Hrun)
    as (g2 & hd2 & sat & Hog & Hhist & Hresp & _ & _ & _ & _ & Hsat2 & _).
  apply app_inj_tail in Hhist. destruct Hhist as [_ <-].
  injection Hog as <-. rewrite Hsat in Hsat2. subst sat resp.
  split; [reflexivity|]. split; [exact Hpl|exact Hengine].
Defined.

Lemma Some_inj {A : Type} (a b : A) : Some a = Some b -> a = b.
Proof. congruence. Qed.

Section RoutePreservation.

Import BlackjackGame.

Variable shuffle : nat -> list Card.t -> list Card.t.

Variable P : t -> Prop.

Hypothesis P_ext :
  forall g g',
    deck g' = deck g -> counter g' = counter g ->
    shuffleIndex g' = shuffleIndex g ->
    reshufflePoint g' = reshufflePoint g ->
    P g -> P g'.

Hypothesis P_drew :
  forall g c rest, Deck.cards (deck g) = c :: rest -> P g -> P (drew g c rest).

Hypothesis P_reshuffle : forall g, P g -> P (reshuffleCheck shuffle g).

Lemma route_bust_preserves (g : t) (bet : Q) :
  P g -> P (Route.bust g bet).
Proof. apply P_ext; reflexivity. Qed.

Lemma route_closeHand_preserves (g : t) (bet : Q) :
  P g -> P (Route.closeHand g bet).
Proof. apply P_ext; reflexivity. Qed.

Lemma route_playerLoop_preserves (shoe : list Card.t) :
  forall g th bet ph acts up turn,
    Deck.cards (deck g) = shoe ->
    Route.playerLoop shoe g th bet ph acts up = Route.Done turn ->
    P g ->
    match turn with
    | Route.Stood g' _ _ _ _ | Route.Busted g' _ _ _ _ => P g'
    end.
Proof.
  induction shoe as [|c rest IH]; intros g th bet ph acts up turn Hshoe H Hg;
    cbn [Route.playerLoop] in H;
    destruct (getAction_noSplit th up (canDoubleNow g th))
      as (a & Ha & Hns);
    rewrite Ha in H; cbn [Route.lift Route.rbind] in H; destruct a;
    try discriminate; try congruence.
  - apply Done_inj in H. now subst turn.
  - destruct (canDoubleNow g th); discriminate.
  - destruct (Hand.isBusted (Hand.addCard th c)).
    + apply Done_inj in H. subst turn.
      apply route_bust_preserves. now apply P_drew.
    + eapply IH; [|exact H|now apply P_drew]. reflexivity.
  - apply Done_inj in H. now subst turn.
  - destruct (canDoubleNow g th).
    + match type of H with
      | (if ?b then _ else _) = _ => destruct b
      end; apply Done_inj in H; subst turn;
        [apply route_bust_preserves|]; now apply P_drew.
    + destruct (Hand.isBusted (Hand.addCard th c)).
      * apply Done_inj in H. subst turn.
        apply route_bust_preserves. now apply P_drew.
      * eapply IH; [|exact H|now apply P_drew]. reflexivity.
Qed.

Lemma route_afterDeal_preserves (g : t) (hist hist' : list Route.HandData)
      (cap : Route.Captured) (bet m : Q) (c1 c2 c3 c4 : Card.t)
      (g' : t) (resp : Route.Response) :
  Route.afterDeal g hist cap bet m c1 c2 c3 c4
  = Route.Done (Some g', hist', resp) ->
  P g -> P g'.
Proof.
  unfold Route.afterDeal. intros H Hg.
  destruct (_ || _).
  - destruct (Route.naturals g bet _ _) as [[res p] g1] eqn:Enat.
    destruct (respond_Done _ _ _ _ _ _ _ H) as (Hog & _).
    apply Some_inj in Hog. subst g'. apply route_closeHand_preserves.
    unfold Route.naturals in Enat.
    destruct (_ && _); [|destruct (_ && _)];
      apply pair_equal_spec in Enat; destruct Enat as [_ <-];
      revert Hg; apply P_ext; reflexivity.
  - destruct (Route.playerLoop _ g _ bet _ _ c2) as [turn|e] eqn:Eturn;
      cbn [Route.rbind] in H; [|discriminate].
    pose proof (route_playerLoop_preserves _ _ _ _ _ _ _ _ eq_refl Eturn Hg)
      as Hturn.
    destruct turn as [gb th' bet' ph' acts'|gs th' bet' ph' acts'].
    + destruct (respond_Done _ _ _ _ _ _ _ H) as (Hog & _).
      apply Some_inj in Hog. now subst g'.
    + destruct (dealerTurn gs _) as [[g3 dh3]|e] eqn:Edealer;
        cbn [Route.lift Route.rbind] in H; [|discriminate].
      unfold dealerTurn in Edealer.
      pose proof (dealerLoop_preserves P P_drew _ _ _ _ _ eq_refl Edealer
                    Hturn) as Hg3.
      destruct (Route.compare g3 th' dh3 bet') as [[res p] g4] eqn:Ecmp.
      destruct (respond_Done _ _ _ _ _ _ _ H) as (Hog & _).
      apply Some_inj in Hog. subst g'. apply route_closeHand_preserves.
      unfold Route.compare in Ecmp.
      destruct (Hand.isBusted dh3 || _); [|destruct (_ <? _)];
        apply pair_equal_spec in Ecmp; destruct Ecmp as [_ <-];
        revert Hg3; apply P_ext; reflexivity.
Qed.

Lemma route_playHand_preserves (g g' : t) (hist hist' : list Route.HandData)
      (resp : Route.Response) :
  Route.playHand shuffle (Some g) hist = Route.Done (Some g', hist', resp) ->
  P g -> P g'.
Proof.
  unfold Route.playHand. intros H Hg.
  apply P_reshuffle in Hg.
  set (g1 := reshuffleCheck shuffle g) in *.
  destruct (useWonging g1 && _).
  - unfold Route.sitOut in H. rewrite route_burn_is_burn in H.
    destruct (respond_Done _ _ _ _ _ _ _ H) as (Hog & _).
    apply Some_inj in Hog. subst g'.
    apply (burn_preserves P P_drew). revert Hg; apply P_ext; reflexivity.
  - unfold Route.playRound in H.
    destruct (Route.divide _ _) as [m|e]; cbn [Route.rbind] in H;
      [|discriminate].
    destruct (dealAndCount g1) as [[c1 g2]|e] eqn:E1;
      cbn [Route.lift Route.rbind] in H; [|discriminate].
    destruct (dealAndCount g2) as [[c2 g3]|e] eqn:E2;
      cbn [Route.lift Route.rbind] in H; [|discriminate].
    destruct (dealAndCount g3) as [[c3 g4]|e] eqn:E3;
      cbn [Route.lift Route.rbind] in H; [|discriminate].
    destruct (dealAndCount g4) as [[c4 g5]|e] eqn:E4;
      cbn [Route.lift Route.rbind] in H; [|discriminate].
    eapply route_afterDeal_preserves; [exact H|].
    apply (dealAndCount_preserves P P_drew _ _ _ E4).
    apply (dealAndCount_preserves P P_drew _ _ _ E3).
    apply (dealAndCount_preserves P P_drew _ _ _ E2).
    apply (dealAndCount_preserves P P_drew _ _ _ E1). exact Hg.
Qed.

End RoutePreservation.

(** X25: the route keeps the counting invariant of the engine: if the cards
    missing from the shoe are exactly the cards the counter was fed, once
    each, then the same holds after a call of the route that answers,
    whether it reshuffled, sat out, or played a hand to any of its
    exits. *)
Theorem route_counts_every_card
        (shuffle : nat -> list Card.t -> list Card.t)
        (g g' : BlackjackGame.t) (hist hist' : list Route.HandData)
        (resp : Route.Response) :
  Counted shuffle g ->
  Route.playHand shuffle (Some g) hist = Route.Done (Some g', hist', resp) ->
  Counted shuffle g'.
Proof.
  intros Hg H.
  exact (route_playHand_preserves shuffle (Counted shuffle)
           (Counted_ext shuffle) (Counted_drew shuffle)
           (reshuffleCheck_Counted shuffle) g g' hist hist' resp H Hg).
Qed.

Lemma route_counts_every_card_witness :
  exists g' hist' resp,
    Route.playHand noShuffle
      (Some (BlackjackGame.init noShuffle BlackjackGame.defaultConfig)) []
    = Route.Done (Some g', hist', resp)
    /\ Counted noShuffle g'.
Proof.
  destruct (Route.playHand noShuffle
              (Some (BlackjackGame.init noShuffle
                       BlackjackGame.defaultConfig)) [])
    as [[[[g'|] hist'] resp]|e] eqn:Hrun;
    [|vm_compute in Hrun; discriminate|vm_compute in Hrun; discriminate].
  exists g', hist', resp. split; [reflexivity|].
  apply (route_counts_every_card noShuffle
           (BlackjackGame.init noShuffle BlackjackGame.defaultConfig)
           g' [] hist' resp);
    [apply init_Counted|exact Hrun].
Defined.

(** ** The history over a session of the web layer *)

Lemma withProfits_snoc (start : Q) (hist : list Route.HandData)
      (hd : Route.HandData) :
  withProfits start (hist ++ [hd])
  = (withProfits start hist + profitOf hd)%Q.
Proof. unfold withProfits. now rewrite fold_left_app. Qed.

Lemma nth_error_snoc {A : Type} (l : list A) (x y : A) (i : nat) :
  nth_error (l ++ [x]) i = Some y ->
  (i < length l)%nat /\ nth_error l i = Some y \/ i = length l /\ y = x.
Proof.
  intros H. destruct (Nat.lt_ge_cases i (length l)) as [Hlt|Hge].
  - left. split; [exact Hlt|]. now rewrite nth_error_app1 in H.
  - right. rewrite nth_error_app2 in H by exact Hge.
    destruct (i - length l)%nat as [|k] eqn:E; cbn [nth_error] in H.
    + split; [lia | congruence].
    + destruct k; discriminate.
Qed.

(** What every state of the globals reached through the two routes
    satisfies. *)
Lemma served_invariant (shuffle : nat -> list Card.t -> list Card.t)
      (c : BlackjackGame.Config) (game : option BlackjackGame.t)
      (hist : list Route.HandData) :
  Served shuffle c game hist ->
  exists g,
    game = Some g
    /\ Z.of_nat (length hist)
       = BlackjackGame.handsPlayed g + BlackjackGame.handsSatOut g
    /\ (forall i hd, nth_error hist i = Some hd ->
                     Route.handNumber hd = Z.of_nat i + 1)
    /\ (BlackjackGame.bankroll g
        == withProfits (BlackjackGame.cfg_startingBankroll c) hist)%Q
    /\ (forall hd, nth_error hist 0 = Some hd ->
                   Route.bankrollBefore hd
                   = BlackjackGame.cfg_startingBankroll c)
    /\ (forall i a b,
          nth_error hist i = Some a -> nth_error hist (S i) = Some b ->
          Route.bankrollAfter a = Some (Route.bankrollBefore b))
    /\ (forall a, nth_error hist (pred (length hist)) = Some a ->
                  Route.bankrollAfter a = Some (BlackjackGame.bankroll g))
    /\ (hist = [] ->
        BlackjackGame.bankroll g = BlackjackGame.cfg_startingBankroll c).
Proof.
  induction 1 as [game hist reply Hnew
                 |game hist game' hist' resp Hserved IH Hrun].
  - unfold Route.newGame, BlackjackGame.newSession in Hnew.
    destruct (Float64.toInt _) as [point|e];
      cbn [bind Route.lift Route.rbind] in Hnew;
      [|discriminate].
    apply Done_inj, pair_equal_spec in Hnew. destruct Hnew as [Hnew _].
    apply pair_equal_spec in Hnew. destruct Hnew as [<- <-].
    exists (BlackjackGame.init shuffle c).
    split; [reflexivity|]. split; [reflexivity|].
    split; [intros [|i] hd Hhd; discriminate|].
    split; [reflexivity|].
    split; [intros hd Hhd; discriminate|].
    split; [intros [|i] a b Ha; discriminate|].
    split; [intros a Ha; discriminate|reflexivity].
  - destruct IH as (g & -> & Hlen & Hnums & Hsum & Hfirst & Hchain & Hlast
                    & Hempty).
    destruct (route_booking shuffle g hist hist' game' resp Hrun)
      as (g' & hd & p & -> & -> & _ & Hnum & Hcount & Hbefore & Hafter
          & Hp & Hb).
    exists g'. split; [reflexivity|].
    split; [rewrite length_app; cbn [length]; lia|].
    split.
    { intros i x Hx. apply nth_error_snoc in Hx.
      destruct Hx as [[_ Hx]|[-> ->]]; [now apply Hnums|].
      rewrite Hnum. lia. }
    split.
    { rewrite withProfits_snoc, Hb, Hsum. unfold profitOf. rewrite Hp.
      reflexivity. }
    split.
    { intros x Hx. apply nth_error_snoc in Hx.
      destruct Hx as [[_ Hx]|[Hi ->]]; [now apply Hfirst|].
      rewrite Hbefore. apply Hempty.
      destruct hist; [reflexivity|discriminate]. }
    split.
    { intros i a b Ha Hb'. apply nth_error_snoc in Hb'.
      destruct Hb' as [[Hlt Hb']|[Hi ->]].
      - rewrite nth_error_app1 in Ha by lia. now apply (Hchain i).
      - rewrite nth_error_app1 in Ha by lia.
        rewrite Hbefore. apply Hlast.
        replace (pred (length hist)) with i by lia. exact Ha. }
    split.
    { intros a Ha. rewrite length_app in Ha. cbn [length] in Ha.
      replace (pred (length hist + 1)) with (length hist) in Ha by lia.
      rewrite nth_error_app2 in Ha by lia.
      rewrite Nat.sub_diag in Ha. cbn [nth_error] in Ha.
      injection Ha as <-. exact Hafter. }
    intros Habs. destruct hist; discriminate.
Qed.

(** X26: over a session of the web layer the history has one entry for
    each round played or sat out, and the hand number of each entry is its
    position in the history, counted from 1. *)
Theorem history_numbers_every_round
        (shuffle : nat -> list Card.t -> list Card.t)
        (c : BlackjackGame.Config) (g : BlackjackGame.t)
        (hist : list Route.HandData) :
  Served shuffle c (Some g) hist ->
  Z.of_nat (length hist)
  = BlackjackGame.handsPlayed g + BlackjackGame.handsSatOut g
  /\ forall i hd, nth_error hist i = Some hd ->
                  Route.handNumber hd = Z.of_nat i + 1.
Proof.
  intros H. destruct (served_invariant shuffle c _ hist H)
    as (g0 & Hg & Hlen & Hnums & _).
  injection Hg as ->. split; assumption.
Qed.

Lemma history_numbers_every_round_witness :
  exists g hist,
    Served noShuffle BlackjackGame.defaultConfig (Some g) hist
    /\ Z.of_nat (length hist)
       = BlackjackGame.handsPlayed g + BlackjackGame.handsSatOut g.
Proof.
  destruct (Route.playHand noShuffle
              (Some (BlackjackGame.init noShuffle
                       BlackjackGame.defaultConfig)) [])
    as [[[[g|] hist] resp]|e] eqn:Hrun;
    [|vm_compute in Hrun; discriminate|vm_compute in Hrun; discriminate].
  assert (Hs : Served noShuffle BlackjackGame.defaultConfig (Some g) hist)
    by (eapply served_hand; [eapply served_new; reflexivity|exact Hrun]).
  exists g, hist. split; [exact Hs|].
  exact (proj1 (history_numbers_every_round noShuffle _ g hist Hs)).
Defined.

(** X27: over a session of the web layer the bankroll is the starting
    bankroll with the profits recorded in the history added to it one
    after the other, in the order of the history; the profit that
    [getStats] reports is that amount minus 1000, whatever the starting
    bankroll was. *)
Theorem history_profits_add_up
        (shuffle : nat -> list Card.t -> list Card.t)
        (c : BlackjackGame.Config) (g : BlackjackGame.t)
        (hist : list Route.HandData) :
  Served shuffle c (Some g) hist ->
  (BlackjackGame.bankroll g
   == withProfits (BlackjackGame.cfg_startingBankroll c) hist)%Q
  /\ forall st, App.getStats (Some g) = Some st ->
                (App.st_profit st
                 == withProfits (BlackjackGame.cfg_startingBankroll c) hist
                    - 1000)%Q.
Proof.
  intros H. destruct (served_invariant shuffle c _ hist H)
    as (g0 & Hg & _ & _ & Hsum & _).
  injection Hg as ->. split; [exact Hsum|].
  intros st Hst. unfold App.getStats in Hst. injection Hst as <-.
  cbn [App.st_profit]. rewrite Hsum. reflexivity.
Qed.

Lemma history_profits_add_up_witness :
  exists g hist,
    Served noShuffle brokeFromStart (Some g) hist
    /\ (BlackjackGame.bankroll g == withProfits 5 hist)%Q.
Proof.
  destruct (Route.playHand noShuffle
              (Some (BlackjackGame.init noShuffle brokeFromStart)) [])
    as [[[[g|] hist] resp]|e] eqn:Hrun;
    [|vm_compute in Hrun; discriminate|vm_compute in Hrun; discriminate].
  assert (Hs : Served noShuffle brokeFromStart (Some g) hist)
    by (eapply served_hand; [eapply served_new; reflexivity|exact Hrun]).
  exists g, hist. split; [exact Hs|].
  exact (proj1 (history_profits_add_up noShuffle _ g hist Hs)).
Defined.

(** X28: over a session of the web layer the bankroll keys of the history
    chain: the first entry starts from the starting bankroll, each entry
    starts from the bankroll the entry before it ended with, and the last
    entry ends with the session's current bankroll. *)
Theorem history_bankrolls_chain
        (shuffle : nat -> list Card.t -> list Card.t)
        (c : BlackjackGame.Config) (g : BlackjackGame.t)
        (hist : list Route.HandData) :
  Served shuffle c (Some g) hist ->
  (forall hd, nth_error hist 0 = Some hd ->
              Route.bankrollBefore hd = BlackjackGame.cfg_startingBankroll c)
  /\ (forall i a b,
        nth_error hist i = Some a -> nth_error hist (S i) = Some b ->
        Route.bankrollAfter a = Some (Route.bankrollBefore b))
  /\ (forall a, nth_error hist (pred (length hist)) = Some a ->
                Route.bankrollAfter a = Some (BlackjackGame.bankroll g)).
Proof.
  intros H. destruct (served_invariant shuffle c _ hist H)
    as (g0 & Hg & _ & _ & _ & Hfirst & Hchain & Hlast & _).
  injection Hg as ->. repeat split; assumption.
Qed.

Lemma history_bankrolls_chain_witness :
  exists g hist,
    Served noShuffle BlackjackGame.defaultConfig (Some g) hist
    /\ forall hd, nth_error hist 0 = Some hd ->
                  Route.bankrollBefore hd = 1000%Q.
Proof.
  destruct (Route.playHand noShuffle
              (Some (BlackjackGame.init noShuffle
                       BlackjackGame.defaultConfig)) [])
    as [[[[g|] hist] resp]|e] eqn:Hrun;
    [|vm_compute in Hrun; discriminate|vm_compute in Hrun; discriminate].
  assert (Hs : Served noShuffle BlackjackGame.defaultConfig (Some g) hist)
    by (eapply served_hand; [eapply served_new; reflexivity|exact Hrun]).
  exists g, hist. split; [exact Hs|].
  exact (proj1 (history_bankrolls_chain noShuffle _ g hist Hs)).
Defined.

(** ** The route against the engine *)

Lemma dealerLoop_wagered (shoe : list Card.t) :
  forall g dh x,
    BlackjackGame.dealerLoop shoe (BlackjackGame.set_totalWagered g x) dh
    = match BlackjackGame.dealerLoop shoe g dh with
      | Ok (g', dh') => Ok (BlackjackGame.set_totalWagered g' x, dh')
      | Raise e => Raise e
      end.
Proof.
  induction shoe as [|c rest IH]; intros g dh x;
    cbn [BlackjackGame.dealerLoop];
    destruct (Hand.getValue dh <? 17); try reflexivity.
  exact (IH (BlackjackGame.drew g c rest) (Hand.addCard dh c) x).
Qed.

Lemma getValue_cards (a b : Hand.t) :
  Hand.cards a = Hand.cards b -> Hand.getValue a = Hand.getValue b.
Proof. unfold Hand.getValue. now intros ->. Qed.

Lemma isBusted_cards (a b : Hand.t) :
  Hand.cards a = Hand.cards b -> Hand.isBusted a = Hand.isBusted b.
Proof.
  intros H. unfold Hand.isBusted. now rewrite (getValue_cards a b H).
Qed.

(** The player's turn of the route follows the engine's, the engine
    running on the session whose total wagered already holds the bet. *)
Lemma playerLoop_agrees (shoe : list Card.t) :
  forall gr h ph acts up x,
    match BlackjackGame.playPlayerLoop
            shoe (BlackjackGame.set_totalWagered gr x) h up with
    | Ok (ge, h', None) =>
        exists gr' th' ph' acts',
          Route.playerLoop shoe gr h (Hand.betAmount h) ph acts up
          = Route.Done (Route.Stood gr' th' (Hand.betAmount h') ph' acts')
          /\ ge = BlackjackGame.set_totalWagered gr' x
          /\ Hand.cards th' = Hand.cards h'
    | Ok (ge, h', Some p) =>
        exists gd th' ph' acts',
          Route.playerLoop shoe gr h (Hand.betAmount h) ph acts up
          = Route.Done (Route.Busted (Route.bust gd (Hand.betAmount h'))
                                     th' (Hand.betAmount h') ph' acts')
          /\ ge = BlackjackGame.lose (BlackjackGame.set_totalWagered gd x) h'
          /\ p = (- Hand.betAmount h')%Q
          /\ Hand.cards th' = Hand.cards h'
    | Raise e =>
        Route.playerLoop shoe gr h (Hand.betAmount h) ph acts up
        = Route.Failed (Route.EngineError e)
    end.
Proof.
  induction shoe as [|c rest IH]; intros gr h ph acts up x;
    cbn [BlackjackGame.playPlayerLoop Route.playerLoop];
    change (BlackjackGame.canDoubleNow
              (BlackjackGame.set_totalWagered gr x) h)
      with (BlackjackGame.canDoubleNow gr h);
    destruct (BasicStrategy.getAction
                h up (BlackjackGame.canDoubleNow gr h) false) as [a|e];
    cbn [bind Route.lift Route.rbind]; try reflexivity;
    destruct a; try reflexivity.
  - now exists gr, h, ph, (acts ++ [STAND]).
  - destruct (BlackjackGame.canDoubleNow gr h); reflexivity.
  - destruct (Hand.isBusted (Hand.addCard h c)).
    + now exists (BlackjackGame.drew gr c rest), (Hand.addCard h c),
        (ph ++ [c]), (acts ++ [HIT]).
    + exact (IH (BlackjackGame.drew gr c rest) (Hand.addCard h c)
                (ph ++ [c]) (acts ++ [HIT]) up x).
  - now exists gr, h, ph, (acts ++ [STAND]).
  - destruct (BlackjackGame.canDoubleNow gr h).
    + rewrite (isBusted_cards
                 (Hand.addCard
                    (Hand.mk (Hand.cards h) (Hand.betAmount h * 2)%Q
                             (Hand.isDoubled h) (Hand.wasSplit h)) c)
                 (Hand.addCard
                    (Hand.mk (Hand.cards h) (Hand.betAmount h * 2)%Q
                             true (Hand.wasSplit h)) c) eq_refl).
      destruct (Hand.isBusted _).
      * now exists (BlackjackGame.drew gr c rest),
          (Hand.addCard
             (Hand.mk (Hand.cards h) (Hand.betAmount h * 2)%Q
                      (Hand.isDoubled h) (Hand.wasSplit h)) c),
          (ph ++ [c]), (acts ++ [DOUBLE]).
      * now exists (BlackjackGame.drew gr c rest),
          (Hand.addCard
             (Hand.mk (Hand.cards h) (Hand.betAmount h * 2)%Q
                      (Hand.isDoubled h) (Hand.wasSplit h)) c),
          (ph ++ [c]), (acts ++ [DOUBLE]).
    + destruct (Hand.isBusted (Hand.addCard h c)).
      * now exists (BlackjackGame.drew gr c rest), (Hand.addCard h c),
          (ph ++ [c]), (acts ++ [DOUBLE]).
      * exact (IH (BlackjackGame.drew gr c rest) (Hand.addCard h c)
                  (ph ++ [c]) (acts ++ [DOUBLE]) up x).
Qed.

Lemma pymax_keep (a b : Q) : (b <= a)%Q -> pymax a b = a.
Proof. intros H. unfold pymax. now rewrite (Qltb_ge a b H). Qed.

Lemma pymin_keep (a b : Q) : (a <= b)%Q -> pymin a b = a.
Proof. intros H. unfold pymin. now rewrite (Qltb_ge b a H). Qed.

Lemma set_totalWagered_same (g : BlackjackGame.t) :
  BlackjackGame.set_totalWagered g (BlackjackGame.totalWagered g) = g.
Proof. now destruct g. Qed.

(** A round of the route against [dealAndPlay], from the same state and
    for the same bet. *)
Lemma playRound_agrees (g : BlackjackGame.t) (hist : list Route.HandData)
      (cap : Route.Captured) (tc : Q) (ge : BlackjackGame.t) (p : Q) :
  BlackjackGame.dealAndPlay g (BlackjackGame.computeBet g tc) = Ok (ge, p) ->
  ~ (BlackjackGame.baseBet g == 0)%Q ->
  (BlackjackGame.minBankroll g <= BlackjackGame.bankroll g)%Q ->
  (BlackjackGame.bankroll g <= BlackjackGame.maxBankroll g)%Q ->
  exists gr hd,
    Route.playRound g hist cap tc
    = Route.Done (Some gr, hist ++ [hd],
                  Route.Success
                    (Route.mkReply false hd (App.getStats (Some gr))))
    /\ ge = BlackjackGame.set_totalWagered gr (BlackjackGame.totalWagered ge)
    /\ exists stake m ph dh up pv dv acts res,
         hd = cap false None (Some (BlackjackGame.bankroll gr)) (Some p)
                  (Some stake) (Some m) ph dh up pv dv acts res.
Proof.
  set (bet := BlackjackGame.computeBet g tc).
  intros H Hbase Hmin Hmax.
  unfold Route.playRound. fold bet. unfold Route.divide.
  destruct (Qeq_bool (BlackjackGame.baseBet g) 0) eqn:Ez;
    [apply Qeq_bool_iff in Ez; contradiction|].
  cbn [Route.rbind].
  unfold BlackjackGame.dealAndPlay, BlackjackGame.initialDeal in H.
  destruct (BlackjackGame.dealAndCount g) as [[c1 g1]|e] eqn:E1;
    cbn [bind] in H; [|discriminate]; cbn [Route.lift Route.rbind].
  destruct (BlackjackGame.dealAndCount g1) as [[c2 g2]|e] eqn:E2;
    cbn [bind] in H; [|discriminate]; cbn [Route.lift Route.rbind].
  destruct (BlackjackGame.dealAndCount g2) as [[c3 g3]|e] eqn:E3;
    cbn [bind] in H; [|discriminate]; cbn [Route.lift Route.rbind].
  destruct (BlackjackGame.dealAndCount g3) as [[c4 g4]|e] eqn:E4;
    cbn [bind] in H; [|discriminate]; cbn [Route.lift Route.rbind].
  destruct (dealAndCount_ledger _ _ _ E1) as [_ Hl1].
  destruct (dealAndCount_ledger _ _ _ E2) as [_ Hl2].
  destruct (dealAndCount_ledger _ _ _ E3) as [_ Hl3].
  destruct (dealAndCount_ledger _ _ _ E4) as [_ Hl4].
  assert (Hl : ledger g4 = ledger g) by congruence.
  destruct (ledger_eq _ _ Hl) as (Eb & _ & _ & _ & _ & _ & _ & Emax & Emin).
  rewrite <- Eb, <- Emin in Hmin. rewrite <- Eb, <- Emax in Hmax.
  clear E1 E2 E3 E4 Hl1 Hl2 Hl3 Hl4 Hl Eb Emax Emin g1 g2 g3.
  set (ph := Hand.mk [c1; c3] bet false false).
  set (dh := Hand.mk [c2; c4] 0%Q false false).
  change (Hand.addCard (Hand.addCard (Hand.mk [] bet false false) c1) c3)
    with ph in H.
  change (Hand.addCard (Hand.addCard Hand.new c2) c4) with dh in H.
  unfold Route.afterDeal. cbv zeta. fold ph dh.
  rewrite !calculateHandValue_getValue.
  change (Nat.eqb (length [c1; c3]) 2 && (valueOf [c1; c3] =? 21))
    with (Hand.isBlackjack ph).
  change (Nat.eqb (length [c2; c4]) 2 && (valueOf [c2; c4] =? 21))
    with (Hand.isBlackjack dh).
  destruct (Hand.isBlackjack ph) eqn:Epbj;
    destruct (Hand.isBlackjack dh) eqn:Edbj; cbn [orb andb].
  - apply Ok_inj, pair_equal_spec in H. destruct H as [<- <-].
    unfold Route.naturals, Route.respond. cbn [andb].
    do 2 eexists. split; [reflexivity|].
    split; [|do 9 eexists; reflexivity].
    unfold Route.closeHand, BlackjackGame.updateBankrollStats. game_fields.
    rewrite (pymax_keep _ _ Hmax), (pymin_keep _ _ Hmin). reflexivity.
  - apply Ok_inj, pair_equal_spec in H. destruct H as [<- <-].
    unfold Route.naturals, Route.respond. cbn [andb].
    do 2 eexists. split; [reflexivity|].
    split; [reflexivity|do 9 eexists; reflexivity].
  - apply Ok_inj, pair_equal_spec in H. destruct H as [<- <-].
    unfold Route.naturals, Route.respond. cbn [andb].
    do 2 eexists. split; [reflexivity|].
    split; [reflexivity|do 9 eexists; reflexivity].
  - unfold dh in H at 1. cbn [Hand.cards] in H.
    unfold BlackjackGame.playPlayerHand in H.
    set (x := (BlackjackGame.totalWagered g4 + bet)%Q) in *.
    change (Deck.cards
              (BlackjackGame.deck (BlackjackGame.set_totalWagered g4 x)))
      with (Deck.cards (BlackjackGame.deck g4)) in H.
    pose proof (playerLoop_agrees (Deck.cards (BlackjackGame.deck g4))
                  g4 ph [c1; c3] [] c2 x) as Hsim.
    change (Hand.betAmount ph) with bet in Hsim.
    destruct (BlackjackGame.playPlayerLoop _ _ ph c2)
      as [[[ge2 h2] [pr|]]|e]; cbn [bind] in H; [| |discriminate].
    + destruct Hsim as (gd & th' & ph' & acts' & Hroute & -> & -> & Hcards).
      apply Ok_inj, pair_equal_spec in H. destruct H as [<- <-].
      rewrite Hroute. cbn [Route.rbind]. unfold Route.respond.
      do 2 eexists. split; [reflexivity|].
      split; [reflexivity|do 9 eexists; reflexivity].
    + destruct Hsim as (gr' & th' & ph' & acts' & Hroute & -> & Hcards).
      rewrite Hroute. cbn [Route.rbind].
      unfold BlackjackGame.dealerTurn in *.
      change (Deck.cards
                (BlackjackGame.deck (BlackjackGame.set_totalWagered gr' x)))
        with (Deck.cards (BlackjackGame.deck gr')) in H.
      rewrite dealerLoop_wagered in H. fold dh.
      destruct (BlackjackGame.dealerLoop _ gr' dh) as [[g3 dh3]|e];
        cbn [bind Route.lift Route.rbind] in *; [|discriminate].
      unfold BlackjackGame.determineWinner in H. unfold Route.compare.
      rewrite (getValue_cards th' h2 Hcards).
      destruct (Hand.isBusted dh3 || _);
        [|destruct (Hand.getValue h2 <? Hand.getValue dh3)];
        apply Ok_inj, pair_equal_spec in H; destruct H as [<- <-];
        unfold Route.respond; do 2 eexists; (split; [reflexivity|]);
        (split; [reflexivity|do 9 eexists; reflexivity]).
Qed.

(** X29: the route plays the round the engine's [playHand] plays.  On a
    session whose bankroll lies between its low and high marks and whose
    base bet is not 0, whenever [playHand] sits the round out or can cover
    the bet and returns, the route answers from the same state with the
    same profit and leaves the same session, except for the total wagered,
    which is the only field the two book differently. *)
Theorem route_agrees_with_engine
        (shuffle : nat -> list Card.t -> list Card.t)
        (g ge : BlackjackGame.t) (p : Q) (hist : list Route.HandData) :
  let g1 := BlackjackGame.reshuffleCheck shuffle g in
  let tc := BlackjackGame.currentTrueCount g1 in
  BlackjackGame.playHand shuffle g = Ok (ge, p) ->
  (BlackjackGame.useWonging g1
   && Qltb tc (BlackjackGame.wongingThreshold g1) = true
   \/ (BlackjackGame.computeBet g1 tc <= BlackjackGame.bankroll g1)%Q) ->
  ~ (BlackjackGame.baseBet g == 0)%Q ->
  (BlackjackGame.minBankroll g <= BlackjackGame.bankroll g)%Q ->
  (BlackjackGame.bankroll g <= BlackjackGame.maxBankroll g)%Q ->
  exists gr hd,
    Route.playHand shuffle (Some g) hist
    = Route.Done (Some gr, hist ++ [hd],
                  Route.Success
                    (Route.mkReply (Route.satOut hd) hd
                                   (App.getStats (Some gr))))
    /\ ge = BlackjackGame.set_totalWagered gr (BlackjackGame.totalWagered ge)
    /\ Route.profit hd = Some p.
Proof.
  intros g1 tc H Hexit Hbase Hmin Hmax.
  unfold BlackjackGame.playHand in H. fold g1 tc in H.
  unfold Route.playHand. fold g1 tc.
  destruct (reshuffleCheck_ledger shuffle g) as [Hs1 Hl1].
  fold g1 in Hs1, Hl1.
  destruct (BlackjackGame.useWonging g1 && _) eqn:Etest.
  - apply Ok_inj, pair_equal_spec in H. destruct H as [<- <-].
    unfold Route.sitOut. rewrite route_burn_is_burn. unfold Route.respond.
    match goal with
    | |- context [Route.Done (Some ?G, _ ++ [?HD], _)] => exists G, HD
    end.
    split; [reflexivity|].
    split; [now rewrite set_totalWagered_same|reflexivity].
  - destruct Hexit as [Habs|Hcover]; [discriminate|].
    rewrite (Qltb_ge _ _ Hcover) in H.
    destruct (settings_eq _ _ Hs1) as (Eb & _).
    destruct (ledger_eq _ _ Hl1) as (Ebank & _ & _ & _ & _ & _ & _ & Emax
                                     & Emin).
    rewrite <- Eb in Hbase. rewrite <- Ebank, <- Emin in Hmin.
    rewrite <- Ebank, <- Emax in Hmax.
    destruct (playRound_agrees g1 hist
                (Route.mkHandData
                   (BlackjackGame.handsPlayed g + BlackjackGame.handsSatOut g
                    + 1)
                   (BlackjackGame.bankroll g)
                   (CardCounter.runningCount (BlackjackGame.counter g))
                   (BlackjackGame.currentTrueCount g)
                   (Deck.decksRemaining (BlackjackGame.deck g))
                   (Deck.needsReshuffle (BlackjackGame.deck g)
                      (BlackjackGame.reshufflePoint g)))
                tc ge p H Hbase Hmin Hmax)
      as (gr & hd & Hroute & Hge & Hhd).
    destruct Hhd as (stake & m & ph & dh & up & pv & dv & acts & res & ->).
    exists gr. eexists. split; [exact Hroute|]. split; [exact Hge|].
    reflexivity.
Qed.

Lemma route_agrees_with_engine_witness :
  exists ge p gr hd,
    BlackjackGame.playHand noShuffle
      (BlackjackGame.init noShuffle BlackjackGame.defaultConfig)
    = Ok (ge, p)
    /\ Route.playHand noShuffle
         (Some (BlackjackGame.init noShuffle BlackjackGame.defaultConfig)) []
       = Route.Done (Some gr, [hd],
                     Route.Success
                       (Route.mkReply (Route.satOut hd) hd
                                      (App.getStats (Some gr))))
    /\ ge = BlackjackGame.set_totalWagered gr (BlackjackGame.totalWagered ge)
    /\ Route.profit hd = Some p.
Proof.
  destruct (BlackjackGame.playHand noShuffle
              (BlackjackGame.init noShuffle BlackjackGame.defaultConfig))
    as [[ge p]|e] eqn:Hrun; [|vm_compute in Hrun; discriminate].
  destruct (route_agrees_with_engine
              noShuffle
              (BlackjackGame.init noShuffle BlackjackGame.defaultConfig)
              ge p [] Hrun)
    as (gr & hd & Hroute & Hge & Hp).
  - right. vm_compute. discriminate.
  - vm_compute. discriminate.
  - vm_compute. discriminate.
  - vm_compute. discriminate.
  - exists ge, p, gr, hd. auto.
Defined.
